(** * cp_trade: multi-account order placement

    A shallow embedding of the order-execution core of the repository
    (instrument_resolver.py, order_executor.py, basket_order_executor.py,
    account_manager.py, threaded_orchestrator.py) and the properties its
    specification states about it.

    Layout: the Python values and the exception/state monad the code is
    read into, then one module per source class holding the translated
    methods, then the lemmas. *)

From Stdlib Require Import ZArith QArith String Ascii List Permutation.
From stdpp Require Import base option list gmap strings pretty.

#[local] Set Warnings "-register-all,-clear-no-such-hyp".
#[local] Open Scope string_scope.

(** ** Python values *)

(** The values that travel through configuration dictionaries, remote
    responses and result dictionaries.  A [dict] with string keys is a
    [gmap]; an object is its class name and its attributes. *)
Inductive PyVal :=
| VNone
| VBool (b : bool)
| VInt (z : Z)
| VFloat (q : Q)
| VStr (s : string)
| VList (l : list PyVal)
| VDict (d : gmap string PyVal)
| VObj (cls : string) (attrs : gmap string PyVal).

(** [bool(v)]: what [if v], [not v] and [v and ...] test. *)
Definition py_truthy (v : PyVal) : bool :=
  match v with
  | VNone => false
  | VBool b => b
  | VInt z => negb (z =? 0)%Z
  | VFloat q => negb (Qeq_bool q 0)
  | VStr s => negb (String.eqb s "")
  | VList l => match l with [] => false | _ :: _ => true end
  | VDict d => negb (Nat.eqb (size d) 0)
  | VObj _ _ => true
  end.

(** [d.get(k)] and [d.get(k, default)]. *)
Definition dict_get (d : gmap string PyVal) (k : string) : PyVal :=
  default VNone (d !! k).

Definition dict_get_or (d : gmap string PyVal) (k : string) (dflt : PyVal) : PyVal :=
  default dflt (d !! k).

(** [v == 'text'] for a string literal. *)
Definition py_eq_str (v : PyVal) (s : string) : bool :=
  match v with
  | VStr s' => String.eqb s' s
  | _ => false
  end.

(** [type(v).__name__], and [type(v)] as an f-string renders it. *)
Definition py_type_name (v : PyVal) : string :=
  match v with
  | VNone => "NoneType"
  | VBool _ => "bool"
  | VInt _ => "int"
  | VFloat _ => "float"
  | VStr _ => "str"
  | VList _ => "list"
  | VDict _ => "dict"
  | VObj cls _ => cls
  end.

Definition py_type (v : PyVal) : string := "<class '" +:+ py_type_name v +:+ "'>".

(** ["_" in s] *)
Fixpoint has_underscore (s : string) : bool :=
  match s with
  | String c s' => Ascii.eqb c "_"%char || has_underscore s'
  | EmptyString => false
  end.

(** ** Exceptions and results *)

(** An exception of class [Exception] or below: its class and the text
    [str(e)] gives. *)
Record Exn := { exn_class : string; exn_msg : string }.

Inductive outcome (A : Type) :=
| Returned (a : A)
| Raised (e : Exn).
Arguments Returned {A} a.
Arguments Raised {A} e.

Definition ValueError (msg : string) : Exn := {| exn_class := "ValueError"; exn_msg := msg |}.
Definition KeyError (key : string) : Exn :=
  {| exn_class := "KeyError"; exn_msg := "'" +:+ key +:+ "'" |}.
Definition AttributeError (msg : string) : Exn :=
  {| exn_class := "AttributeError"; exn_msg := msg |}.
Definition TypeError (msg : string) : Exn := {| exn_class := "TypeError"; exn_msg := msg |}.

(** [d[k]] *)
Definition dict_item (d : gmap string PyVal) (k : string) : outcome PyVal :=
  match d !! k with
  | Some v => Returned v
  | None => Raised (KeyError k)
  end.

(** [v > 0] *)
Definition py_gt0 (v : PyVal) : outcome bool :=
  match v with
  | VBool b => Returned b
  | VInt z => Returned (0 <? z)%Z
  | VFloat q => Returned (negb (Qle_bool q 0))
  | _ => Raised (TypeError ("'>' not supported between instances of '" +:+
                            py_type_name v +:+ "' and 'int'"))
  end.

(** What [len(v)] followed by [for x in v] goes through: the elements of
    a list, the characters of a string, the keys of a dictionary; any
    other value has no [len]. *)
Definition py_elements (v : PyVal) : outcome (list PyVal) :=
  match v with
  | VList l => Returned l
  | VStr s => Returned ((fun c => VStr (String c EmptyString)) <$> list_ascii_of_string s)
  | VDict d => Returned ((fun kv => VStr kv.1) <$> map_to_list d)
  | _ => Raised (TypeError ("object of type '" +:+ py_type_name v +:+ "' has no len()"))
  end.

(** ** Instruments, remote calls and the trace *)

(** [Instrument = namedtuple('Instrument', [...])].  A six-field tuple is
    never falsy, so [not instrument] only tests for [None]. *)
Record Instrument := {
  exchange : PyVal;
  token : PyVal;
  symbol : PyVal;
  name : PyVal;
  expiry : PyVal;
  lot_size : PyVal
}.

(** A keyword argument of a remote order call. *)
Inductive Arg :=
| AEnum (cls member : string)
| AInstrument (i : option Instrument)
| AVal (v : PyVal).

(** What the interpreter and the [pya3] package supply and the repository
    does not define: the text [repr] gives for a value,
    [getattr(Cls, name)] on the enumerations [TransactionType],
    [OrderType] and [ProductType], and [str.strip()] and [str.upper()],
    which follow the interpreter's Unicode tables. *)
Record Host := {
  py_repr : PyVal -> string;
  pya3_getattr : string -> PyVal -> outcome Arg;
  py_strip : string -> string;
  py_upper : string -> string
}.

(** [str(v)], also what an f-string field [{v}] renders: a string is
    itself, every other value prints as its [repr]. *)
Definition py_str (host : Host) (v : PyVal) : string :=
  match v with
  | VStr s => s
  | _ => py_repr host v
  end.

Inductive LogLevel := DEBUG | INFO | WARNING | ERROR.

(** What a session does that is visible outside it: the calls made on its
    broker connection and the records it logs, oldest first. *)
Inductive Event :=
| EvLog (level : LogLevel) (msg : string)
| EvGetInstrumentBySymbol (exch sym : string)
| EvGetInstrumentForFno (exch sym expiry_date : string) (is_fut : bool) (strike : PyVal) (is_CE : bool)
| EvPlaceOrder (params : gmap string Arg)
| EvPlaceBasketOrder (basket : list (gmap string Arg)).

(** The broker connection ([pya3.Aliceblue]).  It is outside the
    repository; each call may answer with any value or raise, and the
    answer may depend on everything the session did before. *)
Module Alice.
Record t := {
  get_instrument_by_symbol : list Event -> string -> string -> outcome PyVal;
  get_instrument_for_fno :
    list Event -> string -> string -> string -> bool -> PyVal -> bool -> outcome PyVal;
  place_order : list Event -> gmap string Arg -> outcome PyVal;
  place_basket_order : list Event -> list (gmap string Arg) -> outcome PyVal
}.
End Alice.

(** [AccountSession]: one authenticated connection with its resolver and
    executors.  The executors hold nothing but the connection and the
    resolver, so the session's state is the connection, the resolver's
    [cache], the resolver's [instruments] attribute (absent until a
    caller assigns it) and the trace. *)
Record AccountSession := {
  account_name : string;
  user_id : PyVal;
  api_key : PyVal;
  alice : Alice.t;
  cache : gmap string Instrument;
  instruments : option (gmap string (option Instrument));
  trace : list Event
}.

Definition with_cache (c : gmap string Instrument) (s : AccountSession) : AccountSession :=
  {| account_name := account_name s; user_id := user_id s; api_key := api_key s;
     alice := alice s; cache := c; instruments := instruments s; trace := trace s |}.

Definition with_instruments (t : option (gmap string (option Instrument)))
  (s : AccountSession) : AccountSession :=
  {| account_name := account_name s; user_id := user_id s; api_key := api_key s;
     alice := alice s; cache := cache s; instruments := t; trace := trace s |}.

Definition with_trace (t : list Event) (s : AccountSession) : AccountSession :=
  {| account_name := account_name s; user_id := user_id s; api_key := api_key s;
     alice := alice s; cache := cache s; instruments := instruments s; trace := t |}.

(** ** The monad: state passing with exceptions

    A computation reads and updates a state and either returns or raises;
    updates made before a raise persist, as in Python. *)
Definition M (S A : Type) : Type := S -> outcome A * S.

Definition ret {S A} (a : A) : M S A := fun s => (Returned a, s).
Definition raise {S A} (e : Exn) : M S A := fun s => (Raised e, s).
Definition bind {S A B} (m : M S A) (k : A -> M S B) : M S B :=
  fun s => match m s with
           | (Returned a, s') => k a s'
           | (Raised e, s') => (Raised e, s')
           end.
(** [try: m  except Exception as e: h e] *)
Definition try_except {S A} (m : M S A) (h : Exn -> M S A) : M S A :=
  fun s => match m s with
           | (Returned a, s') => (Returned a, s')
           | (Raised e, s') => h e s'
           end.
Definition lift {S A} (o : outcome A) : M S A := fun s => (o, s).
Definition gets {S A} (f : S -> A) : M S A := fun s => (Returned (f s), s).
Definition modify {S} (f : S -> S) : M S unit := fun s => (Returned tt, f s).

Notation "'let*' x ':=' m 'in' k" := (bind m (fun x => k))
  (at level 10, x name, m at level 100, k at level 200).
Notation "m ';;' k" := (bind m (fun _ => k))
  (at level 100, k at level 200, right associativity).

Definition emit (ev : Event) : M AccountSession unit :=
  modify (fun s => with_trace (trace s ++ [ev]) s).
Definition log (level : LogLevel) (msg : string) : M AccountSession unit := emit (EvLog level msg).

Definition set_cache (key : string) (i : Instrument) : M AccountSession unit :=
  modify (fun s => with_cache (<[key := i]> (cache s)) s).

(** One remote call: the connection answers from the history so far, and
    the call is recorded whether it answers or raises. *)
Definition remote {A} (ev : Event) (call : Alice.t -> list Event -> outcome A) : M AccountSession A :=
  fun s => (call (alice s) (trace s), with_trace (trace s ++ [ev]) s).

Definition bool_str (b : bool) : string := if b then "True" else "False".

(** ** instrument_resolver.py *)
Module InstrumentResolver.
Section WithHost.
Context (host : Host).

(** [result.attr] on an object. *)
Definition attr (cls : string) (attrs : gmap string PyVal) (k : string) : outcome PyVal :=
  match attrs !! k with
  | Some v => Returned v
  | None => Raised (AttributeError ("'" +:+ cls +:+ "' object has no attribute '" +:+ k +:+ "'"))
  end.

(** The text of an [Instrument] tuple in an f-string. *)
Definition instrument_repr (i : Instrument) : string :=
  "Instrument(exchange=" +:+ py_repr host (exchange i) +:+
  ", token=" +:+ py_repr host (token i) +:+
  ", symbol=" +:+ py_repr host (symbol i) +:+
  ", name=" +:+ py_repr host (name i) +:+
  ", expiry=" +:+ py_repr host (expiry i) +:+
  ", lot_size=" +:+ py_repr host (lot_size i) +:+ ")".

Definition _normalize_instrument (result : PyVal) (exchange symbol : string)
  : outcome Instrument :=
  match result with
  | VObj cls attrs =>
      match attrs !! "exchange" with
      | Some ex =>
          match attr cls attrs "token" with
          | Raised e => Raised e
          | Returned tok =>
              match attr cls attrs "symbol" with
              | Raised e => Raised e
              | Returned sym =>
                  Returned {| exchange := ex; token := tok; symbol := sym;
                              name := dict_get_or attrs "name" (VStr "");
                              expiry := dict_get_or attrs "expiry" (VStr "");
                              lot_size := dict_get_or attrs "lot_size" (VInt 1) |}
              end
          end
      | None => Raised (ValueError ("Unsupported instrument format: " +:+ py_type result))
      end
  | VDict d =>
      Returned {| exchange := dict_get_or d "exchange" (VStr exchange);
                  token := dict_get_or d "token" (VStr "");
                  symbol := dict_get_or d "symbol" (VStr symbol);
                  name := dict_get_or d "name" (VStr "");
                  expiry := dict_get_or d "expiry" (VStr "");
                  lot_size := dict_get_or d "lot_size" (VInt 1) |}
  | _ => Raised (ValueError ("Unsupported instrument format: " +:+ py_type result))
  end.

Definition equity_key (exchange symbol : string) : string :=
  exchange +:+ "_" +:+ symbol.

Definition resolve_equity (exchange symbol : string) : M AccountSession (option Instrument) :=
  let key := equity_key exchange symbol in
  let* c := gets cache in
  match c !! key with
  | Some i => ret (Some i)
  | None =>
      try_except
        (log INFO ("Resolving " +:+ symbol +:+ " on " +:+ exchange +:+ "...");;
         let* result :=
           remote (EvGetInstrumentBySymbol exchange symbol)
                  (fun a h => Alice.get_instrument_by_symbol a h exchange symbol) in
         let* instrument := lift (_normalize_instrument result exchange symbol) in
         set_cache key instrument;;
         log INFO ("✓ Found: " +:+ instrument_repr instrument);;
         ret (Some instrument))
        (fun e =>
           log ERROR ("Failed to resolve " +:+ key +:+ ": " +:+ exn_msg e);;
           ret None)
  end.

Definition fno_key (exchange symbol expiry_date : string)
  (is_fut : bool) (strike : PyVal) (is_ce : bool) : string :=
  let opt_type :=
    if is_fut then "FUT" else (if is_ce then "CE" else "PE") +:+ py_str host strike in
  exchange +:+ "_" +:+ symbol +:+ "_" +:+ expiry_date +:+ "_" +:+ opt_type.

Definition resolve_fno (exchange symbol expiry_date : string)
  (is_fut : bool) (strike : PyVal) (is_ce : bool) : M AccountSession (option Instrument) :=
  let key := fno_key exchange symbol expiry_date is_fut strike is_ce in
  log DEBUG ("Resolving: exchange=" +:+ exchange +:+ ", symbol=" +:+ symbol +:+
             ", expiry=" +:+ expiry_date);;
  log DEBUG ("  is_fut=" +:+ bool_str is_fut +:+ ", strike=" +:+ py_str host strike +:+
             ", is_ce=" +:+ bool_str is_ce);;
  log DEBUG ("  Generated key: " +:+ key);;
  let* c := gets cache in
  match c !! key with
  | Some i => log DEBUG ("  ✅ Cache hit: " +:+ key);; ret (Some i)
  | None =>
      try_except
        (log INFO ("🔍 API call for " +:+ key +:+ "...");;
         let* result :=
           remote (EvGetInstrumentForFno exchange symbol expiry_date is_fut strike is_ce)
                  (fun a h => Alice.get_instrument_for_fno a h exchange symbol expiry_date
                                is_fut strike is_ce) in
         let* instrument := lift (_normalize_instrument result exchange symbol) in
         set_cache key instrument;;
         log INFO ("✅ Resolved: " +:+ instrument_repr instrument);;
         ret (Some instrument))
        (fun e => log ERROR ("❌ Resolution failed: " +:+ exn_msg e);; ret None)
  end.
End WithHost.
End InstrumentResolver.

(** ** order_executor.py *)
Module OrderExecutor.

Definition OrderExecutionError (msg : string) : Exn :=
  {| exn_class := "OrderExecutionError"; exn_msg := msg |}.

(** The arguments of [place_order], defaults already filled in by the
    call ([price=0.0], [trigger_price=None], ..., [is_amo=False],
    [order_tag=""]). *)
Record Order := {
  o_name : PyVal;
  transaction_type : PyVal;
  instrument : option Instrument;
  quantity : PyVal;
  order_type : PyVal;
  product_type : PyVal;
  price : PyVal;
  trigger_price : PyVal;
  stop_loss : PyVal;
  square_off : PyVal;
  trailing_sl : PyVal;
  is_amo : PyVal;
  order_tag : PyVal
}.

(** [v is None] *)
Definition is_None (a : Arg) : bool :=
  match a with
  | AVal VNone => true
  | AInstrument None => true
  | _ => false
  end.

(** [{k: v for k, v in order_params.items() if v is not None}] *)
Definition drop_None (params : gmap string Arg) : gmap string Arg :=
  filter (fun kv => is_None kv.2 = false) params.

Section WithHost.
Context (host : Host).

Definition _process_response (name : PyVal) (response : PyVal)
  : M AccountSession (gmap string PyVal) :=
  let result : gmap string PyVal :=
    <["success" := VBool false]> (<["order_number" := VNone]>
    (<["raw_response" := response]> (<["message" := VStr ""]> ∅))) in
  match response with
  | VList l =>
      match l with
      | [] =>
          let message := "Empty response - possible invalid token" in
          log WARNING (py_str host name +:+ ": " +:+ message);;
          ret (<["message" := VStr message]> result)
      | _ :: _ =>
          ret (<["message" := VStr ("Response: " +:+ py_str host response)]>
               (<["success" := VBool true]> result))
      end
  | VDict d =>
      if py_eq_str (dict_get d "stat") "Ok" then
        let order_number := dict_get d "NOrdNo" in
        let message := "Order placed: NOrdNo=" +:+ py_str host order_number in
        log INFO (py_str host name +:+ ": " +:+ message);;
        ret (<["message" := VStr message]>
             (<["order_number" := order_number]> (<["success" := VBool true]> result)))
      else
        let message := "Order failed: " +:+ py_str host response in
        log ERROR (py_str host name +:+ ": " +:+ message);;
        ret (<["message" := VStr message]> result)
  | _ =>
      let message := "Unexpected response type: " +:+ py_type response in
      log ERROR (py_str host name +:+ ": " +:+ message);;
      ret (<["message" := VStr message]> result)
  end.

(** The dictionary literal [order_params], before the [None] filter. *)
Definition order_params (o : Order) (txn_enum order_enum product_enum : Arg)
  : gmap string Arg :=
  list_to_map
    [ ("transaction_type", txn_enum);
      ("instrument", AInstrument (instrument o));
      ("quantity", AVal (quantity o));
      ("order_type", order_enum);
      ("product_type", product_enum);
      ("price", AVal (price o));
      ("trigger_price", AVal (trigger_price o));
      ("stop_loss", AVal (stop_loss o));
      ("square_off", AVal (square_off o));
      ("trailing_sl", AVal (trailing_sl o));
      ("is_amo", AVal (is_amo o));
      ("order_tag", AVal (order_tag o)) ].

Definition place_order (o : Order) : M AccountSession (gmap string PyVal) :=
  match instrument o with
  | None =>
      (* [not instrument]; a present [Instrument] tuple is truthy and
         has the attribute [token] *)
      raise (OrderExecutionError ("Invalid instrument for " +:+ py_str host (o_name o)))
  | Some _ =>
      let* txn_enum := lift (pya3_getattr host "TransactionType" (transaction_type o)) in
      let* order_enum := lift (pya3_getattr host "OrderType" (order_type o)) in
      let* product_enum := lift (pya3_getattr host "ProductType" (product_type o)) in
      log INFO ("Placing order: " +:+ py_str host (o_name o));;
      let params := drop_None (order_params o txn_enum order_enum product_enum) in
      try_except
        (let* response :=
           remote (EvPlaceOrder params) (fun a h => Alice.place_order a h params) in
         _process_response (o_name o) response)
        (fun e =>
           log ERROR ("Order placement failed for " +:+ py_str host (o_name o) +:+ ": " +:+
                      exn_msg e);;
           raise (OrderExecutionError ("API Error: " +:+ exn_msg e)))
  end.
End WithHost.
End OrderExecutor.

(** [not instrument or not instrument.token] *)
Definition unresolved (i : option Instrument) : bool :=
  match i with
  | None => true
  | Some i => negb (py_truthy (token i))
  end.

(** [self.resolver.instruments], an attribute the constructor does not
    create. *)
Definition resolver_instruments : M AccountSession (gmap string (option Instrument)) :=
  fun s => match instruments s with
           | Some t => (Returned t, s)
           | None => (Raised (AttributeError
                        "'InstrumentResolver' object has no attribute 'instruments'"), s)
           end.

(** [self.resolver.instruments[key] = instrument] *)
Definition resolver_instruments_set (key : string) (i : Instrument) : M AccountSession unit :=
  let* t := resolver_instruments in
  modify (with_instruments (Some (<[key := Some i]> t))).

(** ** basket_order_executor.py *)
Module BasketOrderExecutor.

Definition BasketOrderExecutionError (msg : string) : Exn :=
  {| exn_class := "BasketOrderExecutionError"; exn_msg := msg |}.

(** [{"success": False, "message": msg}] *)
Definition failure (msg : string) : gmap string PyVal :=
  <["success" := VBool false]> (<["message" := VStr msg]> ∅).

(** [order_dict[k] = v] when the guard holds. *)
Definition set_if (guard : bool) (k : string) (v : Arg) (d : gmap string Arg)
  : gmap string Arg :=
  if guard then <[k := v]> d else d.

(** [v is not None] *)
Definition not_None (v : PyVal) : bool :=
  match v with
  | VNone => false
  | _ => true
  end.

(** The order numbers a list response yields: [NOrdNo] of every element
    that is a mapping with [stat == 'Ok'] and a truthy [NOrdNo]. *)
Definition order_numbers (response : list PyVal) : list PyVal :=
  omap (fun resp =>
          match resp with
          | VDict d =>
              if py_eq_str (dict_get d "stat") "Ok" && py_truthy (dict_get d "NOrdNo")
              then Some (dict_get d "NOrdNo") else None
          | _ => None
          end) response.

Section WithHost.
Context (host : Host).

Definition _build_order_dict (order_data : PyVal) : M AccountSession (gmap string Arg) :=
  match order_data with
  | VDict d =>
      let* instr := lift (dict_item d "instrument") in
      let instrument_key := py_upper host (py_strip host (py_str host instr)) in
      let* table := resolver_instruments in
      let found := default None (table !! instrument_key) in
      let* instrument :=
        (if unresolved found then
           if negb (has_underscore instrument_key) then
             log INFO ("🔄 " +:+ instrument_key +:+
                       " not in cache, attempting dynamic resolution...");;
             let* dyn := InstrumentResolver.resolve_equity host "NSE" instrument_key in
             match dyn with
             | Some i =>
                 if py_truthy (token i) then
                   resolver_instruments_set instrument_key i;;
                   log INFO ("✅ Dynamically resolved basket instrument: " +:+ instrument_key);;
                   ret dyn
                 else raise (ValueError ("Invalid instrument: " +:+ instrument_key +:+
                                         " (dynamic resolution failed)"))
             | None => raise (ValueError ("Invalid instrument: " +:+ instrument_key +:+
                                          " (dynamic resolution failed)"))
             end
           else raise (ValueError ("Invalid F&O instrument: " +:+ instrument_key +:+
                                   ". Must be pre-defined."))
         else ret found) in
      let* order_type := lift (dict_item d "order_type") in
      let* order_enum := lift (pya3_getattr host "OrderType" order_type) in
      let* quantity := lift (dict_item d "quantity") in
      let* transaction_type := lift (dict_item d "transaction_type") in
      let* txn_enum := lift (pya3_getattr host "TransactionType" transaction_type) in
      let* product_type := lift (dict_item d "product_type") in
      let* product_enum := lift (pya3_getattr host "ProductType" product_type) in
      let order_dict : gmap string Arg :=
        list_to_map
          [ ("instrument", AInstrument instrument);
            ("order_type", order_enum);
            ("quantity", AVal quantity);
            ("transaction_type", txn_enum);
            ("product_type", product_enum);
            ("order_tag", AVal (dict_get_or d "order_tag" (VStr ""))) ] in
      let* has_price := lift (py_gt0 (dict_get_or d "price" (VFloat 0))) in
      let order_dict := set_if has_price "price" (AVal (dict_get d "price")) order_dict in
      let order_dict :=
        set_if (not_None (dict_get d "trigger_price")) "trigger_price"
               (AVal (dict_get d "trigger_price")) order_dict in
      let order_dict :=
        set_if (not_None (dict_get d "stop_loss")) "stop_loss"
               (AVal (dict_get d "stop_loss")) order_dict in
      let order_dict :=
        set_if (not_None (dict_get d "square_off")) "square_off"
               (AVal (dict_get d "square_off")) order_dict in
      let order_dict :=
        set_if (not_None (dict_get d "trailing_sl")) "trailing_sl"
               (AVal (dict_get d "trailing_sl")) order_dict in
      let order_dict :=
        set_if (py_truthy (dict_get_or d "is_amo" (VBool false))) "is_amo"
               (AVal (VBool true)) order_dict in
      ret order_dict
  | VStr _ => raise (TypeError "string indices must be integers, not 'str'")
  | VList _ => raise (TypeError "list indices must be integers or slices, not str")
  | _ => raise (TypeError ("'" +:+ py_type_name order_data +:+ "' object is not subscriptable"))
  end.

Definition _process_basket_response (basket_name : PyVal) (response : PyVal)
  : M AccountSession (gmap string PyVal) :=
  let result : gmap string PyVal :=
    <["success" := VBool false]> (<["basket_name" := basket_name]>
    (<["raw_response" := response]> (<["order_numbers" := VList []]>
    (<["message" := VStr ""]> ∅)))) in
  log INFO ("Basket response for " +:+ py_str host basket_name +:+ ": " +:+
            py_str host response);;
  match response with
  | VList l =>
      match l with
      | [] =>
          let message := "Empty response from basket order" in
          log WARNING (py_str host basket_name +:+ ": " +:+ message);;
          ret (<["message" := VStr message]> result)
      | _ :: _ =>
          let numbers := order_numbers l in
          log INFO ("✓ " +:+ py_str host basket_name +:+ ": " +:+ pretty (length numbers) +:+
                    " orders placed successfully");;
          ret (<["order_numbers" := VList numbers]>
               (<["message" := VStr (" Basket executed with " +:+ pretty (length l) +:+
                                     " responses")]>
               (<["success" := VBool true]> result)))
      end
  | VDict d =>
      if py_eq_str (dict_get d "stat") "Ok" then
        let message := "Order placed: NOrdNo=" +:+ py_str host (dict_get d "NOrdNo") in
        log INFO ("✓ " +:+ py_str host basket_name +:+ ": " +:+ message);;
        ret (<["message" := VStr message]>
             (<["order_numbers" := VList [dict_get d "NOrdNo"]]>
             (<["success" := VBool true]> result)))
      else
        let message := " Basket failed: " +:+ py_str host response in
        log ERROR ("✗ " +:+ py_str host basket_name +:+ ": " +:+ message);;
        ret (<["message" := VStr message]> result)
  | _ =>
      let message := "Unexpected response type: " +:+ py_type response in
      log ERROR (py_str host basket_name +:+ ": " +:+ message);;
      ret (<["message" := VStr message]> result)
  end.

(** The loop that builds the legs.  It either finishes with the whole
    basket, or leaves [execute_basket] at the first leg whose
    [_build_order_dict] raises, with the result returned there. *)
Fixpoint build_basket (orders : list PyVal) (basket : list (gmap string Arg))
  : M AccountSession (gmap string PyVal + list (gmap string Arg)) :=
  match orders with
  | [] => ret (inr basket)
  | order_data :: rest =>
      fun s =>
        match _build_order_dict order_data s with
        | (Returned order_dict, s') => build_basket rest (basket ++ [order_dict]) s'
        | (Raised e, s') =>
            (log ERROR ("Failed to build order: " +:+ exn_msg e);;
             ret (inl (failure ("Order build failed: " +:+ exn_msg e)))) s'
        end
  end.

Definition execute_basket (basket_config : gmap string PyVal)
  : M AccountSession (gmap string PyVal) :=
  let basket_name := dict_get_or basket_config "name" (VStr "Unnamed Basket") in
  if negb (py_truthy (dict_get_or basket_config "enabled" (VBool true))) then
    log INFO ("Skipping disabled basket: " +:+ py_str host basket_name);;
    ret (failure "Basket disabled")
  else
    let orders := dict_get_or basket_config "orders" (VList []) in
    if negb (py_truthy orders) then
      log WARNING ("No orders found in basket: " +:+ py_str host basket_name);;
      ret (failure "Empty basket")
    else
      let* legs := lift (py_elements orders) in
      log INFO ("Executing basket order: " +:+ py_str host basket_name +:+ " with " +:+
                pretty (length legs) +:+ " legs");;
      let* built := build_basket legs [] in
      match built with
      | inl result => ret result
      | inr basket =>
          try_except
            (let* response :=
               remote (EvPlaceBasketOrder basket)
                      (fun a h => Alice.place_basket_order a h basket) in
             _process_basket_response basket_name response)
            (fun e =>
               log ERROR ("Basket order execution failed: " +:+ exn_msg e);;
               raise (BasketOrderExecutionError ("API Error: " +:+ exn_msg e)))
      end.
End WithHost.
End BasketOrderExecutor.

(** ** The worker pool ([concurrent.futures])

    [ThreadPoolExecutor(max_workers=n)] rejects a pool without workers
    before anything is submitted. *)
Definition ThreadPoolExecutor (max_workers : Z) : outcome Z :=
  if (max_workers <=? 0)%Z
  then Raised (ValueError "max_workers must be greater than 0")
  else Returned max_workers.

(** ** auth.py

    The process environment and the [pya3.Aliceblue] login are outside
    the repository: [connect] stands for [Aliceblue(user_id, api_key)]
    followed by [get_session_id()]. *)
Module Authenticator.
Record Env := {
  getenv : string -> PyVal;
  connect : PyVal -> PyVal -> outcome Alice.t
}.

(** [Authenticator()]: the credentials found in the environment. *)
Definition __init__ (env : Env) : outcome (PyVal * PyVal) :=
  let user_id := getenv env "USER_ID" in
  let api_key := getenv env "API_KEY" in
  if negb (py_truthy user_id) || negb (py_truthy api_key)
  then Raised (ValueError "USER_ID and API_KEY must be set in .env file")
  else Returned (user_id, api_key).

Definition login (env : Env) (user_id api_key : PyVal) : outcome Alice.t :=
  connect env user_id api_key.
End Authenticator.

(** ** account_manager.py *)
Module AccountManager.

(** An account descriptor: its [account_name] entry, a string, when it
    has one, and its other entries ([user_id], [api_key], [enabled],
    ...). *)
Record AccountConfig := {
  acc_name : option string;
  acc_fields : gmap string PyVal
}.

(** [acc["account_name"]] *)
Definition account_name_item (acc : AccountConfig) : outcome string :=
  match acc_name acc with
  | Some account_name => Returned account_name
  | None => Raised (KeyError "account_name")
  end.

Record t := {
  accounts_config : list AccountConfig;
  sessions : gmap string AccountSession;
  logged : list Event
}.

Definition __init__ (accounts_config : list AccountConfig) : t :=
  {| accounts_config := accounts_config; sessions := ∅; logged := [] |}.

Definition self_log (level : LogLevel) (msg : string) : M t unit :=
  modify (fun m => {| accounts_config := accounts_config m; sessions := sessions m;
                      logged := logged m ++ [EvLog level msg] |}).

(** [self.sessions[account_name] = session] *)
Definition sessions_set (account_name : string) (session : AccountSession) : M t unit :=
  modify (fun m => {| accounts_config := accounts_config m;
                      sessions := <[account_name := session]> (sessions m);
                      logged := logged m |}).

(** [acc.get("enabled", True)] *)
Definition is_enabled (acc : AccountConfig) : bool :=
  py_truthy (dict_get_or (acc_fields acc) "enabled" (VBool true)).

(** [download_contracts] only calls the patched [get_contract_master],
    which swallows its own exceptions, so past a successful login
    nothing here raises. *)
Definition _initialize_single (env : Authenticator.Env) (account_config : AccountConfig)
  : outcome AccountSession :=
  match account_name_item account_config with
  | Raised e => Raised e
  | Returned account_name =>
      match dict_item (acc_fields account_config) "user_id" with
      | Raised e => Raised e
      | Returned user_id =>
          match dict_item (acc_fields account_config) "api_key" with
          | Raised e => Raised e
          | Returned api_key =>
              match Authenticator.__init__ env with
              | Raised e => Raised e
              | Returned _ =>
                  match Authenticator.login env user_id api_key with
                  | Raised e => Raised e
                  | Returned connection =>
                      Returned {| account_name := account_name;
                                  user_id := user_id; api_key := api_key;
                                  alice := connection; cache := ∅;
                                  instruments := None; trace := [] |}
                  end
              end
          end
      end
  end.

(** The dictionary comprehension that submits the tasks:
    [{executor.submit(self._initialize_single, acc): acc["account_name"]
      for acc in enabled_accounts}].  The futures are numbered in
    submission order.  The name is read in the caller's thread, outside
    every [try]: a descriptor without one ends the comprehension, and
    the call, with [KeyError]. *)
Fixpoint future_to_account (env : Authenticator.Env) (enabled_accounts : list AccountConfig)
  : outcome (list (outcome AccountSession * string)) :=
  match enabled_accounts with
  | [] => Returned []
  | acc :: rest =>
      let future := _initialize_single env acc in
      match account_name_item acc with
      | Raised e => Raised e
      | Returned account_name =>
          match future_to_account env rest with
          | Raised e => Raised e
          | Returned submitted => Returned ((future, account_name) :: submitted)
          end
      end
  end.

(** [for future in as_completed(future_to_account)]: [completion] lists
    the futures in the order they finish. *)
Fixpoint collect (future_to_account : list (outcome AccountSession * string))
  (completion : list nat) : M t unit :=
  match completion with
  | [] => ret tt
  | future :: rest =>
      match future_to_account !! future with
      | Some (Returned session, account_name) =>
          sessions_set account_name session;;
          self_log INFO ("✓ " +:+ account_name +:+ " initialized successfully");;
          collect future_to_account rest
      | Some (Raised e, account_name) =>
          self_log ERROR ("✗ Failed to initialize " +:+ account_name +:+ ": " +:+ exn_msg e);;
          collect future_to_account rest
      | None => collect future_to_account rest
      end
  end.

Definition initialize_all (env : Authenticator.Env) (completion : list nat)
  : M t (gmap string AccountSession) :=
  let* config := gets accounts_config in
  let enabled_accounts := List.filter is_enabled config in
  self_log INFO ("Initializing " +:+ pretty (length enabled_accounts) +:+ " accounts...");;
  let* _ := lift (ThreadPoolExecutor (Z.min 5 (Z.of_nat (length enabled_accounts)))) in
  let* submitted := lift (future_to_account env enabled_accounts) in
  collect submitted completion;;
  gets sessions.
End AccountManager.

(** ** threaded_orchestrator.py *)
Module ThreadedOrchestrator.

Record t := { max_workers : Z }.

(** A basket specification as the orchestrator receives it.  The
    dictionary's own entries are values; its ["orders"] entry, when
    present, is a list of references to the leg dictionaries, which
    live in the store and are shared by every holder of the basket.
    Baskets whose ["orders"] entry is anything but a list of
    dictionaries are not represented. *)
Definition loc := nat.

Record Basket := {
  entries : gmap string PyVal;
  orders : option (list loc)
}.

(** What a basket holder reads through its references. *)
Definition read_basket (store : gmap loc (gmap string PyVal)) (basket : Basket)
  : gmap string PyVal :=
  match orders basket with
  | Some legs =>
      <["orders" := VList ((fun l => VDict (default ∅ (store !! l))) <$> legs)]>
        (entries basket)
  | None => entries basket
  end.

(** What one account's task works on: its own session, and the two
    objects every task shares, the [instruments] dictionary and the
    leg dictionaries of the baskets.  The session's resolver keeps its
    own [instruments] attribute; a caller that assigns the shared
    dictionary to it (main.py does) makes the two one object, which the
    state here holds as two tables written together by the task. *)
Record TaskState := {
  ts_session : AccountSession;
  ts_instruments : gmap string (option Instrument);
  ts_store : gmap loc (gmap string PyVal)
}.

Definition in_session {A} (m : M AccountSession A) : M TaskState A :=
  fun ts => match m (ts_session ts) with
            | (o, s') => (o, {| ts_session := s'; ts_instruments := ts_instruments ts;
                                ts_store := ts_store ts |})
            end.

(** [instruments[key] = instrument] *)
Definition instruments_set (key : string) (i : Instrument) : M TaskState unit :=
  modify (fun ts => {| ts_session := ts_session ts;
                       ts_instruments := <[key := Some i]> (ts_instruments ts);
                       ts_store := ts_store ts |}).

Definition store_set (l : loc) (d : gmap string PyVal) : M TaskState unit :=
  modify (fun ts => {| ts_session := ts_session ts; ts_instruments := ts_instruments ts;
                       ts_store := <[l := d]> (ts_store ts) |}).

(** [{"success": False, "error": str(e)}] *)
Definition failed (e : Exn) : PyVal :=
  VDict (<["success" := VBool false]> (<["error" := VStr (exn_msg e)]> ∅)).

(** The entry the collection loop stores for a finished future. *)
Definition entry (o : outcome PyVal) : PyVal :=
  match o with
  | Returned r => r
  | Raised e => failed e
  end.

(** The tasks run in worker threads.  A schedule fixes what the threads
    leave open: [run_order] is the order in which the pool runs the
    tasks, each taken to its end before the next touches the shared
    objects, and [completion] is the order in which [as_completed]
    hands the finished futures over.  Futures are named by their
    account, the keys of [sessions] being distinct. *)
Record Schedule := {
  run_order : list string;
  completion : list string
}.

(** What the orchestrator's caller owns: the sessions, the shared
    instrument table, the leg dictionaries, and the orchestrator's log. *)
Record World := {
  w_sessions : gmap string AccountSession;
  w_instruments : gmap string (option Instrument);
  w_store : gmap loc (gmap string PyVal);
  w_logged : list Event
}.

Definition self_log (level : LogLevel) (msg : string) : M World unit :=
  modify (fun w => {| w_sessions := w_sessions w; w_instruments := w_instruments w;
                      w_store := w_store w; w_logged := w_logged w ++ [EvLog level msg] |}).

(** One submitted task, run on the world as it is when the pool gets
    to it. *)
Definition run_task (task : string -> M TaskState PyVal) (account_name : string)
  (w : World) : option (outcome PyVal) * World :=
  match w_sessions w !! account_name with
  | Some session =>
      match task account_name {| ts_session := session;
                                 ts_instruments := w_instruments w;
                                 ts_store := w_store w |} with
      | (o, ts) =>
          (Some o, {| w_sessions := <[account_name := ts_session ts]> (w_sessions w);
                      w_instruments := ts_instruments ts;
                      w_store := ts_store ts;
                      w_logged := w_logged w |})
      end
  | None => (None, w)
  end.

Fixpoint run_tasks (task : string -> M TaskState PyVal) (order : list string)
  (futures : gmap string (outcome PyVal)) (w : World)
  : gmap string (outcome PyVal) * World :=
  match order with
  | [] => (futures, w)
  | account_name :: rest =>
      match run_task task account_name w with
      | (Some o, w') => run_tasks task rest (<[account_name := o]> futures) w'
      | (None, w') => run_tasks task rest futures w'
      end
  end.

(** [for future in as_completed(future_to_account)] with its
    [try]/[except]; [what] is the text the error record starts with. *)
Fixpoint collect (what : string -> string) (futures : gmap string (outcome PyVal))
  (completion : list string) (results : gmap string PyVal)
  : M World (gmap string PyVal) :=
  match completion with
  | [] => ret results
  | account_name :: rest =>
      match futures !! account_name with
      | Some (Returned r) =>
          collect what futures rest (<[account_name := r]> results)
      | Some (Raised e) =>
          self_log ERROR (what account_name +:+ ": " +:+ exn_msg e);;
          collect what futures rest (<[account_name := failed e]> results)
      | None => collect what futures rest results
      end
  end.

(** The body shared by the two entry points: build the pool, submit one
    task per session, collect. *)
Definition fan_out (self : t) (task : string -> M TaskState PyVal)
  (what : string -> string) (sched : Schedule) : M World (gmap string PyVal) :=
  let* _ := lift (ThreadPoolExecutor (max_workers self)) in
  fun w =>
    match run_tasks task (run_order sched) ∅ w with
    | (futures, w') => collect what futures (completion sched) ∅ w'
    end.

Section WithHost.
Context (host : Host).

Definition task_log (level : LogLevel) (msg : string) : M TaskState unit :=
  in_session (log level msg).

(** One turn of the loop over [order_config]: [None] is [continue], a
    value is what the turn appends to [individual_orders]. *)
Definition execute_order (account_name : string) (order_data : gmap string PyVal)
  : M TaskState (option PyVal) :=
  if negb (py_truthy (dict_get_or order_data "enabled" (VBool true))) then
    task_log DEBUG ("Skipping disabled order: " +:+ py_str host (dict_get order_data "name"));;
    ret None
  else
    let* instr := lift (dict_item order_data "instrument") in
    let instrument_key := py_upper host (py_strip host (py_str host instr)) in
    let* table := gets ts_instruments in
    let found := default None (table !! instrument_key) in
    let* resolved :=
      (if unresolved found then
         if negb (has_underscore instrument_key) then
           task_log INFO ("🔄 Dynamic resolution attempt: " +:+ instrument_key);;
           let* dyn := in_session (InstrumentResolver.resolve_equity host "NSE" instrument_key) in
           match dyn with
           | Some i =>
               if py_truthy (token i) then
                 instruments_set instrument_key i;;
                 in_session (resolver_instruments_set instrument_key i);;
                 task_log INFO ("✅ Dynamically resolved: " +:+ instrument_key +:+
                                " (Token: " +:+ py_str host (token i) +:+ ")");;
                 ret dyn
               else
                 task_log WARNING ("❌ Dynamic resolution failed for " +:+ instrument_key +:+
                                   ", skipping");;
                 ret None
           | None =>
               task_log WARNING ("❌ Dynamic resolution failed for " +:+ instrument_key +:+
                                 ", skipping");;
               ret None
           end
         else
           task_log WARNING ("❌ Invalid F&O instrument " +:+ instrument_key +:+ ", skipping");;
           ret None
       else ret found) in
    match resolved with
    | None => ret None
    | Some instrument =>
        try_except
          (let* name := lift (dict_item order_data "name") in
           task_log INFO ("Executing: " +:+ py_str host name +:+ " on " +:+ account_name);;
           let* transaction_type := lift (dict_item order_data "transaction_type") in
           let* quantity := lift (dict_item order_data "quantity") in
           let* order_type := lift (dict_item order_data "order_type") in
           let* product_type := lift (dict_item order_data "product_type") in
           let* result :=
             in_session (OrderExecutor.place_order host
               {| OrderExecutor.o_name := name;
                  OrderExecutor.transaction_type := transaction_type;
                  OrderExecutor.instrument := Some instrument;
                  OrderExecutor.quantity := quantity;
                  OrderExecutor.order_type := order_type;
                  OrderExecutor.product_type := product_type;
                  OrderExecutor.price := dict_get_or order_data "price" (VFloat 0);
                  OrderExecutor.trigger_price := dict_get order_data "trigger_price";
                  OrderExecutor.stop_loss := dict_get order_data "stop_loss";
                  OrderExecutor.square_off := dict_get order_data "square_off";
                  OrderExecutor.trailing_sl := dict_get order_data "trailing_sl";
                  OrderExecutor.is_amo := dict_get_or order_data "is_amo" (VBool false);
                  OrderExecutor.order_tag :=
                    VStr (account_name +:+ "_" +:+
                          py_str host (dict_get_or order_data "order_tag" (VStr ""))) |}) in
           ret (Some (VDict result)))
          (fun e =>
             task_log ERROR ("Order failed: " +:+ exn_msg e);;
             ret (Some (failed e)))
    end.

Fixpoint execute_orders (account_name : string) (order_config : list (gmap string PyVal))
  (individual_orders : list PyVal) : M TaskState (list PyVal) :=
  match order_config with
  | [] => ret individual_orders
  | order_data :: rest =>
      let* r := execute_order account_name order_data in
      execute_orders account_name rest
        (match r with
         | Some result => individual_orders ++ [result]
         | None => individual_orders
         end)
  end.

Definition _execute_on_single_account (order_config : list (gmap string PyVal))
  (account_name : string) : M TaskState PyVal :=
  task_log INFO ("Starting execution for " +:+ account_name);;
  task_log INFO ("Processing " +:+ pretty (length order_config) +:+ " orders for " +:+
                 account_name);;
  let* individual_orders := execute_orders account_name order_config [] in
  ret (VDict (<["individual_orders" := VList individual_orders]>
              (<["basket_orders" := VList []]> ∅))).

(** [order_func] is accepted and never used; [sessions] and
    [instruments] are the caller's objects, here the world's. *)
Definition execute_on_all_accounts (self : t) (order_config : list (gmap string PyVal))
  (sched : Schedule) : M World (gmap string PyVal) :=
  fan_out self (_execute_on_single_account order_config)
    (fun account_name => "Account " +:+ account_name +:+ " failed") sched.

(** [order["order_tag"] = f"{account_name}_{original_tag}"] on one leg. *)
Definition tag_order (account_name : string) (order : loc) : M TaskState unit :=
  let* store := gets ts_store in
  match store !! order with
  | Some d =>
      let original_tag := dict_get_or d "order_tag" (VStr "") in
      store_set order
        (<["order_tag" := VStr (account_name +:+ "_" +:+ py_str host original_tag)]> d)
  | None => ret tt
  end.

Fixpoint tag_orders (account_name : string) (legs : list loc) : M TaskState unit :=
  match legs with
  | [] => ret tt
  | order :: rest => tag_order account_name order;; tag_orders account_name rest
  end.

(** [basket.copy()] is a new dictionary with the same entries: the
    copy's ["orders"] is the very list of the original. *)
Definition _tag_basket_orders (basket : Basket) (account_name : string)
  : M TaskState Basket :=
  let basket_copy := {| entries := entries basket; orders := orders basket |} in
  tag_orders account_name (default [] (orders basket_copy));;
  ret basket_copy.

Fixpoint execute_baskets (account_name : string) (baskets_config : list Basket)
  (results : list PyVal) : M TaskState (list PyVal) :=
  match baskets_config with
  | [] => ret results
  | basket :: rest =>
      if negb (py_truthy (dict_get_or (entries basket) "enabled" (VBool true))) then
        task_log INFO ("Skipping disabled basket: " +:+
                       py_str host (dict_get (entries basket) "name"));;
        execute_baskets account_name rest results
      else
        let* r :=
          try_except
            (let* basket_copy := _tag_basket_orders basket account_name in
             let* store := gets ts_store in
             let* result :=
               in_session (BasketOrderExecutor.execute_basket host
                             (read_basket store basket_copy)) in
             ret (VDict result))
            (fun e =>
               task_log ERROR ("Basket failed: " +:+ exn_msg e);;
               ret (failed e)) in
        execute_baskets account_name rest (results ++ [r])
  end.

Definition _execute_baskets_on_single_account (baskets_config : list Basket)
  (account_name : string) : M TaskState PyVal :=
  let* results := execute_baskets account_name baskets_config [] in
  ret (VDict (<["basket_orders" := VList results]> ∅)).

Definition execute_basket_on_all_accounts (self : t) (baskets_config : list Basket)
  (sched : Schedule) : M World (gmap string PyVal) :=
  fan_out self (_execute_baskets_on_single_account baskets_config)
    (fun account_name => "Basket execution failed for " +:+ account_name) sched.
End WithHost.
End ThreadedOrchestrator.

(** ** Resolution requests

    The two entry points of the resolver under one name, with the cache
    key each computes and the remote lookup each issues on a miss. *)
Inductive Query :=
| Equity (exchange symbol : string)
| Fno (exchange symbol expiry_date : string) (is_fut : bool) (strike : PyVal) (is_ce : bool).

Definition resolve (host : Host) (q : Query) : M AccountSession (option Instrument) :=
  match q with
  | Equity ex sym => InstrumentResolver.resolve_equity host ex sym
  | Fno ex sym expiry is_fut strike is_ce =>
      InstrumentResolver.resolve_fno host ex sym expiry is_fut strike is_ce
  end.

Definition query_key (host : Host) (q : Query) : string :=
  match q with
  | Equity ex sym => InstrumentResolver.equity_key ex sym
  | Fno ex sym expiry is_fut strike is_ce =>
      InstrumentResolver.fno_key host ex sym expiry is_fut strike is_ce
  end.

Definition lookup_answer (a : Alice.t) (history : list Event) (q : Query) : outcome PyVal :=
  match q with
  | Equity ex sym => Alice.get_instrument_by_symbol a history ex sym
  | Fno ex sym expiry is_fut strike is_ce =>
      Alice.get_instrument_for_fno a history ex sym expiry is_fut strike is_ce
  end.

(** What a miss returns for a given remote answer: the normalized record,
    or [None] when the call or the normalization raised. *)
Definition normalized (q : Query) (answer : outcome PyVal) : option Instrument :=
  match answer with
  | Returned result =>
      match q with
      | Equity ex sym | Fno ex sym _ _ _ _ =>
          match InstrumentResolver._normalize_instrument result ex sym with
          | Returned i => Some i
          | Raised _ => None
          end
      end
  | Raised _ => None
  end.

(** ** Observations on traces *)

(** The remote instrument lookups in a trace. *)
Definition is_lookup (ev : Event) : bool :=
  match ev with
  | EvGetInstrumentBySymbol _ _ => true
  | EvGetInstrumentForFno _ _ _ _ _ _ => true
  | _ => false
  end.

Definition lookup_calls (t : list Event) : nat := length (List.filter is_lookup t).

(** The remote single-order calls and basket calls in a trace. *)
Definition is_place_order (ev : Event) : bool :=
  match ev with
  | EvPlaceOrder _ => true
  | _ => false
  end.

Definition is_place_basket_order (ev : Event) : bool :=
  match ev with
  | EvPlaceBasketOrder _ => true
  | _ => false
  end.

Definition place_order_calls (t : list Event) : nat := length (List.filter is_place_order t).

Definition place_basket_order_calls (t : list Event) : nat :=
  length (List.filter is_place_basket_order t).

(** The payloads handed to the remote single-order call, oldest first. *)
Definition payloads (t : list Event) : list (gmap string Arg) :=
  omap (fun ev => match ev with EvPlaceOrder params => Some params | _ => None end) t.

(** ** The response classes of section 4.2

    The three-way rule as the specification words it: a mapping with the
    "ok" status is accepted with its order number, a non-empty list is
    accepted as it is, everything else is rejected. *)
Inductive ResponseClass :=
| AcceptedMapping (order_number : PyVal)
| AcceptedList
| Rejected.

Definition classify (response : PyVal) : ResponseClass :=
  match response with
  | VDict d =>
      if py_eq_str (dict_get d "stat") "Ok"
      then AcceptedMapping (dict_get d "NOrdNo")
      else Rejected
  | VList (_ :: _) => AcceptedList
  | _ => Rejected
  end.

(** The optional parameters of an order with their values. *)
Definition optional_fields (o : OrderExecutor.Order) : list (string * PyVal) :=
  [ ("price", OrderExecutor.price o);
    ("trigger_price", OrderExecutor.trigger_price o);
    ("stop_loss", OrderExecutor.stop_loss o);
    ("square_off", OrderExecutor.square_off o);
    ("trailing_sl", OrderExecutor.trailing_sl o);
    ("is_amo", OrderExecutor.is_amo o) ].

(** ** What a computation adds to the trace

    [emits tr P m]: whatever state [m] starts from, the trace it leaves
    (read through [tr]) is the trace it found followed by events that
    all satisfy [P]. *)
Definition emits {S A} (tr : S -> list Event) (P : Event -> Prop) (m : M S A) : Prop :=
  forall s, exists evs, tr (m s).2 = (tr s ++ evs)%list /\ Forall P evs.

(** An event that is not the remote basket call. *)
Definition not_basket_call (ev : Event) : Prop := is_place_basket_order ev = false.

(** An event that is not a remote instrument lookup, or is the equity
    lookup of a symbol without underscore. *)
Definition plain_equity_lookup (ev : Event) : Prop :=
  match ev with
  | EvGetInstrumentBySymbol _ sym => has_underscore sym = false
  | EvGetInstrumentForFno _ _ _ _ _ _ => False
  | _ => True
  end.

(** ** Legs of a basket, run in order

    [leg_fails host legs s e s']: building the legs in order from state
    [s], some leg's [_build_order_dict] raises [e] after every leg
    before it was built, and leaves state [s']. *)
Inductive leg_fails (host : Host) : list PyVal -> AccountSession -> Exn -> AccountSession -> Prop :=
| leg_fails_here leg rest s e s' :
    BasketOrderExecutor._build_order_dict host leg s = (Raised e, s') ->
    leg_fails host (leg :: rest) s e s'
| leg_fails_later leg rest s order_dict s1 e s' :
    BasketOrderExecutor._build_order_dict host leg s = (Returned order_dict, s1) ->
    leg_fails host rest s1 e s' ->
    leg_fails host (leg :: rest) s e s'.

(** The task state after the task's logger wrote one more record. *)
Definition task_logged (ev : Event) (ts : ThreadedOrchestrator.TaskState)
  : ThreadedOrchestrator.TaskState :=
  {| ThreadedOrchestrator.ts_session :=
       with_trace (trace (ThreadedOrchestrator.ts_session ts) ++ [ev])
                  (ThreadedOrchestrator.ts_session ts);
     ThreadedOrchestrator.ts_instruments := ThreadedOrchestrator.ts_instruments ts;
     ThreadedOrchestrator.ts_store := ThreadedOrchestrator.ts_store ts |}.

(** The trace of the session a task works on. *)
Definition task_trace (ts : ThreadedOrchestrator.TaskState) : list Event :=
  trace (ThreadedOrchestrator.ts_session ts).

(** ** Fault isolation, as section 4.5 words it

    [fault_isolated run task sched w]: the entry point [run], fanning
    [task] out over the sessions of [w] under the schedule [sched],
    returns a mapping keyed by exactly the accounts of the sessions; an
    account whose task returned has what the task returned, an account
    whose task raised has [{success: False, error: <message>}], and
    every future is the outcome of that account's task. *)
Definition fault_isolated
  (run : ThreadedOrchestrator.Schedule -> M ThreadedOrchestrator.World (gmap string PyVal))
  (task : string -> M ThreadedOrchestrator.TaskState PyVal)
  (sched : ThreadedOrchestrator.Schedule) (w : ThreadedOrchestrator.World) : Prop :=
  exists futures w1 results w',
    ThreadedOrchestrator.run_tasks task (ThreadedOrchestrator.run_order sched) ∅ w =
      (futures, w1) /\
    run sched w = (Returned results, w') /\
    dom results = dom (ThreadedOrchestrator.w_sessions w) /\
    dom futures = dom (ThreadedOrchestrator.w_sessions w) /\
    (forall name r, futures !! name = Some (Returned r) -> results !! name = Some r) /\
    (forall name e, futures !! name = Some (Raised e) ->
       results !! name =
         Some (VDict (<["success" := VBool false]> (<["error" := VStr (exn_msg e)]> ∅)))) /\
    (forall name o, futures !! name = Some o -> exists ts, (task name ts).1 = o).

(** The order tags of the legs a basket holder reads. *)
Definition leg_tags (basket : gmap string PyVal) : list PyVal :=
  match basket !! "orders" with
  | Some (VList legs) =>
      (fun leg => match leg with
                  | VDict d => dict_get_or d "order_tag" (VStr "")
                  | _ => VNone
                  end) <$> legs
  | _ => []
  end.

(** A leg dictionary with its tag prefixed by the account name. *)
Definition tagged (host : Host) (account_name : string) (d : gmap string PyVal)
  : gmap string PyVal :=
  <["order_tag" := VStr (account_name +:+ "_" +:+
                         py_str host (dict_get_or d "order_tag" (VStr "")))]> d.

(** ** Fixtures

    A host and two broker connections for the examples.  [plain_repr] is
    [repr] on the scalars the examples contain; the member names are
    those of the [pya3] enumerations. *)
Definition plain_repr (v : PyVal) : string :=
  match v with
  | VNone => "None"
  | VBool b => bool_str b
  | VInt z => pretty z
  | VStr s => "'" +:+ s +:+ "'"
  | _ => "<" +:+ py_type_name v +:+ ">"
  end.

Definition pya3_members (cls : string) : list string :=
  if String.eqb cls "TransactionType" then ["Buy"; "Sell"]
  else if String.eqb cls "OrderType"
       then ["Market"; "Limit"; "StopLossLimit"; "StopLossMarket"]
  else if String.eqb cls "ProductType"
       then ["Intraday"; "Delivery"; "CoverOrder"; "BracketOrder"]
  else [].

(** [str.strip] and [str.upper] on ASCII text, which is all the
    examples contain. *)
Definition is_space (c : ascii) : bool :=
  let n := nat_of_ascii c in
  ((9 <=? n) && (n <=? 13) || (28 <=? n) && (n <=? 32))%nat.

Fixpoint lstrip (s : string) : string :=
  match s with
  | String c s' => if is_space c then lstrip s' else s
  | EmptyString => EmptyString
  end.

Fixpoint rstrip (s : string) : string :=
  match s with
  | String c s' =>
      match rstrip s' with
      | EmptyString => if is_space c then EmptyString else String c EmptyString
      | r => String c r
      end
  | EmptyString => EmptyString
  end.

Definition ascii_strip (s : string) : string := rstrip (lstrip s).

Definition upper_ascii (c : ascii) : ascii :=
  let n := nat_of_ascii c in
  if ((97 <=? n) && (n <=? 122))%nat then ascii_of_nat (n - 32) else c.

Fixpoint ascii_upper (s : string) : string :=
  match s with
  | String c s' => String (upper_ascii c) (ascii_upper s')
  | EmptyString => EmptyString
  end.

Definition example_host : Host := {|
  py_repr := plain_repr;
  pya3_getattr cls v :=
    match v with
    | VStr s =>
        if existsb (String.eqb s) (pya3_members cls)
        then Returned (AEnum cls s)
        else Raised (AttributeError s)
    | _ => Raised (TypeError "attribute name must be string")
    end;
  py_strip := ascii_strip;
  py_upper := ascii_upper
|}.

(** A connection whose every call raises. *)
Definition unreachable : Alice.t :=
  let down {A} : outcome A :=
    Raised {| exn_class := "ConnectionError"; exn_msg := "broker unreachable" |} in
  {| Alice.get_instrument_by_symbol _ _ _ := down;
     Alice.get_instrument_for_fno _ _ _ _ _ _ _ := down;
     Alice.place_order _ _ := down;
     Alice.place_basket_order _ _ := down |}.

(** A connection that answers every lookup with a mapping carrying the
    token ["2885"], accepts single orders with an order number and
    acknowledges baskets with a list. *)
Definition broker : Alice.t :=
  {| Alice.get_instrument_by_symbol _ ex sym :=
       Returned (VDict (<["exchange" := VStr ex]> (<["token" := VStr "2885"]>
                       (<["symbol" := VStr sym]> ∅))));
     Alice.get_instrument_for_fno _ ex sym _ _ _ _ :=
       Returned (VDict (<["exchange" := VStr ex]> (<["token" := VStr "2885"]>
                       (<["symbol" := VStr sym]> ∅))));
     Alice.place_order _ _ :=
       Returned (VDict (<["stat" := VStr "Ok"]> (<["NOrdNo" := VStr "1001"]> ∅)));
     Alice.place_basket_order _ basket :=
       Returned (VList ((fun _ => VDict (<["stat" := VStr "Ok"]> ∅)) <$> basket)) |}.

(** A fresh session on a connection, as [_initialize_single] leaves it. *)
Definition fresh_session (a : Alice.t) : AccountSession :=
  {| account_name := "A"; user_id := VStr "U1"; api_key := VStr "K1";
     alice := a; cache := ∅; instruments := None; trace := [] |}.

(** An environment with credentials set, in which every login succeeds
    on the [broker] connection except that of user ["BAD"]. *)
Definition example_env : Authenticator.Env :=
  {| Authenticator.getenv _ := VStr "set";
     Authenticator.connect user_id _ :=
       if py_eq_str user_id "BAD"
       then Raised {| exn_class := "Exception"; exn_msg := "login rejected" |}
       else Returned broker |}.

(** The descriptor [{account_name, user_id, api_key: "K"}], enabled by
    default. *)
Definition account (account_name user_id : string) : AccountManager.AccountConfig :=
  {| AccountManager.acc_name := Some account_name;
     AccountManager.acc_fields :=
       list_to_map [ ("user_id", VStr user_id); ("api_key", VStr "K") ] |}.

(** Two sessions on the [broker] connection: account A's resolver has
    its [instruments] table assigned (empty), account B's has not.  The
    shared table is empty and there is one order, for TCS. *)
Definition two_accounts : ThreadedOrchestrator.World :=
  {| ThreadedOrchestrator.w_sessions :=
       <["A" := with_instruments (Some ∅) (fresh_session broker)]>
         (<["B" := fresh_session broker]> ∅);
     ThreadedOrchestrator.w_instruments := ∅;
     ThreadedOrchestrator.w_store := ∅;
     ThreadedOrchestrator.w_logged := [] |}.

Definition tcs_order : gmap string PyVal :=
  list_to_map [ ("name", VStr "buy-tcs"); ("instrument", VStr "TCS");
                ("transaction_type", VStr "Buy"); ("quantity", VInt 1);
                ("order_type", VStr "Market"); ("product_type", VStr "Intraday") ].

(** ** Further observations *)

(** The baskets handed to the remote basket call, oldest first. *)
Definition basket_payloads (t : list Event) : list (list (gmap string Arg)) :=
  omap (fun ev => match ev with EvPlaceBasketOrder basket => Some basket | _ => None end) t.

(** [legs_built host legs s dicts s']: building the legs in order from
    state [s], every leg's [_build_order_dict] returns; [dicts] are the
    dictionaries built, in leg order, and [s'] the state left. *)
Inductive legs_built (host : Host)
  : list PyVal -> AccountSession -> list (gmap string Arg) -> AccountSession -> Prop :=
| legs_built_nil s : legs_built host [] s [] s
| legs_built_cons leg rest s order_dict s1 dicts s' :
    BasketOrderExecutor._build_order_dict host leg s = (Returned order_dict, s1) ->
    legs_built host rest s1 dicts s' ->
    legs_built host (leg :: rest) s (order_dict :: dicts) s'.

(** ** instrument_resolver.py: [resolve_mcx_gold]

    The symbols are tried in order; a returned [Instrument] tuple is
    truthy, so the first symbol that resolves ends the loop. *)
Fixpoint resolve_mcx_gold (host : Host) (symbols : list string)
  : M AccountSession (option Instrument) :=
  match symbols with
  | [] => log WARNING "No valid MCX GOLD instrument found";; ret None
  | symbol :: rest =>
      let* instrument := InstrumentResolver.resolve_equity host "MCX" symbol in
      match instrument with
      | Some i => ret (Some i)
      | None => resolve_mcx_gold host rest
      end
  end.

(** ** What a computation leaves alone, and what it returns

    [keeps f m]: running [m] never changes what [f] reads of the state.
    [returns_only Q m]: whenever [m] returns, what it returns
    satisfies [Q]. *)
Definition keeps {S A X} (f : S -> X) (m : M S A) : Prop :=
  forall s, f (m s).2 = f s.

Definition returns_only {S A} (Q : A -> Prop) (m : M S A) : Prop :=
  forall s a s', m s = (Returned a, s') -> Q a.

(** An event that is no remote instrument lookup. *)
Definition not_lookup (ev : Event) : Prop := is_lookup ev = false.

(** An event that is no single-order call, or is one whose [order_tag]
    is a string starting with the account name and an underscore. *)
Definition tagged_for (account_name : string) (ev : Event) : Prop :=
  match ev with
  | EvPlaceOrder params =>
      exists tag, params !! "order_tag" = Some (AVal (VStr (account_name +:+ "_" +:+ tag)))
  | _ => True
  end.

(** [acc.get("enabled", True)] on an order and on a basket. *)
Definition order_enabled (order_data : gmap string PyVal) : bool :=
  py_truthy (dict_get_or order_data "enabled" (VBool true)).

Definition basket_enabled (basket : ThreadedOrchestrator.Basket) : bool :=
  py_truthy (dict_get_or (ThreadedOrchestrator.entries basket) "enabled" (VBool true)).

(** The [try] block of one turn of the loop over [order_config], with
    its handler: what [execute_order] runs once the instrument is at
    hand. *)
Definition place_block (host : Host) (account_name : string) (order_data : gmap string PyVal)
  (instrument : Instrument) : M ThreadedOrchestrator.TaskState (option PyVal) :=
  try_except
    (let* name := lift (dict_item order_data "name") in
     ThreadedOrchestrator.task_log INFO ("Executing: " +:+ py_str host name +:+ " on " +:+ account_name);;
     let* transaction_type := lift (dict_item order_data "transaction_type") in
     let* quantity := lift (dict_item order_data "quantity") in
     let* order_type := lift (dict_item order_data "order_type") in
     let* product_type := lift (dict_item order_data "product_type") in
     let* result :=
       ThreadedOrchestrator.in_session (OrderExecutor.place_order host
         {| OrderExecutor.o_name := name;
            OrderExecutor.transaction_type := transaction_type;
            OrderExecutor.instrument := Some instrument;
            OrderExecutor.quantity := quantity;
            OrderExecutor.order_type := order_type;
            OrderExecutor.product_type := product_type;
            OrderExecutor.price := dict_get_or order_data "price" (VFloat 0);
            OrderExecutor.trigger_price := dict_get order_data "trigger_price";
            OrderExecutor.stop_loss := dict_get order_data "stop_loss";
            OrderExecutor.square_off := dict_get order_data "square_off";
            OrderExecutor.trailing_sl := dict_get order_data "trailing_sl";
            OrderExecutor.is_amo := dict_get_or order_data "is_amo" (VBool false);
            OrderExecutor.order_tag :=
              VStr (account_name +:+ "_" +:+
                    py_str host (dict_get_or order_data "order_tag" (VStr ""))) |}) in
     ret (Some (VDict result)))
    (fun e =>
       ThreadedOrchestrator.task_log ERROR ("Order failed: " +:+ exn_msg e);;
       ret (Some (ThreadedOrchestrator.failed e))).


(** ** main.py: the multi-account set-up

    [TradingTestSuite._initialize_multi_account].  Reading the master
    configuration and the spreadsheet is outside the model: [accounts]
    is [self.config_data.get("accounts", [])], and [master_file] stands
    for [MasterFile.xlsx], [None] when the file does not exist and
    otherwise what [load_master_excel] does with it.  The suite logs on
    its own logger, kept as the (level, message) records in order. *)
Module TradingTestSuite.

Record t := {
  account_manager : option AccountManager.t;
  orchestrator : option ThreadedOrchestrator.t;
  sessions : gmap string AccountSession;
  logged : list (string * string)
}.

Definition FileNotFoundError (msg : string) : Exn :=
  {| exn_class := "FileNotFoundError"; exn_msg := msg |}.

Definition self_log (level msg : string) : M t unit :=
  modify (fun self => {| account_manager := account_manager self;
                         orchestrator := orchestrator self;
                         sessions := sessions self;
                         logged := logged self ++ [(level, msg)] |}).

(** [self.account_manager = AccountManager(enabled_accounts)] followed
    by [self.sessions = self.account_manager.initialize_all()]: the
    manager is the suite's from the first assignment on, so it is there
    with whatever [initialize_all] did to it also when the call raises,
    in which case [self.sessions] is not assigned. *)
Definition initialize_manager (env : Authenticator.Env) (completion : list nat)
  (enabled_accounts : list AccountManager.AccountConfig) : M t unit :=
  fun self =>
    match AccountManager.initialize_all env completion
            (AccountManager.__init__ enabled_accounts) with
    | (Returned sessions', m) =>
        (Returned tt, {| account_manager := Some m; orchestrator := orchestrator self;
                         sessions := sessions'; logged := logged self |})
    | (Raised e, m) =>
        (Raised e, {| account_manager := Some m; orchestrator := orchestrator self;
                      sessions := sessions self; logged := logged self |})
    end.

(** [self.orchestrator = ThreadedOrchestrator(max_workers=...)]; the
    constructor only stores the number. *)
Definition orchestrator_set (max_workers : Z) : M t unit :=
  modify (fun self => {| account_manager := account_manager self;
                         orchestrator := Some {| ThreadedOrchestrator.max_workers := max_workers |};
                         sessions := sessions self;
                         logged := logged self |}).

Definition _initialize_multi_account (env : Authenticator.Env) (completion : list nat)
  (accounts : list AccountManager.AccountConfig)
  (master_file : option (outcome (list AccountManager.AccountConfig))) : M t unit :=
  let* accounts_config :=
    match accounts with
    | [] =>
        try_except
          (match master_file with
           | Some loaded => lift loaded
           | None => raise (FileNotFoundError "MasterFile.xlsx not found in root directory")
           end)
          (fun e =>
             self_log "CRITICAL" ("Failed to load MasterFile.xlsx: " +:+ exn_msg e);;
             raise (ValueError ("No accounts configuration found. " +:+
                                "Need 'accounts' in _master.yaml or MasterFile.xlsx")))
    | _ => ret accounts
    end in
  let enabled_accounts := List.filter AccountManager.is_enabled accounts_config in
  match enabled_accounts with
  | [] => raise (ValueError "No enabled accounts found")
  | _ =>
      initialize_manager env completion enabled_accounts;;
      let* sessions' := gets sessions in
      orchestrator_set (Z.min 5 (Z.of_nat (size sessions')));;
      self_log "INFO" ("✓ Multi-account mode initialized with " +:+
                       pretty (size sessions') +:+ " accounts")
  end.
End TradingTestSuite.

(* ===================================================================== *)
(** * Properties *)
(* ===================================================================== *)

Ltac run := unfold bind, ret, raise, lift, gets, modify, try_except, log, emit, remote,
              set_cache in *; simpl in *.

Lemma lookup_calls_app (t u : list Event) :
  lookup_calls (t ++ u) = lookup_calls t + lookup_calls u.
Proof. unfold lookup_calls. by rewrite List.filter_app, length_app. Qed.

Lemma place_basket_order_calls_app (t u : list Event) :
  place_basket_order_calls (t ++ u) = place_basket_order_calls t + place_basket_order_calls u.
Proof. unfold place_basket_order_calls. by rewrite List.filter_app, length_app. Qed.

Lemma place_order_calls_app (t u : list Event) :
  place_order_calls (t ++ u) = place_order_calls t + place_order_calls u.
Proof. unfold place_order_calls. by rewrite List.filter_app, length_app. Qed.

(** *** instrument_resolver.py *)
Section Resolver.
Context (host : Host).
Import InstrumentResolver.

Ltac count_lookups :=
  rewrite ?lookup_calls_app; unfold lookup_calls; simpl; lia.

Lemma resolve_hit q i (s : AccountSession) :
  cache s !! query_key host q = Some i ->
  exists s', resolve host q s = (Returned (Some i), s') /\
             cache s' = cache s /\
             lookup_calls (trace s') = lookup_calls (trace s).
Proof.
  intros H. destruct q as [ex sym|ex sym expiry is_fut strike is_ce]; simpl in *.
  - unfold resolve_equity. run. rewrite H. by eexists.
  - unfold resolve_fno. run. rewrite H.
    eexists; split; [reflexivity|]. simpl. split; [done|]. count_lookups.
Qed.

Lemma resolve_miss q (s : AccountSession) :
  cache s !! query_key host q = None ->
  exists history r s1,
    (trace s `prefix_of` history) /\
    (r = normalized q (lookup_answer (alice s) history q)) /\
    resolve host q s = (Returned r, s1) /\
    lookup_calls (trace s1) = S (lookup_calls (trace s)) /\
    cache s1 = match r with
               | Some i => <[query_key host q := i]> (cache s)
               | None => cache s
               end.
Proof.
  intros H. destruct q as [ex sym|ex sym expiry is_fut strike is_ce]; simpl in *.
  - unfold resolve_equity. run. rewrite H.
    match goal with
    | |- context [Alice.get_instrument_by_symbol _ ?h _ _] => exists h
    end.
    destruct (Alice.get_instrument_by_symbol _ _ ex sym) as [result|e]; simpl;
      [destruct (_normalize_instrument result ex sym) as [i|e]; simpl|];
      eexists _, _; (split; [by eexists|]); (split; [reflexivity|]);
      (split; [reflexivity|]); simpl; (split; [count_lookups|done]).
  - unfold resolve_fno. run. rewrite H.
    match goal with
    | |- context [Alice.get_instrument_for_fno _ ?h _ _ _ _ _ _] => exists h
    end.
    destruct (Alice.get_instrument_for_fno _ _ ex sym expiry is_fut strike is_ce)
      as [result|e]; simpl;
      [destruct (_normalize_instrument result ex sym) as [i|e]; simpl|];
      eexists _, _; (split; [rewrite <- !app_assoc; by eexists|]);
      (split; [reflexivity|]); (split; [reflexivity|]); simpl;
      (split; [count_lookups|done]).
Qed.

(** A resolution that returns a record leaves it in the cache. *)
Lemma resolve_Some_cached q i (s s1 : AccountSession) :
  resolve host q s = (Returned (Some i), s1) ->
  cache s1 !! query_key host q = Some i.
Proof.
  intros Hres. destruct (cache s !! query_key host q) as [j|] eqn:Hc.
  - destruct (resolve_hit q j s Hc) as (s' & Hr & Hcache & _).
    rewrite Hr in Hres. injection Hres as -> ->. by rewrite Hcache.
  - destruct (resolve_miss q s Hc) as (h & r & s' & _ & _ & Hr & _ & Hcache).
    rewrite Hr in Hres. injection Hres as -> ->.
    rewrite Hcache. apply lookup_insert_eq.
Qed.

(** The resolver never raises past its boundary. *)
Lemma resolve_returns q (s : AccountSession) :
  exists r s1, resolve host q s = (Returned r, s1).
Proof.
  destruct (cache s !! query_key host q) as [j|] eqn:Hc.
  - destruct (resolve_hit q j s Hc) as (s' & Hr & _). eauto.
  - destruct (resolve_miss q s Hc) as (h & r & s' & _ & _ & Hr & _). eauto.
Qed.
End Resolver.

(** C6, the claim as stated fails: a lookup that fails is not cached.
    On a connection that raises, the first resolution of NSE/TCS returns
    [None] and leaves the cache as it was; the second resolution, on
    that unchanged cache, issues a remote lookup again (two in all). *)
Lemma resolve_twice_after_failure_calls_again :
  let q := Equity "NSE" "TCS" in
  let s0 := fresh_session unreachable in
  let s1 := (resolve example_host q s0).2 in
  let s2 := (resolve example_host q s1).2 in
  (resolve example_host q s0).1 = Returned None /\
  cache s1 = cache s0 /\
  lookup_calls (trace s1) = 1 /\
  lookup_calls (trace s2) = 2 /\
  lookup_calls (trace s2) <> lookup_calls (trace s1).
Proof. vm_compute. repeat split; congruence. Qed.

(** C6 (amended): for every request (equity or F&O) and every session
    state, (1) if a resolution returns an Instrument record, resolving
    the same request again on an unchanged cache returns that same
    record and issues no remote lookup; (2) on a cache miss the resolver
    returns without raising, issues exactly one remote lookup, and
    returns the normalized answer, which is then stored under the
    computed key; when the lookup or the normalization fails it returns
    [None] and stores nothing. *)
Theorem resolve_cache_hit_and_miss (host : Host) (q : Query) (s : AccountSession) :
  (forall i s1 s1',
      resolve host q s = (Returned (Some i), s1) ->
      cache s1' = cache s1 ->
      exists s2, resolve host q s1' = (Returned (Some i), s2) /\
                 lookup_calls (trace s2) = lookup_calls (trace s1') /\
                 cache s2 = cache s1') /\
  (cache s !! query_key host q = None ->
   exists history r s1,
     (trace s `prefix_of` history) /\
     (r = normalized q (lookup_answer (alice s) history q)) /\
     resolve host q s = (Returned r, s1) /\
     lookup_calls (trace s1) = S (lookup_calls (trace s)) /\
     cache s1 = match r with
                | Some i => <[query_key host q := i]> (cache s)
                | None => cache s
                end).
Proof.
  split.
  - intros i s1 s1' Hres Hsame.
    pose proof (resolve_Some_cached host q i s s1 Hres) as Hc.
    rewrite <- Hsame in Hc.
    destruct (resolve_hit host q i s1' Hc) as (s2 & Hr & Hcache & Hcalls). eauto.
  - apply resolve_miss.
Qed.

Lemma resolve_cache_hit_and_miss_witness :
  let q := Equity "NSE" "TCS" in
  let s0 := fresh_session broker in
  let s1 := (resolve example_host q s0).2 in
  (exists i s2, resolve example_host q s1 = (Returned (Some i), s2) /\
                lookup_calls (trace s2) = lookup_calls (trace s1)) /\
  (exists r s1', resolve example_host q s0 = (Returned r, s1') /\
                 lookup_calls (trace s1') = 1).
Proof.
  intros q s0 s1.
  destruct (resolve_cache_hit_and_miss example_host q s0) as [Htwice Hmiss].
  split.
  - destruct (Htwice
        {| exchange := VStr "NSE"; token := VStr "2885"; symbol := VStr "TCS";
           name := VStr ""; expiry := VStr ""; lot_size := VInt 1 |} s1 s1)
      as (s2 & Hr & Hcalls & _); [vm_compute; reflexivity | reflexivity |].
    eauto.
  - destruct Hmiss as (h & r & s1' & _ & _ & Hr & Hcalls & _); [vm_compute; reflexivity|].
    exists r, s1'. split; [exact Hr|]. rewrite Hcalls. reflexivity.
Defined.

(** *** order_executor.py *)
Section Executor.
Context (host : Host).
Import OrderExecutor.

Lemma payloads_app (t u : list Event) : payloads (t ++ u) = (payloads t ++ payloads u)%list.
Proof. unfold payloads. apply omap_app. Qed.

(** [_process_response] only logs. *)
Lemma _process_response_trace name response (s : AccountSession) :
  exists r s' lvl msg,
    _process_response host name response s = (Returned r, s') /\
    (trace s' = trace s \/ trace s' = (trace s ++ [EvLog lvl msg])%list).
Proof.
  unfold _process_response.
  destruct response as [| | | | |[|x l]|d|]; run;
    try destruct (py_eq_str _ _); run;
    eexists _, _, _, _; (split; [reflexivity|]); simpl; eauto.
  Unshelve. all: first [exact INFO | exact ""].
Qed.
End Executor.

(** C4: every response falls in exactly one of the three classes and the
    result follows the class: a mapping with [stat == 'Ok'] gives
    [success = True] with [order_number] taken from [NOrdNo]; a
    non-empty list gives [success = True] and no order number, whatever
    its elements are; anything else gives [success = False] with a
    non-empty message; the raw response is kept in every case, and the
    call never raises. *)
Theorem process_response_three_way (host : Host) (name response : PyVal)
  (s : AccountSession) :
  exists r s',
    OrderExecutor._process_response host name response s = (Returned r, s') /\
    r !! "raw_response" = Some response /\
    match classify response with
    | AcceptedMapping order_number =>
        r !! "success" = Some (VBool true) /\ r !! "order_number" = Some order_number
    | AcceptedList =>
        r !! "success" = Some (VBool true) /\ r !! "order_number" = Some VNone
    | Rejected =>
        r !! "success" = Some (VBool false) /\ r !! "order_number" = Some VNone /\
        exists message, r !! "message" = Some (VStr message) /\ message <> ""
    end.
Proof.
  unfold OrderExecutor._process_response, classify.
  destruct response as [| | | | |[|x l]|d|]; run;
    try destruct (py_eq_str _ _); run;
    eexists _, _; (split; [reflexivity|]); simplify_map_eq;
    repeat split; try done; eexists; (split; [reflexivity|]); discriminate.
Qed.

Section ExecutorPayload.
Context (host : Host).
Import OrderExecutor.

(** With an instrument present and the three enumeration names known,
    [place_order] makes the remote call, once, with the filtered
    parameters. *)
Lemma place_order_calls_remote o i txn ord prod (s : AccountSession) :
  instrument o = Some i ->
  pya3_getattr host "TransactionType" (transaction_type o) = Returned txn ->
  pya3_getattr host "OrderType" (order_type o) = Returned ord ->
  pya3_getattr host "ProductType" (product_type o) = Returned prod ->
  exists out s',
    place_order host o s = (out, s') /\
    payloads (trace s') = (payloads (trace s) ++ [drop_None (order_params o txn ord prod)])%list.
Proof.
  intros Hi Ht Ho Hp. unfold place_order. rewrite Hi. run. rewrite Ht, Ho, Hp. simpl.
  match goal with |- context [Alice.place_order ?a ?h ?p] =>
    destruct (Alice.place_order a h p) as [response|e] end.
  - match goal with |- context [_process_response host ?n response ?st] =>
      destruct (_process_response_trace host n response st)
        as (r & s' & lvl & msg & Hr & Htr) end.
    rewrite Hr. eexists _, _. split; [reflexivity|].
    destruct Htr as [-> | ->]; simpl; rewrite !payloads_app; simpl;
      by rewrite ?app_nil_r.
  - eexists _, _. split; [reflexivity|]. simpl. rewrite !payloads_app. simpl.
    by rewrite ?app_nil_r.
Qed.

(** Otherwise it raises before the remote call. *)
Lemma place_order_raises_locally o (s : AccountSession) :
  instrument o = None \/
  (exists e, pya3_getattr host "TransactionType" (transaction_type o) = Raised e) \/
  (exists e, pya3_getattr host "OrderType" (order_type o) = Raised e) \/
  (exists e, pya3_getattr host "ProductType" (product_type o) = Raised e) ->
  exists e, place_order host o s = (Raised e, s).
Proof.
  unfold place_order. intros H.
  destruct (instrument o) as [i|]; [|by eexists].
  destruct H as [H|H]; [done|]. run.
  destruct (pya3_getattr host "TransactionType" _) as [txn|e]; [|by eexists].
  destruct H as [[e H]|H]; [done|].
  destruct (pya3_getattr host "OrderType" _) as [ord|e]; [|by eexists].
  destruct H as [[e H]|[e H]]; [done|].
  rewrite H. by eexists.
Qed.

Lemma place_order_None_instrument o (s : AccountSession) :
  instrument o = None ->
  place_order host o s =
    (Raised (OrderExecutionError ("Invalid instrument for " +:+ py_str host (o_name o))), s).
Proof. intros H. unfold place_order. by rewrite H. Qed.

Lemma drop_None_optional o txn ord prod k v :
  (k, v) ∈ optional_fields o ->
  drop_None (order_params o txn ord prod) !! k =
    match v with
    | VNone => None
    | _ => Some (AVal v)
    end.
Proof.
  unfold optional_fields, drop_None, order_params. intros Hin.
  rewrite map_lookup_filter. simpl.
  repeat (apply elem_of_cons in Hin as [Heq|Hin]; [injection Heq as -> ->|]);
    [..|by apply elem_of_nil in Hin];
    simplify_map_eq; simpl; by case_match.
Qed.
End ExecutorPayload.

(** C7, the claim as stated fails for the price and the after-market
    flag: an order specification that names neither leaves the
    orchestrator with [price=0.0] and [is_amo=False], and the payload of
    the one remote call carries both, while the four parameters left at
    [None] are omitted. *)
Lemma default_price_and_amo_are_sent :
  let order_data : gmap string PyVal :=
    list_to_map [ ("name", VStr "buy-tcs"); ("instrument", VStr "TCS");
                  ("transaction_type", VStr "Buy"); ("quantity", VInt 1);
                  ("order_type", VStr "Market"); ("product_type", VStr "Intraday") ] in
  let tcs := {| exchange := VStr "NSE"; token := VStr "2885"; symbol := VStr "TCS";
                name := VStr ""; expiry := VStr ""; lot_size := VInt 1 |} in
  let ts := {| ThreadedOrchestrator.ts_session := fresh_session broker;
               ThreadedOrchestrator.ts_instruments := {["TCS" := Some tcs]};
               ThreadedOrchestrator.ts_store := ∅ |} in
  let ts' := (ThreadedOrchestrator.execute_order example_host "A" order_data ts).2 in
  let sent := payloads (trace (ThreadedOrchestrator.ts_session ts')) in
  order_data !! "price" = None /\ order_data !! "is_amo" = None /\
  (fun params : gmap string Arg => params !! "price") <$> sent = [Some (AVal (VFloat 0))] /\
  (fun params : gmap string Arg => params !! "is_amo") <$> sent = [Some (AVal (VBool false))] /\
  (fun params : gmap string Arg => params !! "trigger_price") <$> sent = [None] /\
  (fun params : gmap string Arg => params !! "stop_loss") <$> sent = [None] /\
  (fun params : gmap string Arg => params !! "square_off") <$> sent = [None] /\
  (fun params : gmap string Arg => params !! "trailing_sl") <$> sent = [None].
Proof. vm_compute. repeat split. Qed.

(** C7 (amended): whenever [place_order] reaches the remote call, the
    payload holds each of the six optional parameters exactly when its
    value is not [None], and then with that value.  So the trigger
    price, stop-loss, square-off and trailing stop, whose default is
    [None], are sent only when given; the price and the after-market
    flag, whose defaults are [0.0] and [False], are always sent unless
    passed as [None]. *)
Theorem place_order_payload_optional_fields (host : Host) (o : OrderExecutor.Order)
  (s : AccountSession) (params : gmap string Arg) :
  payloads (trace (OrderExecutor.place_order host o s).2) = (payloads (trace s) ++ [params])%list ->
  forall k v, (k, v) ∈ optional_fields o ->
    params !! k = match v with
                  | VNone => None
                  | _ => Some (AVal v)
                  end.
Proof.
  intros Hsent k v Hin.
  assert (Hlocal : forall e, OrderExecutor.place_order host o s = (Raised e, s) -> False).
  { intros e Hrun. rewrite Hrun in Hsent. cbn [snd] in Hsent.
    apply (f_equal length) in Hsent. rewrite length_app in Hsent.
    cbn [length] in Hsent. lia. }
  destruct (OrderExecutor.instrument o) as [i|] eqn:Hi.
  2: { destruct (place_order_raises_locally host o s) as [e Hrun]; [by left|].
       by destruct (Hlocal e). }
  destruct (pya3_getattr host "TransactionType" (OrderExecutor.transaction_type o))
    as [txn|e1] eqn:Ht.
  2: { destruct (place_order_raises_locally host o s) as [e Hrun];
         [right; left; by exists e1|]. by destruct (Hlocal e). }
  destruct (pya3_getattr host "OrderType" (OrderExecutor.order_type o))
    as [ord|e2] eqn:Ho.
  2: { destruct (place_order_raises_locally host o s) as [e Hrun];
         [right; right; left; by exists e2|]. by destruct (Hlocal e). }
  destruct (pya3_getattr host "ProductType" (OrderExecutor.product_type o))
    as [prod|e3] eqn:Hp.
  2: { destruct (place_order_raises_locally host o s) as [e Hrun];
         [right; right; right; by exists e3|]. by destruct (Hlocal e). }
  destruct (place_order_calls_remote host o i txn ord prod s Hi Ht Ho Hp)
    as (out & s' & Hrun & Hpay).
  rewrite Hrun in Hsent. cbn [snd] in Hsent. rewrite Hpay in Hsent.
  apply app_inv_head in Hsent.
  apply (f_equal head) in Hsent. cbn [head] in Hsent.
  apply (inj Some) in Hsent. subst params.
  by apply drop_None_optional.
Qed.

(** C2: the guard of [place_order] lets an unresolved instrument through.
    An [Instrument] record whose token is empty is unresolved by the
    test the orchestrator and the basket builder apply
    ([not instrument.token]), yet [place_order] does not raise: it makes
    the remote call and reports the broker's answer. *)
Theorem place_order_sends_empty_token :
  let no_token := {| exchange := VStr "NSE"; token := VStr ""; symbol := VStr "TCS";
                     name := VStr ""; expiry := VStr ""; lot_size := VInt 1 |} in
  let o := {| OrderExecutor.o_name := VStr "buy-tcs";
              OrderExecutor.transaction_type := VStr "Buy";
              OrderExecutor.instrument := Some no_token;
              OrderExecutor.quantity := VInt 1;
              OrderExecutor.order_type := VStr "Market";
              OrderExecutor.product_type := VStr "Intraday";
              OrderExecutor.price := VFloat 0;
              OrderExecutor.trigger_price := VNone;
              OrderExecutor.stop_loss := VNone;
              OrderExecutor.square_off := VNone;
              OrderExecutor.trailing_sl := VNone;
              OrderExecutor.is_amo := VBool false;
              OrderExecutor.order_tag := VStr "" |} in
  let run := OrderExecutor.place_order example_host o (fresh_session broker) in
  unresolved (Some no_token) = true /\
  match run.1 with
  | Returned r => r !! "success"
  | Raised _ => None
  end = Some (VBool true) /\
  place_order_calls (trace run.2) = 1.
Proof. vm_compute. repeat split. Qed.

(** *** Trace discipline of the monad *)
Section Emits.
Context {S : Type} (tr : S -> list Event) (P : Event -> Prop).

Lemma emits_ret {A} (a : A) : emits tr P (ret a).
Proof. intros s. exists []. by rewrite app_nil_r. Qed.

Lemma emits_raise {A} (e : Exn) : emits tr P (raise (A := A) e).
Proof. intros s. exists []. by rewrite app_nil_r. Qed.

Lemma emits_lift {A} (o : outcome A) : emits tr P (lift o).
Proof. intros s. exists []. by rewrite app_nil_r. Qed.

Lemma emits_gets {A} (f : S -> A) : emits tr P (gets f).
Proof. intros s. exists []. by rewrite app_nil_r. Qed.

Lemma emits_modify (f : S -> S) :
  (forall s, tr (f s) = tr s) -> emits tr P (modify f).
Proof. intros Hf s. exists []. simpl. by rewrite Hf, app_nil_r. Qed.

Lemma emits_bind {A B} (m : M S A) (k : A -> M S B) :
  emits tr P m -> (forall a, emits tr P (k a)) -> emits tr P (bind m k).
Proof.
  intros Hm Hk s. unfold bind. destruct (Hm s) as (evs & Htr & HP).
  destruct (m s) as [[a|e] s1]; simpl in *.
  - destruct (Hk a s1) as (evs' & Htr' & HP').
    exists (evs ++ evs')%list. rewrite Htr', Htr, app_assoc. split; [done|].
    by apply Forall_app.
  - by exists evs.
Qed.

Lemma emits_try_except {A} (m : M S A) (h : Exn -> M S A) :
  emits tr P m -> (forall e, emits tr P (h e)) -> emits tr P (try_except m h).
Proof.
  intros Hm Hh s. unfold try_except. destruct (Hm s) as (evs & Htr & HP).
  destruct (m s) as [[a|e] s1]; simpl in *.
  - by exists evs.
  - destruct (Hh e s1) as (evs' & Htr' & HP').
    exists (evs ++ evs')%list. rewrite Htr', Htr, app_assoc. split; [done|].
    by apply Forall_app.
Qed.
End Emits.

Section EmitsSession.
Context (P : Event -> Prop).

Lemma emits_log lvl msg : P (EvLog lvl msg) -> emits trace P (log lvl msg).
Proof. intros HP s. exists [EvLog lvl msg]. split; [done|]. by apply Forall_singleton. Qed.

Lemma emits_remote {A} ev (call : Alice.t -> list Event -> outcome A) :
  P ev -> emits trace P (remote ev call).
Proof. intros HP s. exists [ev]. split; [done|]. by apply Forall_singleton. Qed.

Lemma emits_set_cache key i : emits trace P (set_cache key i).
Proof. by apply emits_modify. Qed.

Lemma emits_resolver_instruments : emits trace P resolver_instruments.
Proof.
  intros s. exists []. unfold resolver_instruments.
  destruct (instruments s); by rewrite app_nil_r.
Qed.

Lemma emits_resolver_instruments_set key i :
  emits trace P (resolver_instruments_set key i).
Proof.
  apply emits_bind; [apply emits_resolver_instruments|].
  intros t. by apply emits_modify.
Qed.

Lemma emits_in_session {A} (m : M AccountSession A) :
  emits trace P m ->
  emits task_trace P (ThreadedOrchestrator.in_session m).
Proof.
  intros Hm ts. unfold ThreadedOrchestrator.in_session.
  destruct (Hm (ThreadedOrchestrator.ts_session ts)) as (evs & Htr & HP).
  exists evs. destruct (m _) as [o s']. by simpl in *.
Qed.
End EmitsSession.

Ltac emits_step :=
  first
    [ apply emits_ret | apply emits_raise | apply emits_lift | apply emits_gets
    | apply emits_set_cache | apply emits_resolver_instruments_set
    | apply emits_resolver_instruments
    | apply emits_bind; [|intros ?]
    | apply emits_try_except; [|intros ?]
    | apply emits_in_session
    | apply emits_log; try done
    | apply emits_remote; try done ].

Section EmitsResolver.
Context (host : Host) (P : Event -> Prop).
Hypothesis P_log : forall lvl msg, P (EvLog lvl msg).

Lemma emits_resolve_equity ex sym :
  P (EvGetInstrumentBySymbol ex sym) ->
  emits trace P (InstrumentResolver.resolve_equity host ex sym).
Proof.
  intros HP. unfold InstrumentResolver.resolve_equity.
  apply emits_bind; [apply emits_gets|]. intros c.
  destruct (c !! _); repeat emits_step.
Qed.
End EmitsResolver.

Ltac emits_auto :=
  repeat first
    [ emits_step
    | match goal with
      | |- emits _ _ (if ?b then _ else _) => destruct b eqn:?
      | |- emits _ _ (match ?x with _ => _ end) => destruct x eqn:?
      end ].

(** *** basket_order_executor.py *)
Section Basket.
Context (host : Host).
Import BasketOrderExecutor.

(** Building a leg logs and, for a key without underscore that the
    table does not resolve, looks the key up as an NSE equity; it
    makes no other remote call. *)
Lemma emits_build_order_dict (P : Event -> Prop) order_data :
  (forall lvl msg, P (EvLog lvl msg)) ->
  (forall sym, has_underscore sym = false -> P (EvGetInstrumentBySymbol "NSE" sym)) ->
  emits trace P (_build_order_dict host order_data).
Proof.
  intros P_log P_lookup. unfold _build_order_dict.
  destruct order_data; try apply emits_raise.
  apply emits_bind; [apply emits_lift|]. intros instr.
  apply emits_bind; [apply emits_resolver_instruments|]. intros table.
  apply emits_bind; [|intros ?; emits_auto].
  destruct (unresolved _); [|apply emits_ret].
  destruct (negb (has_underscore _)) eqn:Hu; [|apply emits_raise].
  apply negb_true_iff in Hu.
  apply emits_bind; [by apply emits_log|]. intros _.
  apply emits_bind; [apply emits_resolve_equity; auto|]. intros dyn.
  emits_auto.
Qed.

Lemma not_basket_call_count evs :
  Forall not_basket_call evs -> place_basket_order_calls evs = 0.
Proof.
  unfold place_basket_order_calls, not_basket_call.
  induction 1 as [|ev evs Hev _ IH]; [done|]. simpl. by rewrite Hev.
Qed.

Lemma leg_fails_trace legs s e s' :
  leg_fails host legs s e s' ->
  place_basket_order_calls (trace s') = place_basket_order_calls (trace s).
Proof.
  assert (Hleg : forall leg (s0 : AccountSession),
             place_basket_order_calls (trace (_build_order_dict host leg s0).2) =
             place_basket_order_calls (trace s0)).
  { intros leg s0.
    destruct (emits_build_order_dict not_basket_call leg) with (s := s0)
      as (evs & Htr & Hevs); [done..|].
    rewrite Htr, place_basket_order_calls_app, (not_basket_call_count evs Hevs). lia. }
  induction 1 as [leg rest s e s' Hrun|leg rest s d s1 e s' Hrun _ IH].
  - specialize (Hleg leg s). by rewrite Hrun in Hleg.
  - specialize (Hleg leg s). rewrite Hrun in Hleg. simpl in Hleg. by rewrite IH.
Qed.

Lemma build_basket_fails legs s e s' :
  leg_fails host legs s e s' ->
  forall basket,
    build_basket host legs basket s =
      (Returned (inl (failure ("Order build failed: " +:+ exn_msg e))),
       with_trace (trace s' ++ [EvLog ERROR ("Failed to build order: " +:+ exn_msg e)]) s').
Proof.
  induction 1 as [leg rest s e s' Hrun|leg rest s d s1 e s' Hrun _ IH]; intros basket;
    simpl; rewrite Hrun; [done|apply IH].
Qed.
End Basket.

(** C3: for every enabled basket whose legs are run in order and one of
    them fails to build ([_build_order_dict] raises, as it does when the
    instrument does not resolve), [execute_basket] returns
    [{success: False, message: "Order build failed: <error>"}] and the
    trace holds no more remote basket calls than before: nothing of the
    basket is submitted. *)
Theorem execute_basket_aborts_on_failed_leg (host : Host)
  (basket_config : gmap string PyVal) (legs : list PyVal)
  (s s1 : AccountSession) (e : Exn) :
  py_truthy (dict_get_or basket_config "enabled" (VBool true)) = true ->
  dict_get_or basket_config "orders" (VList []) = VList legs ->
  leg_fails host legs
    (with_trace
       (trace s ++ [EvLog INFO ("Executing basket order: " +:+
                                py_str host (dict_get_or basket_config "name"
                                                         (VStr "Unnamed Basket")) +:+
                                " with " +:+ pretty (length legs) +:+ " legs")]) s)
    e s1 ->
  exists result s',
    BasketOrderExecutor.execute_basket host basket_config s = (Returned result, s') /\
    result = BasketOrderExecutor.failure ("Order build failed: " +:+ exn_msg e) /\
    result !! "success" = Some (VBool false) /\
    place_basket_order_calls (trace s') = place_basket_order_calls (trace s).
Proof.
  intros Henabled Horders Hfails.
  unfold BasketOrderExecutor.execute_basket.
  rewrite Henabled, Horders. cbn [negb].
  assert (Htruthy : py_truthy (VList legs) = true)
    by (destruct legs; [inversion Hfails | done]).
  rewrite Htruthy. cbn [negb py_elements].
  unfold bind, lift, log, emit, modify, ret. cbv beta iota.
  rewrite (build_basket_fails host _ _ _ _ Hfails).
  eexists _, _. split; [reflexivity|]. split; [reflexivity|]. split; [done|].
  cbn [trace with_trace]. rewrite place_basket_order_calls_app.
  rewrite (leg_fails_trace host _ _ _ _ Hfails). cbn [trace with_trace].
  rewrite place_basket_order_calls_app. unfold place_basket_order_calls at 2 3. simpl. lia.
Qed.

Lemma execute_basket_aborts_on_failed_leg_witness :
  let leg := VDict (list_to_map [ ("instrument", VStr "NIFTY_DEC30_CE_26000");
                                  ("transaction_type", VStr "Buy"); ("quantity", VInt 50);
                                  ("order_type", VStr "Market");
                                  ("product_type", VStr "Intraday") ]) in
  let basket_config : gmap string PyVal :=
    list_to_map [ ("name", VStr "straddle"); ("orders", VList [leg]) ] in
  let s := with_instruments (Some ∅) (fresh_session broker) in
  exists result s',
    BasketOrderExecutor.execute_basket example_host basket_config s = (Returned result, s') /\
    result !! "success" = Some (VBool false) /\
    place_basket_order_calls (trace s') = place_basket_order_calls (trace s).
Proof.
  intros leg basket_config s.
  destruct (execute_basket_aborts_on_failed_leg example_host basket_config [leg] s
              (with_trace
                 (trace s ++ [EvLog INFO "Executing basket order: straddle with 1 legs"]) s)
              (ValueError "Invalid F&O instrument: NIFTY_DEC30_CE_26000. Must be pre-defined."))
    as (result & s' & Hrun & _ & Hsuccess & Hcalls).
  - vm_compute. reflexivity.
  - vm_compute. reflexivity.
  - apply leg_fails_here. vm_compute. reflexivity.
  - exists result, s'. auto.
Defined.

Lemma place_order_payload_optional_fields_witness :
  let tcs := {| exchange := VStr "NSE"; token := VStr "2885"; symbol := VStr "TCS";
                name := VStr ""; expiry := VStr ""; lot_size := VInt 1 |} in
  let o := {| OrderExecutor.o_name := VStr "buy-tcs";
              OrderExecutor.transaction_type := VStr "Buy";
              OrderExecutor.instrument := Some tcs;
              OrderExecutor.quantity := VInt 1;
              OrderExecutor.order_type := VStr "Limit";
              OrderExecutor.product_type := VStr "Delivery";
              OrderExecutor.price := VFloat (3101 # 1);
              OrderExecutor.trigger_price := VNone;
              OrderExecutor.stop_loss := VNone;
              OrderExecutor.square_off := VNone;
              OrderExecutor.trailing_sl := VNone;
              OrderExecutor.is_amo := VBool false;
              OrderExecutor.order_tag := VStr "A_t1" |} in
  let params :=
    OrderExecutor.drop_None
      (OrderExecutor.order_params o (AEnum "TransactionType" "Buy") (AEnum "OrderType" "Limit")
                                  (AEnum "ProductType" "Delivery")) in
  params !! "price" = Some (AVal (VFloat (3101 # 1))) /\
  params !! "is_amo" = Some (AVal (VBool false)) /\
  params !! "stop_loss" = None.
Proof.
  intros tcs o params.
  assert (Hsent :
    payloads (trace (OrderExecutor.place_order example_host o (fresh_session broker)).2) =
    (payloads (trace (fresh_session broker)) ++ [params])%list)
    by (vm_compute; reflexivity).
  pose proof (place_order_payload_optional_fields example_host o (fresh_session broker)
                params Hsent) as H.
  split; [|split].
  - apply (H "price" (VFloat (3101 # 1))). repeat constructor.
  - apply (H "is_amo" (VBool false)). repeat constructor.
  - apply (H "stop_loss" VNone). repeat constructor.
Defined.

(** *** threaded_orchestrator.py: one account's task *)
Section Task.
Context (host : Host).
Import ThreadedOrchestrator.

Lemma emits_process_response (P : Event -> Prop) name response :
  (forall lvl msg, P (EvLog lvl msg)) ->
  emits trace P (OrderExecutor._process_response host name response).
Proof.
  intros P_log. unfold OrderExecutor._process_response.
  destruct response as [| | | | |[|x l]|d|]; emits_auto.
Qed.

Lemma emits_place_order (P : Event -> Prop) o :
  (forall lvl msg, P (EvLog lvl msg)) ->
  (forall params, P (EvPlaceOrder params)) ->
  emits trace P (OrderExecutor.place_order host o).
Proof.
  intros P_log P_order. unfold OrderExecutor.place_order.
  destruct (OrderExecutor.instrument o); [|apply emits_raise].
  repeat first [apply emits_process_response; assumption | emits_step].
Qed.

Lemma emits_instruments_set (P : Event -> Prop) key i :
  emits task_trace P (instruments_set key i).
Proof. by apply emits_modify. Qed.

(** Whatever an order is, running it adds to the trace only log
    records, single-order calls, and equity lookups of keys without
    underscore. *)
Lemma emits_execute_order account_name order_data :
  emits task_trace plain_equity_lookup (execute_order host account_name order_data).
Proof.
  unfold execute_order, task_log.
  destruct (negb (py_truthy _)); [emits_auto|].
  apply emits_bind; [apply emits_lift|]. intros instr.
  apply emits_bind; [apply emits_gets|]. intros table.
  apply emits_bind.
  - destruct (unresolved _); [|apply emits_ret].
    destruct (negb (has_underscore _)) eqn:Hu; [|emits_auto].
    apply negb_true_iff in Hu.
    apply emits_bind; [emits_auto|]. intros _.
    apply emits_bind; [apply emits_in_session, emits_resolve_equity; done|]. intros dyn.
    destruct dyn as [i|]; [destruct (py_truthy (token i))|];
      repeat first [apply emits_instruments_set | emits_step].
  - intros [instrument|]; [|apply emits_ret].
    repeat first [apply emits_place_order; done | emits_step].
Qed.

Lemma emits_execute_orders account_name order_config :
  forall individual_orders,
    emits task_trace plain_equity_lookup
          (execute_orders host account_name order_config individual_orders).
Proof.
  induction order_config as [|order_data rest IH]; intros acc; simpl.
  - apply emits_ret.
  - apply emits_bind; [apply emits_execute_order|]. intros r. apply IH.
Qed.

(** The loop over a list in two parts, and the accumulator it carries. *)
Lemma execute_orders_app account_name pre post :
  forall individual_orders (ts : TaskState),
    execute_orders host account_name (pre ++ post) individual_orders ts =
      match execute_orders host account_name pre individual_orders ts with
      | (Returned done, ts1) => execute_orders host account_name post done ts1
      | (Raised e, ts1) => (Raised e, ts1)
      end.
Proof.
  induction pre as [|order_data rest IH]; intros acc ts; [done|].
  cbn [app execute_orders]. unfold bind.
  destruct (execute_order host account_name order_data ts) as [[r|e] ts1]; [|done].
  apply IH.
Qed.

Lemma execute_orders_from account_name order_config :
  forall individual_orders (ts : TaskState),
    execute_orders host account_name order_config individual_orders ts =
      (let* placed := execute_orders host account_name order_config [] in
       ret (individual_orders ++ placed)%list) ts.
Proof.
  induction order_config as [|order_data rest IH]; intros acc ts.
  - cbn [execute_orders]. unfold bind, ret. by rewrite app_nil_r.
  - cbn [execute_orders]. unfold bind at 1 2 3.
    destruct (execute_order host account_name order_data ts) as [[r|e] ts1]; [|done].
    rewrite IH. rewrite (IH (match r with Some result => [] ++ [result] | None => [] end)%list).
    unfold bind, ret.
    destruct (execute_orders host account_name rest [] ts1) as [[placed|e] ts2]; [|done].
    destruct r as [result|]; [|done]. by rewrite <- app_assoc.
Qed.
End Task.



(** *** account_manager.py *)
Section Manager.
Context (env : Authenticator.Env).
Import AccountManager.

(** The collection loop never raises; a name it leaves in the mapping
    was there before or belongs to a completed future that returned
    that session, and every completed future that returned puts its
    name in the mapping. *)
Lemma collect_spec future_to_account completion :
  forall m : t,
  exists m',
    collect future_to_account completion m = (Returned tt, m') /\
    accounts_config m' = accounts_config m /\
    (forall name s, sessions m' !! name = Some s ->
       sessions m !! name = Some s \/
       exists future, future ∈ completion /\
                      future_to_account !! future = Some (Returned s, name)) /\
    (forall name, is_Some (sessions m !! name) -> is_Some (sessions m' !! name)) /\
    (forall future name s,
       future ∈ completion ->
       future_to_account !! future = Some (Returned s, name) ->
       is_Some (sessions m' !! name)).
Proof.
  induction completion as [|future rest IH]; intros m.
  - exists m. repeat split; auto. intros ? ? ? H. by apply elem_of_nil in H.
  - cbn [collect].
    destruct (future_to_account !! future) as [[[session|e] account_name]|] eqn:Hf.
    + unfold bind, sessions_set, self_log, modify. cbv beta iota.
      match goal with |- context [collect _ rest ?m0] =>
        destruct (IH m0) as (m' & Hrun & Hcfg & Hfrom & Hkeep & Hdone) end.
      exists m'. split; [exact Hrun|]. split; [exact Hcfg|]. simpl in *.
      split; [|split].
      * intros name s Hs. destruct (Hfrom name s Hs) as [Hold|(f & Hin & Hfut)].
        -- destruct (decide (account_name = name)) as [->|Hne].
           ++ rewrite lookup_insert_eq in Hold. apply (inj Some) in Hold. subst s.
              right. exists future. split; [apply list_elem_of_here|exact Hf].
           ++ rewrite lookup_insert_ne in Hold by done. by left.
        -- right. exists f. split; [by apply list_elem_of_further|exact Hfut].
      * intros name Hname. apply Hkeep.
        destruct (decide (account_name = name)) as [->|Hne].
        -- rewrite lookup_insert_eq. by eexists.
        -- by rewrite lookup_insert_ne.
      * intros f name s Hin Hfut. apply elem_of_cons in Hin as [->|Hin].
        -- rewrite Hf in Hfut. apply (inj Some) in Hfut.
           assert (account_name = name) as -> by (by apply (f_equal snd) in Hfut).
           apply Hkeep. rewrite lookup_insert_eq. by eexists.
        -- by apply (Hdone f name s).
    + unfold bind, self_log, modify. cbv beta iota.
      match goal with |- context [collect _ rest ?m0] =>
        destruct (IH m0) as (m' & Hrun & Hcfg & Hfrom & Hkeep & Hdone) end.
      exists m'. split; [exact Hrun|]. split; [exact Hcfg|]. simpl in *.
      split; [|split; [exact Hkeep|]].
      * intros name s Hs. destruct (Hfrom name s Hs) as [Hold|(f & Hin & Hfut)];
          [by left|]. right. exists f. split; [by apply list_elem_of_further|exact Hfut].
      * intros f name s Hin Hfut. apply elem_of_cons in Hin as [->|Hin].
        -- rewrite Hf in Hfut. apply (inj Some) in Hfut.
           apply (f_equal fst) in Hfut. discriminate Hfut.
        -- by apply (Hdone f name s).
    + destruct (IH m) as (m' & Hrun & Hcfg & Hfrom & Hkeep & Hdone).
      exists m'. split; [exact Hrun|]. split; [exact Hcfg|].
      split; [|split; [exact Hkeep|]].
      * intros name s Hs. destruct (Hfrom name s Hs) as [Hold|(f & Hin & Hfut)];
          [by left|]. right. exists f. split; [by apply list_elem_of_further|exact Hfut].
      * intros f name s Hin Hfut. apply elem_of_cons in Hin as [->|Hin].
        -- rewrite Hf in Hfut. discriminate Hfut.
        -- by apply (Hdone f name s).
Qed.

Lemma initialize_all_no_enabled completion (m : t) :
  List.filter is_enabled (accounts_config m) = [] ->
  exists m',
    initialize_all env completion m =
      (Raised (ValueError "max_workers must be greater than 0"), m') /\
    sessions m' = sessions m.
Proof.
  intros Hnone. unfold initialize_all, bind, gets, self_log, modify, lift. cbv beta iota.
  cbn [accounts_config]. rewrite Hnone. cbn [length Z.of_nat Z.min ThreadPoolExecutor].
  eexists. split; reflexivity.
Qed.

Lemma pool_for_enabled (enabled : list AccountConfig) :
  enabled <> [] ->
  ThreadPoolExecutor (Z.min 5 (Z.of_nat (length enabled))) =
    Returned (Z.min 5 (Z.of_nat (length enabled))).
Proof.
  intros Hne. unfold ThreadPoolExecutor. destruct enabled; [done|]. cbn [length].
  destruct (Z.leb_spec (Z.min 5 (Z.of_nat (S (length enabled)))) 0); [lia|done].
Qed.

(** The comprehension over descriptors that all carry a name submits
    every one of them, in order, under its name. *)
Lemma future_to_account_named (enabled : list AccountConfig) :
  (forall acc, acc ∈ enabled -> is_Some (acc_name acc)) ->
  exists submitted,
    future_to_account env enabled = Returned submitted /\
    Forall2 (fun acc future => future.1 = _initialize_single env acc /\
                               acc_name acc = Some future.2) enabled submitted.
Proof.
  induction enabled as [|acc rest IH]; intros Hnamed.
  - exists []. split; [done|constructor].
  - destruct (Hnamed acc) as [n Hn]; [apply list_elem_of_here|].
    destruct IH as (submitted & Hrun & Hall).
    { intros acc' Hin. apply Hnamed. by apply list_elem_of_further. }
    cbn [future_to_account]. unfold account_name_item. rewrite Hn, Hrun.
    eexists. split; [reflexivity|]. by constructor.
Qed.

(** One descriptor without a name ends it with [KeyError]. *)
Lemma future_to_account_unnamed (enabled : list AccountConfig) :
  (exists acc, acc ∈ enabled /\ acc_name acc = None) ->
  future_to_account env enabled = Raised (KeyError "account_name").
Proof.
  induction enabled as [|acc rest IH]; intros (bad & Hin & Hbad).
  - by apply elem_of_nil in Hin.
  - cbn [future_to_account]. unfold account_name_item.
    destruct (acc_name acc) as [n|] eqn:Hn; [|done].
    apply elem_of_cons in Hin as [->|Hin]; [by rewrite Hbad in Hn|].
    rewrite IH; [done|]. by exists bad.
Qed.

Lemma named_or_unnamed (enabled : list AccountConfig) :
  (forall acc, acc ∈ enabled -> is_Some (acc_name acc)) \/
  (exists acc, acc ∈ enabled /\ acc_name acc = None).
Proof.
  induction enabled as [|acc rest [IH|(bad & Hin & Hbad)]].
  - left. intros acc Hin. by apply elem_of_nil in Hin.
  - destruct (acc_name acc) as [n|] eqn:Hn.
    + left. intros acc' Hin. apply elem_of_cons in Hin as [->|Hin]; [by rewrite Hn|by apply IH].
    + right. exists acc. split; [apply list_elem_of_here|exact Hn].
  - right. exists bad. split; [by apply list_elem_of_further|exact Hbad].
Qed.

(** With at least one enabled account, all of them named, the call
    returns [self.sessions] as the collection loop left it. *)
Lemma initialize_all_runs completion (m : t) :
  List.filter is_enabled (accounts_config m) <> [] ->
  (forall acc, acc ∈ List.filter is_enabled (accounts_config m) -> is_Some (acc_name acc)) ->
  exists submitted m0 m',
    Forall2 (fun acc future => future.1 = _initialize_single env acc /\
                               acc_name acc = Some future.2)
            (List.filter is_enabled (accounts_config m)) submitted /\
    sessions m0 = sessions m /\
    collect submitted completion m0 = (Returned tt, m') /\
    initialize_all env completion m = (Returned (sessions m'), m').
Proof.
  intros Hne Hnamed.
  destruct (future_to_account_named _ Hnamed) as (submitted & Hsub & Hall).
  unfold initialize_all, bind, gets, self_log, modify, lift. cbv beta iota.
  rewrite (pool_for_enabled _ Hne), Hsub.
  match goal with |- context [collect submitted completion ?m0] =>
    destruct (collect_spec submitted completion m0) as (m' & Hrun & _) end.
  eexists submitted, _, m'. split; [exact Hall|]. split; [|split; [exact Hrun|]]; [reflexivity|].
  by rewrite Hrun.
Qed.

(** With an enabled descriptor that has no name the call raises
    [KeyError] out of the comprehension: nothing is collected. *)
Lemma initialize_all_unnamed completion (m : t) :
  List.filter is_enabled (accounts_config m) <> [] ->
  (exists acc, acc ∈ List.filter is_enabled (accounts_config m) /\ acc_name acc = None) ->
  exists m',
    initialize_all env completion m = (Raised (KeyError "account_name"), m') /\
    sessions m' = sessions m.
Proof.
  intros Hne Hbad.
  unfold initialize_all, bind, gets, self_log, modify, lift. cbv beta iota.
  rewrite (pool_for_enabled _ Hne), (future_to_account_unnamed _ Hbad).
  eexists. split; reflexivity.
Qed.
End Manager.

(** C10: with no enabled account (an empty configuration, or every entry
    disabled) [initialize_all] raises: the pool is built with
    [min(5, 0) = 0] workers and its constructor refuses; no mapping is
    returned and [self.sessions] is left as it was. *)
Theorem initialize_all_without_enabled_accounts_raises (env : Authenticator.Env)
  (completion : list nat) (m : AccountManager.t) :
  List.filter AccountManager.is_enabled (AccountManager.accounts_config m) = [] ->
  exists e m',
    AccountManager.initialize_all env completion m = (Raised e, m') /\
    exn_class e = "ValueError" /\
    AccountManager.sessions m' = AccountManager.sessions m.
Proof.
  intros Hnone.
  destruct (initialize_all_no_enabled env completion m Hnone) as (m' & Hrun & Hsessions).
  by eexists _, m'.
Qed.

Lemma initialize_all_without_enabled_accounts_raises_witness :
  let disabled := {| AccountManager.acc_name := Some "A";
                     AccountManager.acc_fields :=
                       list_to_map [ ("user_id", VStr "U1"); ("api_key", VStr "K");
                                     ("enabled", VBool false) ] |} in
  exists e m',
    AccountManager.initialize_all example_env [] (AccountManager.__init__ [disabled]) =
      (Raised e, m') /\
    exn_class e = "ValueError".
Proof.
  intros disabled.
  destruct (initialize_all_without_enabled_accounts_raises example_env []
              (AccountManager.__init__ [disabled]))
    as (e & m' & Hrun & Hclass & _); [vm_compute; reflexivity|].
  by exists e, m'.
Defined.

(** C5, the claim as stated fails on a configuration without enabled
    accounts: for the empty list [initialize_all] returns no mapping, it
    raises [ValueError].  It fails as well on a configuration with an
    enabled descriptor that has no [account_name]: the call raises
    [KeyError], also for the account that would have logged in. *)
Lemma initialize_all_empty_config_raises :
  let unnamed := {| AccountManager.acc_name := None;
                    AccountManager.acc_fields :=
                      list_to_map [ ("user_id", VStr "U2"); ("api_key", VStr "K") ] |} in
  (AccountManager.initialize_all example_env [] (AccountManager.__init__ [])).1 =
    Raised (ValueError "max_workers must be greater than 0") /\
  (AccountManager.initialize_all example_env [0; 1]
     (AccountManager.__init__ [account "A" "U1"; unnamed])).1 =
    Raised (KeyError "account_name").
Proof. vm_compute. split; reflexivity. Qed.

(** C5 (amended): for every account configuration list with at least one
    enabled account, and whatever the order in which the futures
    complete: when every enabled descriptor has an [account_name],
    [initialize_all] on a new manager returns a mapping (it does not
    raise) that holds exactly the names of the enabled accounts whose
    initialization succeeded, each with the session such an
    initialization returned; a name all of whose enabled accounts
    failed to initialize is absent, and a failure changes nothing for
    the other accounts.  When some enabled descriptor has no
    [account_name], the call raises [KeyError] and no session is
    kept. *)
Theorem initialize_all_keeps_successful_accounts (env : Authenticator.Env)
  (accounts_config : list AccountManager.AccountConfig) (completion : list nat) :
  let enabled := List.filter AccountManager.is_enabled accounts_config in
  enabled <> [] ->
  completion ≡ₚ seq 0 (length enabled) ->
  ((forall acc, acc ∈ enabled -> is_Some (AccountManager.acc_name acc)) ->
   exists result m',
     AccountManager.initialize_all env completion (AccountManager.__init__ accounts_config) =
       (Returned result, m') /\
     AccountManager.sessions m' = result /\
     (forall name s, result !! name = Some s ->
        exists acc, acc ∈ enabled /\ AccountManager.acc_name acc = Some name /\
                    AccountManager._initialize_single env acc = Returned s) /\
     (forall acc name s, acc ∈ enabled ->
        AccountManager.acc_name acc = Some name ->
        AccountManager._initialize_single env acc = Returned s ->
        is_Some (result !! name)) /\
     (forall name,
        (forall acc, acc ∈ enabled -> AccountManager.acc_name acc = Some name ->
                     exists e, AccountManager._initialize_single env acc = Raised e) ->
        result !! name = None)) /\
  ((exists acc, acc ∈ enabled /\ AccountManager.acc_name acc = None) ->
   exists m',
     AccountManager.initialize_all env completion (AccountManager.__init__ accounts_config) =
       (Raised (KeyError "account_name"), m') /\
     AccountManager.sessions m' = ∅).
Proof.
  intros enabled Hne Hperm. split.
  - intros Hnamed.
    destruct (initialize_all_runs env completion (AccountManager.__init__ accounts_config)
                Hne Hnamed) as (submitted & m0 & m' & Hall & Hm0 & Hcollect & Hrun).
    cbn [AccountManager.accounts_config AccountManager.__init__] in Hall. fold enabled in Hall.
    destruct (collect_spec submitted completion m0) as (m'' & Hrun' & _ & Hfrom & _ & Hdone).
    rewrite Hcollect in Hrun'.
    assert (m'' = m') as -> by (by apply (f_equal snd) in Hrun').
    rewrite Hm0 in Hfrom. cbn [AccountManager.sessions AccountManager.__init__] in Hfrom.
    assert (Hresult : forall name s, AccountManager.sessions m' !! name = Some s ->
              exists acc, acc ∈ enabled /\ AccountManager.acc_name acc = Some name /\
                          AccountManager._initialize_single env acc = Returned s).
    { intros name s Hs. destruct (Hfrom name s Hs) as [Hold|(f & _ & Hfut)].
      - by rewrite lookup_empty in Hold.
      - destruct (Forall2_lookup_r _ _ _ _ _ Hall Hfut) as (acc & Hacc & Hfst & Hsnd).
        exists acc. split; [apply list_elem_of_lookup; by exists f|].
        split; [exact Hsnd|by rewrite <- Hfst]. }
    exists (AccountManager.sessions m'), m'.
    split; [exact Hrun|]. split; [reflexivity|]. split; [exact Hresult|]. split.
    + intros acc name s Hin Hname Hinit. apply list_elem_of_lookup in Hin as [f Hf].
      destruct (Forall2_lookup_l _ _ _ _ _ Hall Hf) as ([future name'] & Hfut & Hfst & Hsnd).
      cbn [fst snd] in Hfst, Hsnd. rewrite Hname in Hsnd. apply (inj Some) in Hsnd.
      subst name' future. apply (Hdone f name s); [|by rewrite Hfut, Hinit].
      rewrite Hperm. apply elem_of_seq. apply lookup_lt_Some in Hf. lia.
    + intros name Hfail. destruct (AccountManager.sessions m' !! name) as [s|] eqn:Hs; [|done].
      destruct (Hresult name s Hs) as (acc & Hin & Hname & Hinit).
      destruct (Hfail acc Hin Hname) as [e He]. rewrite He in Hinit. discriminate Hinit.
  - intros Hbad.
    destruct (initialize_all_unnamed env completion (AccountManager.__init__ accounts_config)
                Hne Hbad) as (m' & Hrun & Hsessions).
    by exists m'.
Qed.

Lemma initialize_all_keeps_successful_accounts_witness :
  exists result m',
    AccountManager.initialize_all example_env [2; 0; 1]
      (AccountManager.__init__ [account "A" "U1"; account "B" "BAD"; account "C" "U3"]) =
      (Returned result, m') /\
    is_Some (result !! "A") /\ result !! "B" = None /\ is_Some (result !! "C").
Proof.
  destruct (initialize_all_keeps_successful_accounts example_env
              [account "A" "U1"; account "B" "BAD"; account "C" "U3"] [2; 0; 1])
    as [Hnamed _].
  - vm_compute. discriminate.
  - change (seq 0 _) with [0; 1; 2]. by rewrite (Permutation_app_comm [2] [0; 1]).
  - destruct Hnamed as (result & m' & Hrun & _ & _ & Hin & Hout).
    + intros acc Hacc.
      change (List.filter _ _) with [account "A" "U1"; account "B" "BAD"; account "C" "U3"]
        in Hacc.
      repeat (apply elem_of_cons in Hacc as [->|Hacc]); [by eexists..|].
      by apply elem_of_nil in Hacc.
    + exists result, m'. split; [exact Hrun|]. split; [|split].
      * eapply (Hin (account "A" "U1") "A");
          [repeat constructor|reflexivity|vm_compute; reflexivity].
      * apply Hout. intros acc Hacc Hname.
        change (List.filter _ _) with [account "A" "U1"; account "B" "BAD"; account "C" "U3"]
          in Hacc.
        repeat (apply elem_of_cons in Hacc as [->|Hacc]); try discriminate Hname.
        -- eexists. vm_compute. reflexivity.
        -- by apply elem_of_nil in Hacc.
      * eapply (Hin (account "C" "U3") "C");
          [repeat constructor|reflexivity|vm_compute; reflexivity].
Defined.

(** *** threaded_orchestrator.py: fan-out and collection *)
Section FanOut.
Import ThreadedOrchestrator.
Context (task : string -> M TaskState PyVal) (what : string -> string).

Lemma run_tasks_spec order :
  forall futures w,
  exists futures' w',
    run_tasks task order futures w = (futures', w') /\
    dom (w_sessions w') = dom (w_sessions w) /\
    dom futures' = dom futures ∪ (list_to_set order ∩ dom (w_sessions w)) /\
    (forall name o, futures' !! name = Some o ->
       futures !! name = Some o \/ exists ts, (task name ts).1 = o).
Proof.
  induction order as [|account_name rest IH]; intros futures w.
  - exists futures, w. split; [done|]. split; [done|]. split; [set_solver|]. by left.
  - cbn [run_tasks]. unfold run_task.
    destruct (w_sessions w !! account_name) as [session|] eqn:Hs.
    + destruct (task account_name _) as [o ts] eqn:Hrun.
      match goal with |- context [run_tasks task rest ?f0 ?w0] =>
        destruct (IH f0 w0) as (futures' & w' & Hrest & Hdom & Hfut & Hout) end.
      cbn [w_sessions] in Hdom, Hfut.
      assert (Hsame : dom (<[account_name := ts_session ts]> (w_sessions w)) =
                      dom (w_sessions w)).
      { rewrite dom_insert_L. apply elem_of_dom_2 in Hs. set_solver. }
      exists futures', w'. split; [exact Hrest|]. split; [by rewrite Hdom|]. split.
      * rewrite Hfut, Hsame, dom_insert_L. apply elem_of_dom_2 in Hs. set_solver.
      * intros name o' Ho'. destruct (Hout name o' Ho') as [Hold|Htask]; [|by right].
        destruct (decide (account_name = name)) as [->|Hne].
        -- rewrite lookup_insert_eq in Hold. apply (inj Some) in Hold. subst o'.
           right. eexists. by rewrite Hrun.
        -- rewrite lookup_insert_ne in Hold by done. by left.
    + destruct (IH futures w) as (futures' & w' & Hrest & Hdom & Hfut & Hout).
      exists futures', w'. split; [exact Hrest|]. split; [exact Hdom|].
      split; [|exact Hout].
      rewrite Hfut. apply not_elem_of_dom_2 in Hs. set_solver.
Qed.

Lemma fan_out_collect_spec futures completion :
  forall results w,
  exists results' w',
    collect what futures completion results w = (Returned results', w') /\
    forall name,
      results' !! name =
        match futures !! name with
        | Some o => if decide (name ∈ completion) then Some (entry o) else results !! name
        | None => results !! name
        end.
Proof.
  induction completion as [|account_name rest IH]; intros results w.
  - exists results, w. split; [done|]. intros name.
    destruct (futures !! name); [|done].
    destruct (decide (name ∈ [])) as [Hin|_]; [by apply elem_of_nil in Hin|done].
  - cbn [collect].
    destruct (futures !! account_name) as [[r|e]|] eqn:Hf.
    + destruct (IH (<[account_name := r]> results) w) as (results' & w' & Hrun & Hres).
      exists results', w'. split; [exact Hrun|]. intros name. rewrite Hres.
      destruct (decide (account_name = name)) as [->|Hne].
      * rewrite Hf, lookup_insert_eq.
        destruct (decide (name ∈ rest)), (decide (name ∈ name :: rest)) as [|Hn];
          try done; destruct Hn; apply list_elem_of_here.
      * rewrite lookup_insert_ne by done. destruct (futures !! name); [|done].
        destruct (decide (name ∈ rest)) as [Hin|Hin],
                 (decide (name ∈ account_name :: rest)) as [Hin'|Hin']; try done.
        -- destruct Hin'. by apply list_elem_of_further.
        -- apply elem_of_cons in Hin' as [->|Hin']; done.
    + unfold bind, self_log, modify. cbv beta iota.
      match goal with |- context [collect what futures rest ?r0 ?w0] =>
        destruct (IH r0 w0) as (results' & w' & Hrun & Hres) end.
      exists results', w'. split; [exact Hrun|]. intros name. rewrite Hres.
      destruct (decide (account_name = name)) as [->|Hne].
      * rewrite Hf, lookup_insert_eq.
        destruct (decide (name ∈ rest)), (decide (name ∈ name :: rest)) as [|Hn];
          try done; destruct Hn; apply list_elem_of_here.
      * rewrite lookup_insert_ne by done. destruct (futures !! name); [|done].
        destruct (decide (name ∈ rest)) as [Hin|Hin],
                 (decide (name ∈ account_name :: rest)) as [Hin'|Hin']; try done.
        -- destruct Hin'. by apply list_elem_of_further.
        -- apply elem_of_cons in Hin' as [->|Hin']; done.
    + destruct (IH results w) as (results' & w' & Hrun & Hres).
      exists results', w'. split; [exact Hrun|]. intros name. rewrite Hres.
      destruct (futures !! name) eqn:Hname; [|done].
      destruct (decide (name ∈ rest)) as [Hin|Hin],
               (decide (name ∈ account_name :: rest)) as [Hin'|Hin']; try done.
      * destruct Hin'. by apply list_elem_of_further.
      * apply elem_of_cons in Hin' as [->|Hin']; [|done]. rewrite Hf in Hname. done.
Qed.

Lemma fan_out_isolates self sched w :
  (0 < max_workers self)%Z ->
  run_order sched ≡ₚ elements (dom (w_sessions w)) ->
  completion sched ≡ₚ elements (dom (w_sessions w)) ->
  fault_isolated (fan_out self task what) task sched w.
Proof.
  intros Hworkers Hrun Hcompl. unfold fault_isolated, fan_out.
  destruct (run_tasks_spec (run_order sched) ∅ w)
    as (futures & w1 & Htasks & _ & Hdom & Hout).
  assert (Hfutures : dom futures = dom (w_sessions w)).
  { rewrite Hdom, dom_empty_L. apply set_eq. intros name.
    rewrite elem_of_union, elem_of_intersection, elem_of_list_to_set, Hrun,
      elem_of_elements. set_solver. }
  destruct (fan_out_collect_spec futures (completion sched) ∅ w1)
    as (results & w' & Hcollect & Hres).
  assert (Hentry : forall name, results !! name = entry <$> futures !! name).
  { intros name. rewrite Hres. destruct (futures !! name) as [o|] eqn:Hname; [|done].
    destruct (decide (name ∈ completion sched)) as [|Hnot]; [done|].
    destruct Hnot. rewrite Hcompl, elem_of_elements, <- Hfutures.
    by apply elem_of_dom_2 in Hname. }
  exists futures, w1, results, w'. split; [exact Htasks|]. split.
  - unfold bind, lift, ThreadPoolExecutor.
    destruct (Z.leb_spec (max_workers self) 0); [lia|]. cbv beta iota.
    by rewrite Htasks.
  - split; [|split; [exact Hfutures|]].
    + rewrite <- Hfutures. apply set_eq. intros name.
      rewrite !elem_of_dom, Hentry. by rewrite fmap_is_Some.
    + split; [|split].
      * intros name r Hr. by rewrite Hentry, Hr.
      * intros name e He. by rewrite Hentry, He.
      * intros name o Ho. destruct (Hout name o Ho) as [Hold|Htask]; [|done].
        by rewrite lookup_empty in Hold.
Qed.
End FanOut.

(** C1, the claim as stated fails for an orchestrator built without
    workers, which is what main.py builds ([min(5, len(sessions))])
    when no session was initialized: the call raises instead of
    returning the (empty) mapping. *)
Lemma execute_on_all_accounts_without_workers_raises :
  let self := {| ThreadedOrchestrator.max_workers := 0 |} in
  let idle := {| ThreadedOrchestrator.run_order := []; ThreadedOrchestrator.completion := [] |} in
  let w := {| ThreadedOrchestrator.w_sessions := ∅; ThreadedOrchestrator.w_instruments := ∅;
              ThreadedOrchestrator.w_store := ∅; ThreadedOrchestrator.w_logged := [] |} in
  (ThreadedOrchestrator.execute_on_all_accounts example_host self [] idle w).1 =
    Raised (ValueError "max_workers must be greater than 0") /\
  (ThreadedOrchestrator.execute_basket_on_all_accounts example_host self [] idle w).1 =
    Raised (ValueError "max_workers must be greater than 0").
Proof. vm_compute. split; reflexivity. Qed.

(** C1 (amended): for every orchestrator with at least one worker, every
    sessions mapping, every order configuration (basket configuration)
    and every schedule of the tasks, [execute_on_all_accounts] and
    [execute_basket_on_all_accounts] return a mapping whose key set is
    exactly that of the sessions; an account whose task raised has the
    entry [{success: False, error: <message of the exception>}] and
    every other account has exactly what its task returned. *)
Theorem execute_on_all_accounts_isolates_faults (host : Host)
  (self : ThreadedOrchestrator.t) (order_config : list (gmap string PyVal))
  (baskets_config : list ThreadedOrchestrator.Basket)
  (sched : ThreadedOrchestrator.Schedule) (w : ThreadedOrchestrator.World) :
  (0 < ThreadedOrchestrator.max_workers self)%Z ->
  ThreadedOrchestrator.run_order sched ≡ₚ elements (dom (ThreadedOrchestrator.w_sessions w)) ->
  ThreadedOrchestrator.completion sched ≡ₚ elements (dom (ThreadedOrchestrator.w_sessions w)) ->
  fault_isolated (ThreadedOrchestrator.execute_on_all_accounts host self order_config)
                 (ThreadedOrchestrator._execute_on_single_account host order_config) sched w /\
  fault_isolated (ThreadedOrchestrator.execute_basket_on_all_accounts host self baskets_config)
                 (ThreadedOrchestrator._execute_baskets_on_single_account host baskets_config)
                 sched w.
Proof.
  intros Hworkers Hrun Hcompl. split; by apply fan_out_isolates.
Qed.

Lemma execute_on_all_accounts_isolates_faults_witness :
  let self := {| ThreadedOrchestrator.max_workers := 5 |} in
  let sched := {| ThreadedOrchestrator.run_order := ["B"; "A"];
                  ThreadedOrchestrator.completion := ["A"; "B"] |} in
  exists results w',
    ThreadedOrchestrator.execute_on_all_accounts example_host self [tcs_order] sched
      two_accounts = (Returned results, w') /\
    dom results = {["A"; "B"]} /\
    results !! "B" =
      Some (VDict (<["success" := VBool false]>
                   (<["error" := VStr "'InstrumentResolver' object has no attribute 'instruments'"]>
                    ∅))).
Proof.
  intros self sched.
  destruct (execute_on_all_accounts_isolates_faults example_host self [tcs_order] []
              sched two_accounts)
    as [(futures & w1 & results & w' & Htasks & Hrun & Hdom & _ & _ & Hraised & _) _].
  - vm_compute. reflexivity.
  - vm_compute (elements _). apply perm_swap.
  - vm_compute (elements _). reflexivity.
  - exists results, w'. split; [exact Hrun|]. split.
    + rewrite Hdom. vm_compute. reflexivity.
    + apply (Hraised "B" (AttributeError
               "'InstrumentResolver' object has no attribute 'instruments'")).
      apply (f_equal fst) in Htasks. cbn [fst] in Htasks. rewrite <- Htasks.
      vm_compute. reflexivity.
Defined.

(** *** threaded_orchestrator.py: tagging *)
Section Tagging.
Context (host : Host).
Import ThreadedOrchestrator.

Lemma tag_order_run account_name order (ts : TaskState) :
  tag_order host account_name order ts =
    (Returned tt,
     {| ts_session := ts_session ts; ts_instruments := ts_instruments ts;
        ts_store := alter (tagged host account_name) order (ts_store ts) |}).
Proof.
  unfold tag_order, bind, gets, store_set, modify, ret. cbv beta iota.
  destruct (ts_store ts !! order) as [d|] eqn:Hd.
  - f_equal. f_equal. apply map_eq. intros l.
    destruct (decide (order = l)) as [->|Hne].
    + by rewrite lookup_insert_eq, lookup_alter_eq, Hd.
    + by rewrite lookup_insert_ne, lookup_alter_ne.
  - f_equal. destruct ts as [se ins st]. cbn in *. f_equal.
    apply map_eq. intros l.
    destruct (decide (order = l)) as [->|Hne].
    + by rewrite lookup_alter_eq, Hd.
    + by rewrite lookup_alter_ne.
Qed.

(** Tagging rewrites, in the shared store, the dictionary of every leg
    of the basket, and nothing else. *)
Lemma tag_orders_store account_name legs :
  NoDup legs ->
  forall (ts : TaskState),
  exists ts',
    tag_orders host account_name legs ts = (Returned tt, ts') /\
    ts_session ts' = ts_session ts /\
    forall l, ts_store ts' !! l =
              if decide (l ∈ legs)
              then tagged host account_name <$> ts_store ts !! l
              else ts_store ts !! l.
Proof.
  induction 1 as [|order rest Hnotin _ IH]; intros ts.
  - exists ts. split; [done|]. split; [done|]. intros l.
    destruct (decide (l ∈ [])) as [Hin|_]; [by apply elem_of_nil in Hin|done].
  - cbn [tag_orders]. unfold bind. rewrite tag_order_run.
    match goal with |- context [tag_orders host account_name rest ?t0] =>
      destruct (IH t0) as (ts' & Hrun & Hsess & Hstore) end.
    exists ts'. split; [exact Hrun|]. split; [exact Hsess|]. intros l.
    rewrite Hstore. cbn [ts_store].
    destruct (decide (order = l)) as [->|Hne].
    + rewrite lookup_alter_eq.
      destruct (decide (l ∈ rest)) as [|_]; [done|].
      destruct (decide (l ∈ l :: rest)) as [|Hn]; [done|].
      destruct Hn. apply list_elem_of_here.
    + rewrite lookup_alter_ne by done.
      destruct (decide (l ∈ rest)) as [Hin|Hin],
               (decide (l ∈ order :: rest)) as [Hin'|Hin']; try done.
      * destruct Hin'. by apply list_elem_of_further.
      * apply elem_of_cons in Hin' as [->|Hin']; done.
Qed.

(** So the dictionary the caller still holds for a leg is the tagged
    one: the basket passed in and the basket returned read the same
    legs. *)
Lemma _tag_basket_orders_shares_legs basket account_name legs (ts : TaskState) :
  orders basket = Some legs ->
  NoDup legs ->
  exists basket_copy ts',
    _tag_basket_orders host basket account_name ts = (Returned basket_copy, ts') /\
    read_basket (ts_store ts') basket_copy = read_basket (ts_store ts') basket /\
    forall l d, l ∈ legs -> ts_store ts !! l = Some d ->
                ts_store ts' !! l = Some (tagged host account_name d).
Proof.
  intros Hlegs Hnodup. unfold _tag_basket_orders, bind, ret. cbn [orders].
  rewrite Hlegs. cbn [from_option id].
  destruct (tag_orders_store account_name legs Hnodup ts) as (ts' & Hrun & _ & Hstore).
  rewrite Hrun. eexists _, ts'. split; [reflexivity|]. split.
  - unfold read_basket. cbn [orders entries]. by rewrite Hlegs.
  - intros l d Hin Hd. rewrite Hstore, Hd.
    destruct (decide (l ∈ legs)); done.
Qed.
End Tagging.

(** C9: [_tag_basket_orders] does not leave its input unchanged.  The
    copy it makes is shallow, so the leg dictionaries it rewrites are
    the ones the input basket holds: after tagging for account A the
    input's leg carries ["A_t1"] instead of ["t1"], and tagging the same
    basket for account B then yields ["B_A_t1"], not ["B_t1"]. *)
Theorem tag_basket_orders_rewrites_the_input :
  let leg : gmap string PyVal :=
    list_to_map [ ("instrument", VStr "TCS"); ("order_tag", VStr "t1") ] in
  let basket := {| ThreadedOrchestrator.entries := {["name" := VStr "pair"]};
                   ThreadedOrchestrator.orders := Some [0] |} in
  let ts := {| ThreadedOrchestrator.ts_session := fresh_session broker;
               ThreadedOrchestrator.ts_instruments := ∅;
               ThreadedOrchestrator.ts_store := {[0 := leg]} |} in
  let for_A := ThreadedOrchestrator._tag_basket_orders example_host basket "A" ts in
  let for_B := ThreadedOrchestrator._tag_basket_orders example_host basket "B" for_A.2 in
  let tags_read (run : outcome ThreadedOrchestrator.Basket * ThreadedOrchestrator.TaskState) :=
    match run.1 with
    | Returned basket_copy =>
        leg_tags (ThreadedOrchestrator.read_basket (ThreadedOrchestrator.ts_store run.2)
                                                   basket_copy)
    | Raised _ => []
    end in
  leg_tags (ThreadedOrchestrator.read_basket (ThreadedOrchestrator.ts_store ts) basket) =
    [VStr "t1"] /\
  tags_read for_A = [VStr "A_t1"] /\
  leg_tags (ThreadedOrchestrator.read_basket (ThreadedOrchestrator.ts_store for_A.2) basket) =
    [VStr "A_t1"] /\
  tags_read for_B = [VStr "B_A_t1"].
Proof. vm_compute. repeat split. Qed.

(** Whatever the tasks did, and however they were interleaved: once
    every future is handed over, the mapping is the futures' outcomes,
    entry by entry. *)
Lemma collect_entries (what : string -> string)
  (futures : gmap string (outcome PyVal)) (completion : list string)
  (w : ThreadedOrchestrator.World) :
  completion ≡ₚ elements (dom futures) ->
  exists results w',
    ThreadedOrchestrator.collect what futures completion ∅ w = (Returned results, w') /\
    results = ThreadedOrchestrator.entry <$> futures.
Proof.
  intros Hcompl.
  destruct (fan_out_collect_spec what futures completion ∅ w) as (results & w' & Hrun & Hres).
  exists results, w'. split; [exact Hrun|]. apply map_eq. intros name.
  rewrite Hres, lookup_fmap. destruct (futures !! name) as [o|] eqn:Hname; [|done].
  destruct (decide (name ∈ completion)) as [|Hnot]; [done|].
  destruct Hnot. rewrite Hcompl, elem_of_elements. by apply elem_of_dom_2 in Hname.
Qed.


Lemma lookup_set_if_eq g k v (m : gmap string Arg) :
  BasketOrderExecutor.set_if g k v m !! k = if g then Some v else m !! k.
Proof. unfold BasketOrderExecutor.set_if. destruct g; [apply lookup_insert_eq|done]. Qed.

Lemma lookup_set_if_ne g k k' v (m : gmap string Arg) :
  k <> k' -> BasketOrderExecutor.set_if g k v m !! k' = m !! k'.
Proof. intros. unfold BasketOrderExecutor.set_if. destruct g; [by apply lookup_insert_ne|done]. Qed.

(** X21: the basket builder, for comparison with [place_order]: when a
    leg builds, its dictionary carries the price only when it is above
    zero and the after-market flag only when it is truthy; the other
    four optional parameters only when they are not [None]. *)
Lemma build_order_dict_optional_fields (host : Host) (d : gmap string PyVal)
  (order_dict : gmap string Arg) (s s' : AccountSession) :
  BasketOrderExecutor._build_order_dict host (VDict d) s = (Returned order_dict, s') ->
  order_dict !! "price" =
    match py_gt0 (dict_get_or d "price" (VFloat 0)) with
    | Returned true => Some (AVal (dict_get d "price"))
    | _ => None
    end /\
  order_dict !! "is_amo" =
    (if py_truthy (dict_get_or d "is_amo" (VBool false)) then Some (AVal (VBool true)) else None) /\
  forall k, k ∈ ["trigger_price"; "stop_loss"; "square_off"; "trailing_sl"] ->
    order_dict !! k = match dict_get d k with
                      | VNone => None
                      | v => Some (AVal v)
                      end.
Proof.
  unfold BasketOrderExecutor._build_order_dict.
  unfold bind at 1. destruct (lift (dict_item d "instrument") s) as [[instr|e] s0];
    [|intros H; discriminate H].
  unfold bind at 1. destruct (resolver_instruments s0) as [[table|e] s1];
    [|intros H; discriminate H].
  unfold bind at 1.
  match goal with |- context [(if unresolved ?f then ?a else ?b) s1] =>
    destruct ((if unresolved f then a else b) s1) as [[instrument|e] s2] end;
    [|intros H; discriminate H].
  unfold bind, lift, ret.
  destruct (dict_item d "order_type") as [order_type|e]; [|intros H; discriminate H].
  destruct (pya3_getattr host "OrderType" order_type) as [order_enum|e];
    [|intros H; discriminate H].
  destruct (dict_item d "quantity") as [quantity|e]; [|intros H; discriminate H].
  destruct (dict_item d "transaction_type") as [transaction_type|e];
    [|intros H; discriminate H].
  destruct (pya3_getattr host "TransactionType" transaction_type) as [txn_enum|e];
    [|intros H; discriminate H].
  destruct (dict_item d "product_type") as [product_type|e]; [|intros H; discriminate H].
  destruct (pya3_getattr host "ProductType" product_type) as [product_enum|e];
    [|intros H; discriminate H].
  destruct (py_gt0 (dict_get_or d "price" (VFloat 0))) as [has_price|e];
    [|intros H; discriminate H].
  intros Hrun.
  apply (f_equal (fun r : outcome (gmap string Arg) * AccountSession =>
                    match r.1 with Returned x => Some x | Raised _ => None end)) in Hrun.
  cbn [fst] in Hrun. apply (inj Some) in Hrun. subst order_dict.
  set (base := list_to_map _ : gmap string Arg).
  assert (Hbase : forall k, k ∈ ["price"; "trigger_price"; "stop_loss"; "square_off";
                                 "trailing_sl"; "is_amo"] -> base !! k = None).
  { intros k Hk. unfold base.
    repeat (apply elem_of_cons in Hk as [->|Hk]); [..|by apply elem_of_nil in Hk];
      reflexivity. }
  split; [|split].
  - rewrite !lookup_set_if_ne by done. rewrite lookup_set_if_eq, Hbase by set_solver.
    by destruct has_price.
  - rewrite lookup_set_if_eq. rewrite !lookup_set_if_ne by done.
    by rewrite Hbase by set_solver.
  - intros k Hk. unfold BasketOrderExecutor.not_None.
    repeat (apply elem_of_cons in Hk as [->|Hk]); [..|by apply elem_of_nil in Hk];
      rewrite ?(lookup_set_if_ne _ "is_amo"), ?(lookup_set_if_ne _ "trailing_sl"),
        ?(lookup_set_if_ne _ "square_off"), ?(lookup_set_if_ne _ "stop_loss") by done;
      rewrite lookup_set_if_eq;
      rewrite ?lookup_set_if_ne by done; rewrite Hbase by set_solver;
      by destruct (dict_get d _).
Qed.


(* ===================================================================== *)
(** * Further properties of the code *)
(* ===================================================================== *)

(** *** order_executor.py: failures of [place_order] *)

(** X1: when the remote call raises, [place_order] raises
    [OrderExecutionError] with the message ["API Error: "] followed by
    the text of the remote exception; the call was made once, with the
    filtered parameters, and the resolver's cache is untouched. *)
Theorem place_order_wraps_remote_failure (host : Host) (o : OrderExecutor.Order)
  (i : Instrument) (txn ord prod : Arg) (s : AccountSession) (e : Exn) :
  let params := OrderExecutor.drop_None (OrderExecutor.order_params o txn ord prod) in
  OrderExecutor.instrument o = Some i ->
  pya3_getattr host "TransactionType" (OrderExecutor.transaction_type o) = Returned txn ->
  pya3_getattr host "OrderType" (OrderExecutor.order_type o) = Returned ord ->
  pya3_getattr host "ProductType" (OrderExecutor.product_type o) = Returned prod ->
  Alice.place_order (alice s)
    (trace s ++ [EvLog INFO ("Placing order: " +:+ py_str host (OrderExecutor.o_name o))])
    params = Raised e ->
  exists s',
    OrderExecutor.place_order host o s =
      (Raised (OrderExecutor.OrderExecutionError ("API Error: " +:+ exn_msg e)), s') /\
    payloads (trace s') = (payloads (trace s) ++ [params])%list /\
    cache s' = cache s.
Proof.
  intros params Hi Ht Ho Hp Hremote. unfold OrderExecutor.place_order.
  rewrite Hi. unfold bind at 1. unfold lift at 1. rewrite Ht.
  unfold bind at 1. unfold lift at 1. rewrite Ho.
  unfold bind at 1. unfold lift at 1. rewrite Hp.
  unfold bind, try_except, log, emit, modify, remote, raise. cbn [trace alice with_trace].
  fold params. rewrite Hremote.
  eexists. split; [reflexivity|]. cbn [trace cache with_trace].
  split; [|done]. rewrite !payloads_app. cbn [payloads omap]. by rewrite !app_nil_r.
Qed.

Lemma place_order_wraps_remote_failure_witness :
  let tcs := {| exchange := VStr "NSE"; token := VStr "2885"; symbol := VStr "TCS";
                name := VStr ""; expiry := VStr ""; lot_size := VInt 1 |} in
  let o := {| OrderExecutor.o_name := VStr "buy-tcs";
              OrderExecutor.transaction_type := VStr "Buy";
              OrderExecutor.instrument := Some tcs;
              OrderExecutor.quantity := VInt 1;
              OrderExecutor.order_type := VStr "Market";
              OrderExecutor.product_type := VStr "Intraday";
              OrderExecutor.price := VFloat 0;
              OrderExecutor.trigger_price := VNone;
              OrderExecutor.stop_loss := VNone;
              OrderExecutor.square_off := VNone;
              OrderExecutor.trailing_sl := VNone;
              OrderExecutor.is_amo := VBool false;
              OrderExecutor.order_tag := VStr "A_" |} in
  exists s',
    OrderExecutor.place_order example_host o (fresh_session unreachable) =
      (Raised (OrderExecutor.OrderExecutionError "API Error: broker unreachable"), s').
Proof.
  intros tcs o.
  destruct (place_order_wraps_remote_failure example_host o tcs
              (AEnum "TransactionType" "Buy") (AEnum "OrderType" "Market")
              (AEnum "ProductType" "Intraday") (fresh_session unreachable)
              {| exn_class := "ConnectionError"; exn_msg := "broker unreachable" |})
    as (s' & Hrun & _); try reflexivity.
  by exists s'.
Defined.

(** X2: an enumeration name [pya3] does not know makes [place_order]
    raise the enumeration's own exception, not [OrderExecutionError];
    the three names are looked up in the order transaction type, order
    type, product type, and the session is left exactly as it was: no
    log record, no remote call. *)
Theorem place_order_unknown_enum_name (host : Host) (o : OrderExecutor.Order)
  (i : Instrument) (s : AccountSession) (e : Exn) :
  OrderExecutor.instrument o = Some i ->
  (pya3_getattr host "TransactionType" (OrderExecutor.transaction_type o) = Raised e \/
   (exists txn,
      pya3_getattr host "TransactionType" (OrderExecutor.transaction_type o) = Returned txn /\
      (pya3_getattr host "OrderType" (OrderExecutor.order_type o) = Raised e \/
       exists ord,
         pya3_getattr host "OrderType" (OrderExecutor.order_type o) = Returned ord /\
         pya3_getattr host "ProductType" (OrderExecutor.product_type o) = Raised e))) ->
  OrderExecutor.place_order host o s = (Raised e, s).
Proof.
  intros Hi H. unfold OrderExecutor.place_order. rewrite Hi.
  unfold bind at 1. unfold lift at 1.
  destruct H as [->|(txn & -> & H)]; [done|].
  unfold bind at 1. unfold lift at 1.
  destruct H as [->|(ord & -> & ->)]; done.
Qed.

Lemma place_order_unknown_enum_name_witness :
  let tcs := {| exchange := VStr "NSE"; token := VStr "2885"; symbol := VStr "TCS";
                name := VStr ""; expiry := VStr ""; lot_size := VInt 1 |} in
  let o := {| OrderExecutor.o_name := VStr "buy-tcs";
              OrderExecutor.transaction_type := VStr "Buy";
              OrderExecutor.instrument := Some tcs;
              OrderExecutor.quantity := VInt 1;
              OrderExecutor.order_type := VStr "Iceberg";
              OrderExecutor.product_type := VStr "Intraday";
              OrderExecutor.price := VFloat 0;
              OrderExecutor.trigger_price := VNone;
              OrderExecutor.stop_loss := VNone;
              OrderExecutor.square_off := VNone;
              OrderExecutor.trailing_sl := VNone;
              OrderExecutor.is_amo := VBool false;
              OrderExecutor.order_tag := VStr "A_" |} in
  OrderExecutor.place_order example_host o (fresh_session broker) =
    (Raised (AttributeError "Iceberg"), fresh_session broker).
Proof.
  intros tcs o.
  apply (place_order_unknown_enum_name example_host o tcs); [reflexivity|].
  right. exists (AEnum "TransactionType" "Buy"). split; [reflexivity|]. by left.
Defined.

(** *** basket_order_executor.py: skipping, submitting, reading the answer *)
Section BasketMore.
Context (host : Host).
Import BasketOrderExecutor.

Lemma basket_payloads_app (t u : list Event) :
  basket_payloads (t ++ u) = (basket_payloads t ++ basket_payloads u)%list.
Proof. unfold basket_payloads. apply omap_app. Qed.

Lemma not_basket_call_payloads evs :
  Forall not_basket_call evs -> basket_payloads evs = [].
Proof.
  unfold basket_payloads, not_basket_call.
  induction 1 as [|ev evs Hev _ IH]; [done|].
  destruct ev; cbn in *; first [exact IH | discriminate Hev].
Qed.

Lemma legs_built_spec legs s dicts s' :
  legs_built host legs s dicts s' ->
  length dicts = length legs /\
  basket_payloads (trace s') = basket_payloads (trace s) /\
  forall basket, build_basket host legs basket s = (Returned (inr (basket ++ dicts)%list), s').
Proof.
  induction 1 as [s|leg rest s d s1 dicts s' Hrun _ (Hlen & Htr & Hbuild)].
  - split; [done|]. split; [done|]. intros basket. by rewrite app_nil_r.
  - split; [by rewrite !length_cons, Hlen|]. split.
    + rewrite Htr.
      destruct (emits_build_order_dict host not_basket_call leg) with (s := s)
        as (evs & Hevs & Hnot); [done..|].
      rewrite Hrun in Hevs. cbn [snd] in Hevs.
      by rewrite Hevs, basket_payloads_app, (not_basket_call_payloads evs Hnot), app_nil_r.
    + intros basket. cbn [build_basket]. rewrite Hrun, Hbuild.
      by rewrite <- app_assoc.
Qed.

(** Reading a basket answer never raises and only logs. *)
Lemma process_basket_response_returns basket_name response (s : AccountSession) :
  exists r s',
    _process_basket_response host basket_name response s = (Returned r, s') /\
    r !! "raw_response" = Some response /\
    r !! "basket_name" = Some basket_name /\
    basket_payloads (trace s') = basket_payloads (trace s).
Proof.
  unfold _process_basket_response.
  destruct response as [| | | | |[|x l]|d|]; run;
    try destruct (py_eq_str _ _); run;
    eexists _, _; (split; [reflexivity|]); simplify_map_eq;
    (split; [done|]); (split; [done|]);
    rewrite !basket_payloads_app; simpl; by rewrite ?app_nil_r.
Qed.
End BasketMore.

(** X3: a basket that is disabled, or has no legs (no ["orders"] entry,
    an empty list, [None]), is not executed: the result is
    [{success: False, message: "Basket disabled"}], respectively
    ["Empty basket"], no exception is raised, and the session is left as
    it was but for one log record: no leg is built, nothing is looked
    up, nothing is sent.  The disabled test comes first. *)
Theorem execute_basket_skips_disabled_and_empty (host : Host)
  (basket_config : gmap string PyVal) (s : AccountSession) :
  let basket_name := py_str host (dict_get_or basket_config "name" (VStr "Unnamed Basket")) in
  (py_truthy (dict_get_or basket_config "enabled" (VBool true)) = false ->
   BasketOrderExecutor.execute_basket host basket_config s =
     (Returned (BasketOrderExecutor.failure "Basket disabled"),
      with_trace (trace s ++ [EvLog INFO ("Skipping disabled basket: " +:+ basket_name)]) s)) /\
  (py_truthy (dict_get_or basket_config "enabled" (VBool true)) = true ->
   py_truthy (dict_get_or basket_config "orders" (VList [])) = false ->
   BasketOrderExecutor.execute_basket host basket_config s =
     (Returned (BasketOrderExecutor.failure "Empty basket"),
      with_trace (trace s ++ [EvLog WARNING ("No orders found in basket: " +:+ basket_name)]) s)).
Proof.
  intros basket_name. unfold BasketOrderExecutor.execute_basket. split.
  - intros ->. reflexivity.
  - intros -> ->. reflexivity.
Qed.

Lemma execute_basket_skips_disabled_and_empty_witness :
  let disabled : gmap string PyVal :=
    list_to_map [ ("name", VStr "hedge"); ("enabled", VBool false) ] in
  let no_legs : gmap string PyVal := list_to_map [ ("name", VStr "hedge") ] in
  (BasketOrderExecutor.execute_basket example_host disabled (fresh_session broker)).1 =
    Returned (BasketOrderExecutor.failure "Basket disabled") /\
  (BasketOrderExecutor.execute_basket example_host no_legs (fresh_session broker)).1 =
    Returned (BasketOrderExecutor.failure "Empty basket").
Proof.
  intros disabled no_legs.
  destruct (execute_basket_skips_disabled_and_empty example_host disabled
              (fresh_session broker)) as [Hdisabled _].
  destruct (execute_basket_skips_disabled_and_empty example_host no_legs
              (fresh_session broker)) as [_ Hempty].
  split.
  - rewrite Hdisabled; [reflexivity|]. vm_compute. reflexivity.
  - rewrite Hempty; [reflexivity| |]; vm_compute; reflexivity.
Defined.

(** X4: when every leg of an enabled basket builds, [execute_basket]
    makes the remote basket call exactly once, with one dictionary per
    leg, in leg order.  If the call answers, the result carries the raw
    answer and the basket's name; if it raises, [execute_basket] raises
    [BasketOrderExecutionError] with ["API Error: "] and the text of the
    remote exception. *)
Theorem execute_basket_submits_all_legs (host : Host)
  (basket_config : gmap string PyVal) (legs : list PyVal)
  (dicts : list (gmap string Arg)) (s s1 : AccountSession) :
  let basket_name := dict_get_or basket_config "name" (VStr "Unnamed Basket") in
  py_truthy (dict_get_or basket_config "enabled" (VBool true)) = true ->
  dict_get_or basket_config "orders" (VList []) = VList legs ->
  legs <> [] ->
  legs_built host legs
    (with_trace
       (trace s ++ [EvLog INFO ("Executing basket order: " +:+ py_str host basket_name +:+
                                " with " +:+ pretty (length legs) +:+ " legs")]) s)
    dicts s1 ->
  exists out s',
    BasketOrderExecutor.execute_basket host basket_config s = (out, s') /\
    length dicts = length legs /\
    basket_payloads (trace s') = (basket_payloads (trace s) ++ [dicts])%list /\
    match Alice.place_basket_order (alice s1) (trace s1) dicts with
    | Returned response =>
        exists r, out = Returned r /\ r !! "raw_response" = Some response /\
                  r !! "basket_name" = Some basket_name
    | Raised e =>
        out = Raised (BasketOrderExecutor.BasketOrderExecutionError
                        ("API Error: " +:+ exn_msg e))
    end.
Proof.
  intros basket_name Henabled Horders Hne Hbuilt.
  destruct (legs_built_spec host _ _ _ _ Hbuilt) as (Hlen & Htrace & Hbuild).
  unfold BasketOrderExecutor.execute_basket.
  rewrite Henabled, Horders. cbn [negb].
  assert (Htruthy : py_truthy (VList legs) = true) by (by destruct legs).
  rewrite Htruthy. cbn [negb py_elements].
  fold basket_name.
  unfold bind at 1. unfold lift at 1. cbv beta iota.
  unfold bind at 1. unfold log at 1, emit at 1, modify at 1. cbv beta iota.
  unfold bind at 1. rewrite (Hbuild []). cbn [app].
  unfold try_except, bind at 1, remote at 1. cbv beta iota.
  cbn [trace with_trace] in Htrace. rewrite basket_payloads_app in Htrace.
  cbn [basket_payloads omap] in Htrace. rewrite app_nil_r in Htrace.
  destruct (Alice.place_basket_order (alice s1) (trace s1) dicts) as [response|e].
  - match goal with |- context [BasketOrderExecutor._process_basket_response host ?n ?r ?st] =>
      destruct (process_basket_response_returns host n r st)
        as (r' & s' & Hrun & Hraw & Hname & Htr) end.
    rewrite Hrun. eexists _, _. split; [reflexivity|]. split; [exact Hlen|]. split.
    + rewrite Htr. cbn [trace with_trace]. rewrite basket_payloads_app, Htrace. done.
    + by exists r'.
  - unfold bind, log, emit, modify, raise. cbv beta iota.
    eexists _, _. split; [reflexivity|]. split; [exact Hlen|]. split; [|reflexivity].
    cbn [trace with_trace]. rewrite !basket_payloads_app, Htrace. cbn.
    by rewrite app_nil_r.
Qed.

Lemma execute_basket_submits_all_legs_witness :
  let leg := VDict (list_to_map [ ("instrument", VStr "TCS");
                                  ("transaction_type", VStr "Buy"); ("quantity", VInt 1);
                                  ("order_type", VStr "Market");
                                  ("product_type", VStr "Intraday") ]) in
  let basket_config : gmap string PyVal :=
    list_to_map [ ("name", VStr "pair"); ("orders", VList [leg; leg]) ] in
  let s := with_instruments (Some ∅) (fresh_session broker) in
  exists out s' dicts,
    BasketOrderExecutor.execute_basket example_host basket_config s = (out, s') /\
    length dicts = 2 /\
    basket_payloads (trace s') = [dicts].
Proof.
  intros leg basket_config s.
  pose (built := BasketOrderExecutor.build_basket example_host [leg; leg] []
                   (with_trace
                      (trace s ++ [EvLog INFO "Executing basket order: pair with 2 legs"]) s)).
  pose (s1 := built.2).
  pose (dicts := match built.1 with Returned (inr ds) => ds | _ => [] end).
  destruct (execute_basket_submits_all_legs example_host basket_config [leg; leg] dicts s s1)
    as (out & s' & Hrun & Hlen & Hsent & _).
  - vm_compute. reflexivity.
  - vm_compute. reflexivity.
  - discriminate.
  - eapply legs_built_cons; [vm_compute; reflexivity|].
    eapply legs_built_cons; [vm_compute; reflexivity|].
    apply legs_built_nil.
  - exists out, s', dicts. split; [exact Hrun|]. split; [exact Hlen|exact Hsent].
Defined.

Lemma order_numbers_length (response : list PyVal) :
  length (BasketOrderExecutor.order_numbers response) <= length response.
Proof.
  unfold BasketOrderExecutor.order_numbers.
  induction response as [|y resp IH]; [done|]. cbn [omap list_omap].
  destruct y; cbn [length]; try lia. destruct (_ && _); cbn [length]; lia.
Qed.

Lemma order_numbers_elem (response : list PyVal) (n : PyVal) :
  n ∈ BasketOrderExecutor.order_numbers response <->
  exists d, VDict d ∈ response /\ py_eq_str (dict_get d "stat") "Ok" = true /\
            py_truthy (dict_get d "NOrdNo") = true /\ n = dict_get d "NOrdNo".
Proof.
  unfold BasketOrderExecutor.order_numbers. rewrite list_elem_of_omap. split.
  - intros (y & Hy & Hsome). destruct y as [| | | | | |d|]; try discriminate Hsome.
    destruct (py_eq_str (dict_get d "stat") "Ok") eqn:Hstat; [|discriminate Hsome].
    destruct (py_truthy (dict_get d "NOrdNo")) eqn:Hno; [|discriminate Hsome].
    cbn in Hsome. apply (inj Some) in Hsome. by exists d.
  - intros (d & Hd & Hstat & Hno & ->). exists (VDict d). split; [exact Hd|].
    by rewrite Hstat, Hno.
Qed.

(** X5: a non-empty list answer to a basket is reported as a success
    whatever its elements are; the order numbers reported are exactly
    the truthy [NOrdNo] of those elements that are mappings with
    [stat == 'Ok'], so there may be fewer than elements, or none.  A
    single mapping answer with [stat == 'Ok'] reports its [NOrdNo] even
    when it is missing ([None]); an empty list, another mapping or any
    other value is a failure without order numbers.  The raw answer is
    always kept and no exception is raised. *)
Theorem process_basket_response_classes (host : Host) (basket_name response : PyVal)
  (s : AccountSession) :
  exists r s',
    BasketOrderExecutor._process_basket_response host basket_name response s =
      (Returned r, s') /\
    r !! "raw_response" = Some response /\
    match response with
    | VList (x :: l) =>
        r !! "success" = Some (VBool true) /\
        exists numbers,
          r !! "order_numbers" = Some (VList numbers) /\
          length numbers <= S (length l) /\
          forall n, n ∈ numbers <->
                    exists d, VDict d ∈ x :: l /\ py_eq_str (dict_get d "stat") "Ok" = true /\
                              py_truthy (dict_get d "NOrdNo") = true /\
                              n = dict_get d "NOrdNo"
    | VDict d =>
        if py_eq_str (dict_get d "stat") "Ok"
        then r !! "success" = Some (VBool true) /\
             r !! "order_numbers" = Some (VList [dict_get d "NOrdNo"])
        else r !! "success" = Some (VBool false) /\ r !! "order_numbers" = Some (VList [])
    | _ => r !! "success" = Some (VBool false) /\ r !! "order_numbers" = Some (VList [])
    end.
Proof.
  unfold BasketOrderExecutor._process_basket_response.
  destruct response as [| | | | |[|x l]|d|].
  7: { unfold bind, log, emit, modify, ret. cbv beta iota.
       eexists _, _. split; [reflexivity|]. split; [by simplify_map_eq|].
       split; [by simplify_map_eq|].
       exists (BasketOrderExecutor.order_numbers (x :: l)).
       split; [by simplify_map_eq|]. split.
       - apply (order_numbers_length (x :: l)).
       - apply order_numbers_elem. }
  all: run; try destruct (py_eq_str _ _); run;
    eexists _, _; (split; [reflexivity|]); simplify_map_eq; by repeat split.
Qed.

(** *** instrument_resolver.py: normalization and the commodity fallback *)



Section ResolverMore.
Context (host : Host).

Lemma resolve_equity_as_query ex sym :
  InstrumentResolver.resolve_equity host ex sym = resolve host (Equity ex sym).
Proof. reflexivity. Qed.
End ResolverMore.

(** X7: a mapping answer without a [token] entry does not fail the
    resolution: [resolve_equity] returns a record whose token is the
    empty string, which every caller's test takes for unresolved, and
    stores it in the cache; from then on, while the cache is unchanged,
    resolving the same symbol returns that unresolved record without
    asking the broker again. *)
Theorem tokenless_answer_is_cached_unresolved (host : Host) (ex sym : string)
  (d : gmap string PyVal) (s : AccountSession) :
  cache s !! InstrumentResolver.equity_key ex sym = None ->
  Alice.get_instrument_by_symbol (alice s)
    (trace s ++ [EvLog INFO ("Resolving " +:+ sym +:+ " on " +:+ ex +:+ "...")]) ex sym =
    Returned (VDict d) ->
  d !! "token" = None ->
  exists i s1,
    InstrumentResolver.resolve_equity host ex sym s = (Returned (Some i), s1) /\
    token i = VStr "" /\ unresolved (Some i) = true /\
    cache s1 !! InstrumentResolver.equity_key ex sym = Some i /\
    forall s2, cache s2 = cache s1 ->
      exists s3, InstrumentResolver.resolve_equity host ex sym s2 = (Returned (Some i), s3) /\
                 lookup_calls (trace s3) = lookup_calls (trace s2).
Proof.
  intros Hmiss Hanswer Htoken.
  unfold InstrumentResolver.resolve_equity at 1.
  unfold bind at 1, gets at 1. cbv beta iota. rewrite Hmiss.
  unfold try_except, bind, log, emit, modify, remote, lift, set_cache, ret. cbv beta iota.
  cbn [trace alice with_trace]. rewrite Hanswer.
  cbn [InstrumentResolver._normalize_instrument].
  eexists _, _. split; [reflexivity|].
  unfold dict_get_or. rewrite Htoken. cbn [default token]. split; [done|]. split; [done|].
  cbn [cache with_cache with_trace]. split; [apply lookup_insert_eq|].
  intros s2 Hsame.
  match goal with |- context [Returned (Some ?i)] => set (rec := i) end.
  destruct (resolve_hit host (Equity ex sym) rec s2) as (s3 & Hrun & _ & Hcalls).
  - cbn [query_key]. rewrite Hsame. apply lookup_insert_eq.
  - exists s3. by split.
Qed.

Lemma tokenless_answer_is_cached_unresolved_witness :
  let silent : Alice.t :=
    {| Alice.get_instrument_by_symbol _ _ _ := Returned (VDict ∅);
       Alice.get_instrument_for_fno _ _ _ _ _ _ _ := Returned (VDict ∅);
       Alice.place_order _ _ := Returned VNone;
       Alice.place_basket_order _ _ := Returned VNone |} in
  exists i s1,
    InstrumentResolver.resolve_equity example_host "NSE" "XYZ" (fresh_session silent) =
      (Returned (Some i), s1) /\
    unresolved (Some i) = true.
Proof.
  intros silent.
  destruct (tokenless_answer_is_cached_unresolved example_host "NSE" "XYZ" ∅
              (fresh_session silent)) as (i & s1 & Hrun & _ & Hun & _); try reflexivity.
  by exists i, s1.
Defined.

(** X8: [resolve_mcx_gold] never raises and asks the broker at most once
    per symbol.  When it returns an instrument, that instrument is in
    the cache under the MCX key of one of the symbols; it returns
    [None] only after every symbol in turn was looked up and failed:
    exactly one remote lookup per symbol, the cache left as it was. *)
Theorem resolve_mcx_gold_first_success (host : Host) (symbols : list string)
  (s : AccountSession) :
  exists r s',
    resolve_mcx_gold host symbols s = (Returned r, s') /\
    lookup_calls (trace s') <= lookup_calls (trace s) + length symbols /\
    match r with
    | Some i =>
        exists symbol, symbol ∈ symbols /\
                       cache s' !! InstrumentResolver.equity_key "MCX" symbol = Some i
    | None =>
        cache s' = cache s /\
        lookup_calls (trace s') = lookup_calls (trace s) + length symbols
    end.
Proof.
  revert s. induction symbols as [|symbol rest IH]; intros s.
  - cbn [resolve_mcx_gold]. unfold bind, log, emit, modify, ret. cbv beta iota.
    eexists _, _. split; [reflexivity|]. cbn [trace cache with_trace length].
    rewrite lookup_calls_app. unfold lookup_calls. cbn. split; [lia|]. split; [done|lia].
  - cbn [resolve_mcx_gold]. unfold bind at 1. rewrite resolve_equity_as_query.
    destruct (cache s !! query_key host (Equity "MCX" symbol)) as [j|] eqn:Hc.
    + destruct (resolve_hit host _ j s Hc) as (s1 & Hrun & Hcache & Hcalls).
      rewrite Hrun. unfold ret. eexists _, _. split; [reflexivity|].
      split; [cbn [length]; lia|]. exists symbol. split; [apply list_elem_of_here|].
      by rewrite Hcache.
    + destruct (resolve_miss host _ s Hc) as (h & r & s1 & _ & _ & Hrun & Hcalls & Hcache).
      rewrite Hrun. destruct r as [i|].
      * unfold ret. eexists _, _. split; [reflexivity|]. split; [cbn [length]; lia|].
        exists symbol. split; [apply list_elem_of_here|].
        rewrite Hcache. apply lookup_insert_eq.
      * destruct (IH s1) as (r & s' & Hrest & Hle & Hres). rewrite Hrest.
        exists r, s'. split; [reflexivity|]. split; [cbn [length]; lia|].
        destruct r as [i|].
        -- destruct Hres as (sym' & Hin & Hcached). exists sym'.
           split; [by apply list_elem_of_further|exact Hcached].
        -- destruct Hres as [Hsame Hexact]. split; [by rewrite Hsame|].
           cbn [length]. lia.
Qed.

(** *** instrument_resolver.py: the key of a future *)

(** X20: the cache key of a future leaves out the strike and the option
    side, although both are passed on to the broker.  So once a future
    has been resolved, asking for the same exchange, symbol and expiry
    with any other strike or side returns the record cached first,
    without a remote lookup. *)
Theorem futures_share_one_cache_entry (host : Host) (exchange symbol expiry_date : string)
  (strike strike' : PyVal) (is_ce is_ce' : bool) (i : Instrument) (s s1 : AccountSession) :
  InstrumentResolver.resolve_fno host exchange symbol expiry_date true strike is_ce s =
    (Returned (Some i), s1) ->
  exists s2,
    InstrumentResolver.resolve_fno host exchange symbol expiry_date true strike' is_ce' s1 =
      (Returned (Some i), s2) /\
    cache s2 = cache s1 /\
    lookup_calls (trace s2) = lookup_calls (trace s1).
Proof.
  intros Hfirst.
  pose proof (resolve_Some_cached host (Fno exchange symbol expiry_date true strike is_ce)
                i s s1 Hfirst) as Hcached.
  exact (resolve_hit host (Fno exchange symbol expiry_date true strike' is_ce') i s1 Hcached).
Qed.

Lemma futures_share_one_cache_entry_witness :
  let first :=
    InstrumentResolver.resolve_fno example_host "NFO" "NIFTY" "2024-01-25" true (VInt 21000)
      true (fresh_session broker) in
  exists i s2,
    first.1 = Returned (Some i) /\
    InstrumentResolver.resolve_fno example_host "NFO" "NIFTY" "2024-01-25" true (VInt 22000)
      false first.2 = (Returned (Some i), s2) /\
    lookup_calls (trace s2) = 1.
Proof.
  intros first.
  pose (i := {| exchange := VStr "NFO"; token := VStr "2885"; symbol := VStr "NIFTY";
                name := VStr ""; expiry := VStr ""; lot_size := VInt 1 |}).
  destruct (futures_share_one_cache_entry example_host "NFO" "NIFTY" "2024-01-25"
              (VInt 21000) (VInt 22000) true false i (fresh_session broker) first.2)
    as (s2 & Hrun & _ & Hcalls).
  - vm_compute. reflexivity.
  - exists i, s2. split; [vm_compute; reflexivity|]. split; [exact Hrun|].
    rewrite Hcalls. vm_compute. reflexivity.
Defined.

(** *** Frames and results of the monad *)
Section Keeps.
Context {S X : Type} (f : S -> X).

Lemma keeps_ret {A} (a : A) : keeps f (ret a).
Proof. by intros s. Qed.

Lemma keeps_raise {A} (e : Exn) : keeps f (raise (A := A) e).
Proof. by intros s. Qed.

Lemma keeps_lift {A} (o : outcome A) : keeps f (lift o).
Proof. by intros s. Qed.

Lemma keeps_gets {A} (g : S -> A) : keeps f (gets g).
Proof. by intros s. Qed.

Lemma keeps_modify (g : S -> S) : (forall s, f (g s) = f s) -> keeps f (modify g).
Proof. intros Hg s. apply Hg. Qed.

Lemma keeps_bind {A B} (m : M S A) (k : A -> M S B) :
  keeps f m -> (forall a, keeps f (k a)) -> keeps f (bind m k).
Proof.
  intros Hm Hk s. unfold bind. specialize (Hm s).
  destruct (m s) as [[a|e] s1]; cbn [snd] in *; [|exact Hm].
  by rewrite (Hk a s1).
Qed.

Lemma keeps_try_except {A} (m : M S A) (h : Exn -> M S A) :
  keeps f m -> (forall e, keeps f (h e)) -> keeps f (try_except m h).
Proof.
  intros Hm Hh s. unfold try_except. specialize (Hm s).
  destruct (m s) as [[a|e] s1]; cbn [snd] in *; [exact Hm|].
  by rewrite (Hh e s1).
Qed.
End Keeps.

Lemma returns_only_bind {S A B} (Q : B -> Prop) (m : M S A) (k : A -> M S B) :
  (forall a, returns_only Q (k a)) -> returns_only Q (bind m k).
Proof.
  intros Hk s b s' Hrun. unfold bind in Hrun.
  destruct (m s) as [[a|e] s1]; [by apply (Hk a s1 b s')|discriminate Hrun].
Qed.

Lemma returns_only_ret {S A} (Q : A -> Prop) (a : A) :
  Q a -> returns_only (S := S) Q (ret a).
Proof.
  intros HQ s b s' Hrun.
  assert (Hab : Some a = Some b)
    by exact (f_equal (fun p : outcome A * S =>
                         match p.1 with Returned v => Some v | Raised _ => None end) Hrun).
  apply (inj Some) in Hab. by subst b.
Qed.

Lemma try_except_returns {S A} (Q : A -> Prop) (m : M S A) (h : Exn -> M S A) :
  returns_only Q m ->
  (forall e s, exists a s', h e s = (Returned a, s') /\ Q a) ->
  forall s, exists a s', try_except m h s = (Returned a, s') /\ Q a.
Proof.
  intros Hm Hh s. unfold try_except. destruct (m s) as [[a|e] s1] eqn:Hrun.
  - exists a, s1. split; [done|]. by apply (Hm s a s1).
  - apply Hh.
Qed.

(** *** threaded_orchestrator.py: what one order does *)
Section TaskMore.
Context (host : Host).
Import ThreadedOrchestrator.

Lemma keeps_in_session_frame {A X} (f : TaskState -> X) (m : M AccountSession A) :
  (forall ts s', f {| ts_session := s'; ts_instruments := ts_instruments ts;
                      ts_store := ts_store ts |} = f ts) ->
  keeps f (in_session m).
Proof.
  intros Hf ts. unfold in_session. destruct (m (ts_session ts)) as [o s']. apply Hf.
Qed.

Lemma emits_place_order_params (P : Event -> Prop) o :
  (forall lvl msg, P (EvLog lvl msg)) ->
  (forall txn ord prod,
     P (EvPlaceOrder (OrderExecutor.drop_None (OrderExecutor.order_params o txn ord prod)))) ->
  emits trace P (OrderExecutor.place_order host o).
Proof.
  intros P_log P_order. unfold OrderExecutor.place_order.
  destruct (OrderExecutor.instrument o); [|apply emits_raise].
  apply emits_bind; [apply emits_lift|]. intros txn.
  apply emits_bind; [apply emits_lift|]. intros ord.
  apply emits_bind; [apply emits_lift|]. intros prod.
  apply emits_bind; [by apply emits_log|]. intros _.
  apply emits_try_except.
  - apply emits_bind; [by apply emits_remote|]. intros response.
    by apply emits_process_response.
  - intros e. apply emits_bind; [by apply emits_log|]. intros _. apply emits_raise.
Qed.

Lemma drop_None_order_tag o txn ord prod tag :
  OrderExecutor.order_tag o = VStr tag ->
  OrderExecutor.drop_None (OrderExecutor.order_params o txn ord prod) !! "order_tag" =
    Some (AVal (VStr tag)).
Proof.
  intros Htag. unfold OrderExecutor.drop_None, OrderExecutor.order_params.
  rewrite map_lookup_filter. simpl. simplify_map_eq. by rewrite Htag.
Qed.

Lemma emits_execute_order_tagged account_name order_data :
  emits task_trace (tagged_for account_name) (execute_order host account_name order_data).
Proof.
  unfold execute_order, task_log.
  destruct (negb (py_truthy _)); [emits_auto|].
  apply emits_bind; [apply emits_lift|]. intros instr.
  apply emits_bind; [apply emits_gets|]. intros table.
  apply emits_bind.
  - destruct (unresolved _); [|apply emits_ret].
    destruct (negb (has_underscore _)); [|emits_auto].
    apply emits_bind; [emits_auto|]. intros _.
    apply emits_bind; [apply emits_in_session, emits_resolve_equity; done|]. intros dyn.
    destruct dyn as [i|]; [destruct (py_truthy (token i))|];
      repeat first [apply emits_instruments_set | emits_step].
  - intros [instrument|]; [|apply emits_ret].
    apply emits_try_except; [|intros e; emits_auto].
    apply emits_bind; [apply emits_lift|]. intros name.
    apply emits_bind; [emits_auto|]. intros _.
    apply emits_bind; [apply emits_lift|]. intros transaction_type.
    apply emits_bind; [apply emits_lift|]. intros quantity.
    apply emits_bind; [apply emits_lift|]. intros order_type.
    apply emits_bind; [apply emits_lift|]. intros product_type.
    apply emits_bind; [|intros result; apply emits_ret].
    apply emits_in_session, emits_place_order_params; [done|].
    intros txn ord prod. cbn [tagged_for]. eexists.
    by apply drop_None_order_tag.
Qed.
End TaskMore.

(** X9: every single order an account's task sends to the broker carries
    an [order_tag] that starts with the account's name and an
    underscore, whatever the order configuration and the state the task
    starts from. *)
Theorem task_orders_carry_account_tag (host : Host)
  (order_config : list (gmap string PyVal)) (account_name : string) :
  emits task_trace (tagged_for account_name)
        (ThreadedOrchestrator._execute_on_single_account host order_config account_name).
Proof.
  unfold ThreadedOrchestrator._execute_on_single_account, ThreadedOrchestrator.task_log.
  apply emits_bind; [emits_auto|]. intros _.
  apply emits_bind; [emits_auto|]. intros _.
  apply emits_bind; [|intros r; apply emits_ret].
  generalize (@nil PyVal). induction order_config as [|order_data rest IH]; intros acc.
  - apply emits_ret.
  - cbn [ThreadedOrchestrator.execute_orders].
    apply emits_bind; [apply emits_execute_order_tagged|]. intros r. apply IH.
Qed.

Section SessionFrames.
Context (host : Host) {X : Type} (f : AccountSession -> X).
Hypothesis f_trace : forall t s, f (with_trace t s) = f s.

Lemma keeps_log lvl msg : keeps f (log lvl msg).
Proof. intros s. apply f_trace. Qed.

Lemma keeps_remote {A} ev (call : Alice.t -> list Event -> outcome A) :
  keeps f (remote ev call).
Proof. intros s. apply f_trace. Qed.

Lemma keeps_process_response name response :
  keeps f (OrderExecutor._process_response host name response).
Proof.
  unfold OrderExecutor._process_response.
  destruct response as [| | | | |[|x l]|d|];
    try destruct (py_eq_str _ _);
    repeat first [apply keeps_ret | apply keeps_log | apply keeps_bind; [|intros ?]].
Qed.

Lemma keeps_place_order o : keeps f (OrderExecutor.place_order host o).
Proof.
  unfold OrderExecutor.place_order.
  destruct (OrderExecutor.instrument o); [|apply keeps_raise].
  repeat first
    [ apply keeps_process_response | apply keeps_ret | apply keeps_raise | apply keeps_lift
    | apply keeps_log | apply keeps_remote
    | apply keeps_bind; [|intros ?] | apply keeps_try_except; [|intros ?] ].
Qed.
End SessionFrames.

Section ResolverFrames.
Context (host : Host).

(** Resolving touches the cache and the trace, never the resolver's
    [instruments] table. *)
Lemma keeps_resolve_equity_instruments ex sym :
  keeps instruments (InstrumentResolver.resolve_equity host ex sym).
Proof.
  unfold InstrumentResolver.resolve_equity.
  apply keeps_bind; [apply keeps_gets|]. intros c.
  destruct (c !! _); [apply keeps_ret|].
  repeat first
    [ apply keeps_ret | apply keeps_lift | apply (keeps_log instruments); done
    | apply (keeps_remote instruments); done
    | apply keeps_modify; done
    | apply keeps_bind; [|intros ?] | apply keeps_try_except; [|intros ?] ].
Qed.
End ResolverFrames.

Section OrderRuns.
Context (host : Host).
Import ThreadedOrchestrator.

Lemma not_lookup_count evs : Forall not_lookup evs -> lookup_calls evs = 0.
Proof.
  unfold lookup_calls, not_lookup.
  induction 1 as [|ev evs Hev _ IH]; [done|]. cbn. by rewrite Hev.
Qed.

(** Whatever happens inside, the block returns one result, a mapping;
    it changes neither the shared table, nor the store, nor the
    session's cache and [instruments], and looks nothing up. *)
Lemma place_block_spec account_name order_data instrument (ts : TaskState) :
  exists d ts',
    place_block host account_name order_data instrument ts = (Returned (Some (VDict d)), ts') /\
    ts_instruments ts' = ts_instruments ts /\
    ts_store ts' = ts_store ts /\
    cache (ts_session ts') = cache (ts_session ts) /\
    instruments (ts_session ts') = instruments (ts_session ts) /\
    lookup_calls (task_trace ts') = lookup_calls (task_trace ts).
Proof.
  assert (Hframe : forall X (f : TaskState -> X),
            (forall ts0 s', f {| ts_session := s'; ts_instruments := ts_instruments ts0;
                                 ts_store := ts_store ts0 |} = f ts0) ->
            keeps f (place_block host account_name order_data instrument)).
  { intros X f Hf. unfold place_block, task_log.
    repeat first
      [ apply keeps_ret | apply keeps_lift | apply keeps_in_session_frame; exact Hf
      | apply keeps_bind; [|intros ?] | apply keeps_try_except; [|intros ?] ]. }
  assert (Hsess : forall X (f : AccountSession -> X),
            (forall t s, f (with_trace t s) = f s) ->
            keeps (fun ts0 => f (ts_session ts0))
                  (place_block host account_name order_data instrument)).
  { intros X f Hf. unfold place_block, task_log.
    assert (Hin : forall A (m : M AccountSession A), keeps f m ->
              keeps (fun ts0 => f (ts_session ts0)) (in_session m)).
    { intros A m Hm ts0. unfold in_session. specialize (Hm (ts_session ts0)).
      by destruct (m (ts_session ts0)). }
    repeat first
      [ apply keeps_ret | apply keeps_lift
      | apply Hin; first [by apply keeps_log | by apply keeps_place_order]
      | apply keeps_bind; [|intros ?] | apply keeps_try_except; [|intros ?] ]. }
  assert (Hemits : emits task_trace not_lookup
                     (place_block host account_name order_data instrument)).
  { unfold place_block, task_log.
    repeat first [apply emits_place_order; done | emits_step]. }
  assert (Hret : exists a ts',
            place_block host account_name order_data instrument ts = (Returned a, ts') /\
            exists d, a = Some (VDict d)).
  { unfold place_block. apply try_except_returns.
    - repeat (apply returns_only_bind; intros ?). apply returns_only_ret. by eexists.
    - intros e s0. eexists _, _. split; [reflexivity|]. by eexists. }
  destruct Hret as (a & ts' & Hrun & d & ->).
  exists d, ts'. split; [exact Hrun|].
  pose proof (Hframe _ ts_instruments ltac:(done) ts) as H1.
  pose proof (Hframe _ ts_store ltac:(done) ts) as H2.
  pose proof (Hsess _ cache ltac:(done) ts) as H3.
  pose proof (Hsess _ instruments ltac:(done) ts) as H4.
  destruct (Hemits ts) as (evs & Htr & Hevs).
  rewrite Hrun in H1, H2, H3, H4, Htr. cbn [snd] in *.
  repeat (split; [done|]).
  rewrite Htr, lookup_calls_app, (not_lookup_count evs Hevs). lia.
Qed.

Lemma execute_order_resolved account_name order_data instr i (ts : TaskState) :
  order_enabled order_data = true ->
  order_data !! "instrument" = Some instr ->
  ts_instruments ts !! py_upper host (py_strip host (py_str host instr)) = Some (Some i) ->
  py_truthy (token i) = true ->
  execute_order host account_name order_data ts = place_block host account_name order_data i ts.
Proof.
  intros Hen Hinstr Htable Htoken. unfold order_enabled in Hen.
  unfold execute_order. rewrite Hen. cbn [negb].
  unfold dict_item at 1. rewrite Hinstr.
  unfold bind at 1. unfold lift at 1. cbv beta iota.
  unfold bind at 1. unfold gets at 1. cbv beta iota.
  rewrite Htable. cbn [default from_option id unresolved]. rewrite Htoken. cbn [negb].
  unfold bind at 1. unfold ret at 1. cbv beta iota. reflexivity.
Qed.
End OrderRuns.





Section DynamicResolution.
Context (host : Host).
Import ThreadedOrchestrator.

(** Up to the point where the table is written, an enabled order for a
    key without underscore that the table does not resolve has looked
    the key up as an NSE equity; when that gives a record with a token,
    the record goes into the shared table first. *)
Lemma execute_order_dynamic account_name order_data instr i (ts : TaskState) s1 :
  let key := py_upper host (py_strip host (py_str host instr)) in
  let asked := with_trace (trace (ts_session ts) ++
                           [EvLog INFO ("🔄 Dynamic resolution attempt: " +:+ key)])
                          (ts_session ts) in
  order_enabled order_data = true ->
  order_data !! "instrument" = Some instr ->
  has_underscore key = false ->
  unresolved (default None (ts_instruments ts !! key)) = true ->
  InstrumentResolver.resolve_equity host "NSE" key asked = (Returned (Some i), s1) ->
  py_truthy (token i) = true ->
  execute_order host account_name order_data ts =
    match instruments (ts_session ts) with
    | Some t =>
        place_block host account_name order_data i
          (task_logged
             (EvLog INFO ("✅ Dynamically resolved: " +:+ key +:+ " (Token: " +:+
                          py_str host (token i) +:+ ")"))
             {| ts_session := with_instruments (Some (<[key := Some i]> t)) s1;
                ts_instruments := <[key := Some i]> (ts_instruments ts);
                ts_store := ts_store ts |})
    | None =>
        (Raised (AttributeError "'InstrumentResolver' object has no attribute 'instruments'"),
         {| ts_session := s1;
            ts_instruments := <[key := Some i]> (ts_instruments ts);
            ts_store := ts_store ts |})
    end.
Proof.
  intros key asked Hen Hinstr Hunder Hunres Hres Htoken. unfold order_enabled in Hen.
  assert (Hsame : instruments s1 = instruments (ts_session ts)).
  { pose proof (keeps_resolve_equity_instruments host "NSE" key asked) as Hk.
    rewrite Hres in Hk. exact Hk. }
  unfold execute_order. rewrite Hen. cbn [negb].
  unfold dict_item at 1. rewrite Hinstr.
  unfold bind at 1. unfold lift at 1. cbv beta iota.
  unfold bind at 1. unfold gets at 1. cbv beta iota.
  fold key. rewrite Hunres, Hunder. cbn [negb].
  match goal with |- bind ?res ?k ts = _ => set (K := k); set (RES := res) end.
  destruct (instruments (ts_session ts)) as [t|] eqn:Ht.
  - assert (HRES : RES ts =
      (Returned (Some i),
       task_logged
         (EvLog INFO ("✅ Dynamically resolved: " +:+ key +:+ " (Token: " +:+
                      py_str host (token i) +:+ ")"))
         {| ts_session := with_instruments (Some (<[key := Some i]> t)) s1;
            ts_instruments := <[key := Some i]> (ts_instruments ts);
            ts_store := ts_store ts |})).
    { subst RES. unfold task_log, in_session, instruments_set, resolver_instruments_set,
        resolver_instruments, log, emit. unfold bind, modify, ret.
      cbn [ts_session ts_instruments ts_store]. fold asked. rewrite Hres.
      cbv beta iota. rewrite Htoken. cbv beta iota.
      cbn [ts_session ts_instruments ts_store]. rewrite Hsame. reflexivity. }
    unfold bind. rewrite HRES. reflexivity.
  - assert (HRES : RES ts =
      (Raised (AttributeError "'InstrumentResolver' object has no attribute 'instruments'"),
       {| ts_session := s1;
          ts_instruments := <[key := Some i]> (ts_instruments ts);
          ts_store := ts_store ts |})).
    { subst RES. unfold task_log, in_session, instruments_set, resolver_instruments_set,
        resolver_instruments, log, emit. unfold bind, modify, ret.
      cbn [ts_session ts_instruments ts_store]. fold asked. rewrite Hres.
      cbv beta iota. rewrite Htoken. cbv beta iota.
      cbn [ts_session ts_instruments ts_store]. rewrite Hsame. reflexivity. }
    unfold bind. rewrite HRES. reflexivity.
Qed.
End DynamicResolution.





(** *** threaded_orchestrator.py: the basket task *)
Section BasketTask.
Context (host : Host).
Import ThreadedOrchestrator.

Lemma execute_baskets_spec account_name baskets_config :
  forall results (ts : TaskState),
  exists added ts',
    execute_baskets host account_name baskets_config results ts =
      (Returned (results ++ added)%list, ts') /\
    length added = length (List.filter basket_enabled baskets_config).
Proof.
  induction baskets_config as [|basket rest IH]; intros results ts.
  - exists [], ts. split; [|done]. cbn. by rewrite app_nil_r.
  - cbn [execute_baskets List.filter]. unfold basket_enabled at 1.
    destruct (py_truthy (dict_get_or (entries basket) "enabled" (VBool true))); cbn [negb].
    + unfold bind at 1.
      match goal with |- context [try_except ?b ?h ts] =>
        destruct (try_except_returns (fun _ : PyVal => True) b h) with (s := ts)
          as (r & ts1 & Hrun & _) end.
      * by intros ? ? ? ?.
      * intros e s0. by eexists _, _.
      * rewrite Hrun. destruct (IH (results ++ [r])%list ts1) as (added & ts' & Hrest & Hlen).
        exists (r :: added), ts'. rewrite Hrest, <- app_assoc. split; [done|].
        cbn [length]. by rewrite Hlen.
    + unfold bind at 1, task_log at 1, in_session at 1. cbn -[execute_baskets].
      apply IH.
Qed.

Lemma execute_baskets_on_single_account_spec baskets_config account_name (ts : TaskState) :
  exists results ts',
    _execute_baskets_on_single_account host baskets_config account_name ts =
      (Returned (VDict (<["basket_orders" := VList results]> ∅)), ts') /\
    length results = length (List.filter basket_enabled baskets_config).
Proof.
  unfold _execute_baskets_on_single_account, bind.
  destruct (execute_baskets_spec account_name baskets_config [] ts)
    as (added & ts' & Hrun & Hlen).
  rewrite Hrun. by exists added, ts'.
Qed.
End BasketTask.

(** X14: an account's basket task never raises on a well-formed basket
    list: whatever happens inside a basket (a leg that does not build,
    a failure of the remote call, a legs entry that is no list) is
    caught per basket.  It returns [{"basket_orders": [...]}] with
    exactly one result per enabled basket, in order; disabled baskets
    contribute nothing. *)
Theorem basket_task_reports_every_enabled_basket (host : Host)
  (baskets_config : list ThreadedOrchestrator.Basket) (account_name : string)
  (ts : ThreadedOrchestrator.TaskState) :
  exists results ts',
    ThreadedOrchestrator._execute_baskets_on_single_account host baskets_config account_name ts =
      (Returned (VDict (<["basket_orders" := VList results]> ∅)), ts') /\
    length results = length (List.filter basket_enabled baskets_config).
Proof. apply execute_baskets_on_single_account_spec. Qed.

(** *** account_manager.py: what [initialize_all] keeps and needs *)
Section ManagerMore.
Context (env : Authenticator.Env).
Import AccountManager.

Lemma initialize_single_needs_environment acc :
  py_truthy (Authenticator.getenv env "USER_ID") = false \/
  py_truthy (Authenticator.getenv env "API_KEY") = false ->
  exists e, _initialize_single env acc = Raised e.
Proof.
  intros Henv. unfold _initialize_single.
  destruct (account_name_item acc) as [account_name|e]; [|by eexists].
  destruct (dict_item (acc_fields acc) "user_id") as [uid|e]; [|by eexists].
  destruct (dict_item (acc_fields acc) "api_key") as [key|e]; [|by eexists].
  unfold Authenticator.__init__.
  destruct Henv as [-> | ->]; cbn [negb orb]; [by eexists|].
  rewrite orb_true_r. by eexists.
Qed.

(** What the call leaves of a manager's sessions when no enabled
    account of a name initializes. *)
Lemma initialize_all_keeps completion (m : t) name s :
  List.filter is_enabled (accounts_config m) <> [] ->
  sessions m !! name = Some s ->
  (forall acc, acc ∈ List.filter is_enabled (accounts_config m) ->
               acc_name acc = Some name ->
               exists e, _initialize_single env acc = Raised e) ->
  exists o m',
    initialize_all env completion m = (o, m') /\
    sessions m' !! name = Some s /\
    match o with
    | Returned result => result = sessions m'
    | Raised e =>
        e = KeyError "account_name" /\
        exists acc, acc ∈ List.filter is_enabled (accounts_config m) /\ acc_name acc = None
    end.
Proof.
  intros Hne Hold Hfail.
  destruct (named_or_unnamed (List.filter is_enabled (accounts_config m))) as [Hnamed|Hbad].
  - destruct (initialize_all_runs env completion m Hne Hnamed)
      as (submitted & m0 & m' & Hall & Hm0 & Hcollect & Hrun).
    destruct (collect_spec submitted completion m0) as (m'' & Hrun' & _ & Hfrom & Hkeep & _).
    rewrite Hcollect in Hrun'.
    assert (m'' = m') as -> by (by apply (f_equal snd) in Hrun').
    exists (Returned (sessions m')), m'. split; [exact Hrun|]. split; [|done].
    rewrite Hm0 in Hfrom, Hkeep.
    destruct (Hkeep name) as [s' Hs']; [by eexists|].
    destruct (Hfrom name s' Hs') as [Hsame|(f & _ & Hfut)]; [by rewrite Hs', <- Hsame, Hold|].
    destruct (Forall2_lookup_r _ _ _ _ _ Hall Hfut) as (acc & Hacc & Hfst & Hsnd).
    cbn [fst snd] in Hfst, Hsnd.
    destruct (Hfail acc) as [e He]; [apply list_elem_of_lookup; by exists f|exact Hsnd|].
    rewrite He in Hfst. discriminate Hfst.
  - destruct (initialize_all_unnamed env completion m Hne Hbad) as (m' & Hrun & Hsessions).
    exists (Raised (KeyError "account_name")), m'. split; [exact Hrun|].
    split; [by rewrite Hsessions|]. by split.
Qed.

(** When every enabled account fails to initialize, a new manager is
    left without sessions. *)
Lemma initialize_all_every_login_fails config completion :
  List.filter is_enabled config <> [] ->
  (forall acc, acc ∈ List.filter is_enabled config ->
               exists e, _initialize_single env acc = Raised e) ->
  exists o m',
    initialize_all env completion (__init__ config) = (o, m') /\
    sessions m' = ∅ /\
    match o with
    | Returned result => result = ∅
    | Raised e =>
        e = KeyError "account_name" /\
        exists acc, acc ∈ List.filter is_enabled config /\ acc_name acc = None
    end.
Proof.
  intros Hne Hfail.
  destruct (named_or_unnamed (List.filter is_enabled config)) as [Hnamed|Hbad].
  - destruct (initialize_all_runs env completion (__init__ config) Hne Hnamed)
      as (submitted & m0 & m' & Hall & Hm0 & Hcollect & Hrun).
    destruct (collect_spec submitted completion m0) as (m'' & Hrun' & _ & Hfrom & _).
    rewrite Hcollect in Hrun'.
    assert (m'' = m') as -> by (by apply (f_equal snd) in Hrun').
    assert (Hempty : sessions m' = ∅).
    { apply map_eq. intros name.
      rewrite lookup_empty. destruct (sessions m' !! name) as [s|] eqn:Hs; [|done].
      destruct (Hfrom name s Hs) as [Hold|(f & _ & Hfut)].
      - rewrite Hm0 in Hold. cbn in Hold. by rewrite lookup_empty in Hold.
      - destruct (Forall2_lookup_r _ _ _ _ _ Hall Hfut) as (acc & Hacc & Hfst & _).
        cbn [fst] in Hfst.
        destruct (Hfail acc) as [e He]; [apply list_elem_of_lookup; by exists f|].
        rewrite He in Hfst. discriminate Hfst. }
    exists (Returned (sessions m')), m'. split; [exact Hrun|]. by split.
  - destruct (initialize_all_unnamed env completion (__init__ config) Hne Hbad)
      as (m' & Hrun & Hsessions).
    exists (Raised (KeyError "account_name")), m'. split; [exact Hrun|].
    split; [exact Hsessions|]. by split.
Qed.
End ManagerMore.

(** X15: [initialize_all] only ever adds to [self.sessions]: with an
    enabled account configured, a session the manager already held
    stays in [self.sessions], unchanged, when no enabled account of
    that name initializes in this call, even if such an account now
    fails to log in.  The call returns [self.sessions], unless an
    enabled descriptor has no [account_name], in which case it raises
    [KeyError]. *)
Theorem initialize_all_keeps_earlier_sessions (env : Authenticator.Env)
  (m : AccountManager.t) (completion : list nat) (name : string) (s : AccountSession) :
  let enabled := List.filter AccountManager.is_enabled (AccountManager.accounts_config m) in
  enabled <> [] ->
  AccountManager.sessions m !! name = Some s ->
  (forall acc, acc ∈ enabled -> AccountManager.acc_name acc = Some name ->
               exists e, AccountManager._initialize_single env acc = Raised e) ->
  exists o m',
    AccountManager.initialize_all env completion m = (o, m') /\
    AccountManager.sessions m' !! name = Some s /\
    match o with
    | Returned result => result = AccountManager.sessions m'
    | Raised e =>
        e = KeyError "account_name" /\
        exists acc, acc ∈ enabled /\ AccountManager.acc_name acc = None
    end.
Proof. intros enabled. apply initialize_all_keeps. Qed.

Lemma initialize_all_keeps_earlier_sessions_witness :
  let m := {| AccountManager.accounts_config := [account "B" "BAD"];
              AccountManager.sessions := {["B" := fresh_session broker]};
              AccountManager.logged := [] |} in
  exists o m',
    AccountManager.initialize_all example_env [0] m = (o, m') /\
    AccountManager.sessions m' !! "B" = Some (fresh_session broker).
Proof.
  intros m.
  destruct (initialize_all_keeps_earlier_sessions example_env m [0] "B" (fresh_session broker))
    as (o & m' & Hrun & Hkept & _).
  - vm_compute. discriminate.
  - reflexivity.
  - intros acc Hacc _. change (List.filter _ _) with [account "B" "BAD"] in Hacc.
    apply list_elem_of_singleton in Hacc as ->. eexists. vm_compute. reflexivity.
  - by exists o, m'.
Defined.

(** X16: every account's initialization builds an [Authenticator], whose
    constructor insists on [USER_ID] and [API_KEY] in the process
    environment although the account's own credentials replace them
    right after.  So with either variable unset no account
    initializes: for any configuration with an enabled account,
    [initialize_all] on a new manager keeps no session; it returns the
    empty mapping, unless an enabled descriptor has no [account_name],
    in which case it raises [KeyError]. *)
Theorem initialize_all_needs_environment_credentials (env : Authenticator.Env)
  (accounts_config : list AccountManager.AccountConfig) (completion : list nat) :
  py_truthy (Authenticator.getenv env "USER_ID") = false \/
  py_truthy (Authenticator.getenv env "API_KEY") = false ->
  List.filter AccountManager.is_enabled accounts_config <> [] ->
  exists o m',
    AccountManager.initialize_all env completion (AccountManager.__init__ accounts_config) =
      (o, m') /\
    AccountManager.sessions m' = ∅ /\
    match o with
    | Returned result => result = ∅
    | Raised e =>
        e = KeyError "account_name" /\
        exists acc, acc ∈ List.filter AccountManager.is_enabled accounts_config /\
                    AccountManager.acc_name acc = None
    end.
Proof.
  intros Henv Hne.
  apply initialize_all_every_login_fails; [exact Hne|].
  intros acc _. by apply initialize_single_needs_environment.
Qed.

Lemma initialize_all_needs_environment_credentials_witness :
  let bare : Authenticator.Env :=
    {| Authenticator.getenv _ := VNone;
       Authenticator.connect _ _ := Returned broker |} in
  exists o m',
    AccountManager.initialize_all bare [0; 1]
      (AccountManager.__init__ [account "A" "U1"; account "C" "U3"]) = (o, m') /\
    AccountManager.sessions m' = ∅.
Proof.
  intros bare.
  destruct (initialize_all_needs_environment_credentials bare
              [account "A" "U1"; account "C" "U3"] [0; 1])
    as (o & m' & Hrun & Hempty & _); [by left|vm_compute; discriminate|].
  by exists o, m'.
Defined.

(** *** threaded_orchestrator.py: baskets on every account *)

(** X17: with at least one worker and every account scheduled,
    [execute_basket_on_all_accounts] returns one entry per session and
    none of them is the error record of the collection loop: every
    entry is [{"basket_orders": [...]}] with one result per enabled
    basket, because an account's basket task catches whatever a basket
    raises. *)
Theorem basket_run_reports_every_account (host : Host) (self : ThreadedOrchestrator.t)
  (baskets_config : list ThreadedOrchestrator.Basket)
  (sched : ThreadedOrchestrator.Schedule) (w : ThreadedOrchestrator.World) :
  (0 < ThreadedOrchestrator.max_workers self)%Z ->
  ThreadedOrchestrator.run_order sched ≡ₚ elements (dom (ThreadedOrchestrator.w_sessions w)) ->
  ThreadedOrchestrator.completion sched ≡ₚ elements (dom (ThreadedOrchestrator.w_sessions w)) ->
  exists results w',
    ThreadedOrchestrator.execute_basket_on_all_accounts host self baskets_config sched w =
      (Returned results, w') /\
    dom results = dom (ThreadedOrchestrator.w_sessions w) /\
    forall account_name r, results !! account_name = Some r ->
      exists basket_results,
        r = VDict (<["basket_orders" := VList basket_results]> ∅) /\
        length basket_results = length (List.filter basket_enabled baskets_config).
Proof.
  intros Hworkers Hrun Hcompl.
  destruct (fan_out_isolates
              (ThreadedOrchestrator._execute_baskets_on_single_account host baskets_config)
              (fun account_name => "Basket execution failed for " +:+ account_name)
              self sched w Hworkers Hrun Hcompl)
    as (futures & w1 & results & w' & _ & Hcall & Hdom & Hfutures & Hret & _ & Htask).
  exists results, w'. split; [exact Hcall|]. split; [exact Hdom|].
  intros account_name r Hr.
  assert (Hin : account_name ∈ dom futures).
  { rewrite Hfutures, <- Hdom. by apply elem_of_dom_2 in Hr. }
  apply elem_of_dom in Hin as [o Ho].
  destruct (Htask account_name o Ho) as [ts Hts].
  destruct (execute_baskets_on_single_account_spec host baskets_config account_name ts)
    as (basket_results & ts' & Hspec & Hlen).
  rewrite Hspec in Hts. cbn [fst] in Hts. subst o.
  rewrite (Hret account_name _ Ho) in Hr. apply (inj Some) in Hr. subst r.
  by exists basket_results.
Qed.

Lemma basket_run_reports_every_account_witness :
  let self := {| ThreadedOrchestrator.max_workers := 2 |} in
  let sched := {| ThreadedOrchestrator.run_order := ["A"; "B"];
                  ThreadedOrchestrator.completion := ["B"; "A"] |} in
  let broken := {| ThreadedOrchestrator.entries := {["name" := VStr "pair"]};
                   ThreadedOrchestrator.orders := Some [7] |} in
  exists results w',
    ThreadedOrchestrator.execute_basket_on_all_accounts example_host self [broken] sched
      two_accounts = (Returned results, w') /\
    dom results = {["A"; "B"]}.
Proof.
  intros self sched broken.
  destruct (basket_run_reports_every_account example_host self [broken] sched two_accounts)
    as (results & w' & Hrun & Hdom & _).
  - vm_compute. reflexivity.
  - vm_compute (elements _). reflexivity.
  - vm_compute (elements _). apply perm_swap.
  - exists results, w'. split; [exact Hrun|]. rewrite Hdom. vm_compute. reflexivity.
Defined.

(** *** main.py: what the set-up hands to the orchestrator *)
Section SuiteMore.
Context (env : Authenticator.Env).
Import TradingTestSuite.

Lemma filter_enabled_twice (l : list AccountManager.AccountConfig) :
  List.filter AccountManager.is_enabled (List.filter AccountManager.is_enabled l) =
  List.filter AccountManager.is_enabled l.
Proof.
  induction l as [|acc l IH]; [done|]. cbn [List.filter].
  destruct (AccountManager.is_enabled acc) eqn:Hen; [|exact IH].
  cbn [List.filter]. by rewrite Hen, IH.
Qed.

(** Past the guard the manager's pool is never refused. *)
Lemma initialize_manager_returns completion enabled_accounts (self : t) :
  List.filter AccountManager.is_enabled enabled_accounts <> [] ->
  (forall acc, acc ∈ List.filter AccountManager.is_enabled enabled_accounts ->
               is_Some (AccountManager.acc_name acc)) ->
  exists m,
    initialize_manager env completion enabled_accounts self =
      (Returned tt, {| account_manager := Some m; orchestrator := orchestrator self;
                       sessions := AccountManager.sessions m; logged := logged self |}) /\
    (AccountManager.initialize_all env completion
       (AccountManager.__init__ enabled_accounts)).1 = Returned (AccountManager.sessions m).
Proof.
  intros Hne Hnamed. unfold initialize_manager.
  destruct (initialize_all_runs env completion (AccountManager.__init__ enabled_accounts)
              Hne Hnamed) as (submitted & m0 & m' & _ & _ & _ & Hrun).
  rewrite Hrun. by exists m'.
Qed.

Lemma initialize_manager_unnamed completion enabled_accounts (self : t) :
  List.filter AccountManager.is_enabled enabled_accounts <> [] ->
  (exists acc, acc ∈ List.filter AccountManager.is_enabled enabled_accounts /\
               AccountManager.acc_name acc = None) ->
  exists m,
    initialize_manager env completion enabled_accounts self =
      (Raised (KeyError "account_name"),
       {| account_manager := Some m; orchestrator := orchestrator self;
          sessions := sessions self; logged := logged self |}).
Proof.
  intros Hne Hbad. unfold initialize_manager.
  destruct (initialize_all_unnamed env completion (AccountManager.__init__ enabled_accounts)
              Hne Hbad) as (m' & Hrun & _).
  rewrite Hrun. by exists m'.
Qed.

(** The set-up from the point where the account list is at hand. *)
Lemma initialize_with_accounts completion accounts_config (self : t) :
  List.filter AccountManager.is_enabled accounts_config <> [] ->
  (forall acc, acc ∈ List.filter AccountManager.is_enabled accounts_config ->
               is_Some (AccountManager.acc_name acc)) ->
  exists m,
    (let enabled_accounts := List.filter AccountManager.is_enabled accounts_config in
     match enabled_accounts with
     | [] => raise (ValueError "No enabled accounts found")
     | _ =>
         initialize_manager env completion enabled_accounts;;
         let* sessions' := gets sessions in
         orchestrator_set (Z.min 5 (Z.of_nat (size sessions')));;
         self_log "INFO" ("✓ Multi-account mode initialized with " +:+
                          pretty (size sessions') +:+ " accounts")
     end) self =
    (Returned tt,
     {| account_manager := Some m;
        orchestrator := Some {| ThreadedOrchestrator.max_workers :=
                                  Z.min 5 (Z.of_nat (size (AccountManager.sessions m))) |};
        sessions := AccountManager.sessions m;
        logged := logged self ++
                  [("INFO", "✓ Multi-account mode initialized with " +:+
                            pretty (size (AccountManager.sessions m)) +:+ " accounts")] |}) /\
    (AccountManager.initialize_all env completion
       (AccountManager.__init__ (List.filter AccountManager.is_enabled accounts_config))).1 =
      Returned (AccountManager.sessions m).
Proof.
  intros Hne Hnamed. cbv zeta.
  destruct (initialize_manager_returns completion
              (List.filter AccountManager.is_enabled accounts_config) self)
    as (m & Hrun & Hall); [by rewrite filter_enabled_twice..|].
  exists m. split; [|exact Hall].
  destruct (List.filter AccountManager.is_enabled accounts_config) as [|acc rest] eqn:Hf;
    [done|].
  unfold bind at 1. rewrite Hrun.
  unfold bind, gets, orchestrator_set, self_log, modify. reflexivity.
Qed.

Lemma initialize_with_unnamed completion accounts_config (self : t) :
  List.filter AccountManager.is_enabled accounts_config <> [] ->
  (exists acc, acc ∈ List.filter AccountManager.is_enabled accounts_config /\
               AccountManager.acc_name acc = None) ->
  exists m,
    (let enabled_accounts := List.filter AccountManager.is_enabled accounts_config in
     match enabled_accounts with
     | [] => raise (ValueError "No enabled accounts found")
     | _ =>
         initialize_manager env completion enabled_accounts;;
         let* sessions' := gets sessions in
         orchestrator_set (Z.min 5 (Z.of_nat (size sessions')));;
         self_log "INFO" ("✓ Multi-account mode initialized with " +:+
                          pretty (size sessions') +:+ " accounts")
     end) self =
    (Raised (KeyError "account_name"),
     {| account_manager := Some m; orchestrator := orchestrator self;
        sessions := sessions self; logged := logged self |}).
Proof.
  intros Hne Hbad. cbv zeta.
  destruct (initialize_manager_unnamed completion
              (List.filter AccountManager.is_enabled accounts_config) self)
    as (m & Hrun); [by rewrite filter_enabled_twice..|].
  exists m.
  destruct (List.filter AccountManager.is_enabled accounts_config) as [|acc rest] eqn:Hf;
    [done|].
  unfold bind at 1. by rewrite Hrun.
Qed.
End SuiteMore.

(** X18: the set-up never lets the manager's pool be refused.  Whatever
    the account list, the spreadsheet and the logins do,
    [_initialize_multi_account] either returns with the manager in
    place, [self.sessions] the manager's sessions and an orchestrator
    of [min(5, len(self.sessions))] workers, or raises with sessions
    and orchestrator as they were: one of its own two [ValueError]s,
    raised before the manager is built, or the [KeyError] of an enabled
    descriptor without [account_name], raised by [initialize_all] after
    the manager was assigned. *)
Theorem initialize_multi_account_outcomes (env : Authenticator.Env) (completion : list nat)
  (accounts : list AccountManager.AccountConfig)
  (master_file : option (outcome (list AccountManager.AccountConfig)))
  (self : TradingTestSuite.t) :
  exists o self',
    TradingTestSuite._initialize_multi_account env completion accounts master_file self =
      (o, self') /\
    match o with
    | Returned _ =>
        exists m,
          TradingTestSuite.account_manager self' = Some m /\
          TradingTestSuite.sessions self' = AccountManager.sessions m /\
          TradingTestSuite.orchestrator self' =
            Some {| ThreadedOrchestrator.max_workers :=
                      Z.min 5 (Z.of_nat (size (TradingTestSuite.sessions self'))) |}
    | Raised e =>
        TradingTestSuite.sessions self' = TradingTestSuite.sessions self /\
        TradingTestSuite.orchestrator self' = TradingTestSuite.orchestrator self /\
        ((e = ValueError "No enabled accounts found" \/
          e = ValueError ("No accounts configuration found. " +:+
                          "Need 'accounts' in _master.yaml or MasterFile.xlsx")) /\
         TradingTestSuite.account_manager self' = TradingTestSuite.account_manager self \/
         e = KeyError "account_name" /\
         is_Some (TradingTestSuite.account_manager self'))
    end.
Proof.
  unfold TradingTestSuite._initialize_multi_account.
  assert (Hrest : forall accounts_config self0,
    TradingTestSuite.sessions self0 = TradingTestSuite.sessions self ->
    TradingTestSuite.orchestrator self0 = TradingTestSuite.orchestrator self ->
    TradingTestSuite.account_manager self0 = TradingTestSuite.account_manager self ->
    exists o self',
      (let enabled_accounts := List.filter AccountManager.is_enabled accounts_config in
       match enabled_accounts with
       | [] => raise (ValueError "No enabled accounts found")
       | _ =>
           TradingTestSuite.initialize_manager env completion enabled_accounts;;
           let* sessions' := gets TradingTestSuite.sessions in
           TradingTestSuite.orchestrator_set (Z.min 5 (Z.of_nat (size sessions')));;
           TradingTestSuite.self_log "INFO" ("✓ Multi-account mode initialized with " +:+
                                             pretty (size sessions') +:+ " accounts")
       end) self0 = (o, self') /\
      match o with
      | Returned _ =>
          exists m,
            TradingTestSuite.account_manager self' = Some m /\
            TradingTestSuite.sessions self' = AccountManager.sessions m /\
            TradingTestSuite.orchestrator self' =
              Some {| ThreadedOrchestrator.max_workers :=
                        Z.min 5 (Z.of_nat (size (TradingTestSuite.sessions self'))) |}
      | Raised e =>
          TradingTestSuite.sessions self' = TradingTestSuite.sessions self /\
          TradingTestSuite.orchestrator self' = TradingTestSuite.orchestrator self /\
          ((e = ValueError "No enabled accounts found" \/
            e = ValueError ("No accounts configuration found. " +:+
                            "Need 'accounts' in _master.yaml or MasterFile.xlsx")) /\
           TradingTestSuite.account_manager self' = TradingTestSuite.account_manager self \/
           e = KeyError "account_name" /\
           is_Some (TradingTestSuite.account_manager self'))
      end).
  { intros accounts_config self0 Hs Ho Hm.
    assert (Hcase : List.filter AccountManager.is_enabled accounts_config = [] \/
                    List.filter AccountManager.is_enabled accounts_config <> [])
      by (destruct (List.filter _ accounts_config); [by left|by right]).
    destruct Hcase as [Hf|Hf].
    - cbv zeta. rewrite Hf. eexists _, _. split; [reflexivity|].
      split; [exact Hs|]. split; [exact Ho|]. left. split; [by left|exact Hm].
    - destruct (named_or_unnamed (List.filter AccountManager.is_enabled accounts_config))
        as [Hnamed|Hbad].
      + destruct (initialize_with_accounts env completion accounts_config self0 Hf Hnamed)
          as (m & Hrun & _).
        eexists _, _. split; [exact Hrun|]. by exists m.
      + destruct (initialize_with_unnamed env completion accounts_config self0 Hf Hbad)
          as (m & Hrun).
        eexists _, _. split; [exact Hrun|].
        cbn [TradingTestSuite.sessions TradingTestSuite.orchestrator
             TradingTestSuite.account_manager].
        split; [exact Hs|]. split; [exact Ho|]. right. split; [done|by eexists]. }
  destruct accounts as [|acc accounts].
  - unfold bind at 1, try_except.
    destruct master_file as [[loaded|e]|].
    + unfold lift. cbv beta iota. apply Hrest; done.
    + unfold lift, bind, TradingTestSuite.self_log, modify, raise. cbv beta iota.
      eexists _, _. split; [reflexivity|]. split; [done|]. split; [done|]. left.
      split; [by right|done].
    + unfold lift, bind, TradingTestSuite.self_log, modify, raise. cbv beta iota.
      eexists _, _. split; [reflexivity|]. split; [done|]. split; [done|]. left.
      split; [by right|done].
  - unfold bind at 1, ret. cbv beta iota. apply Hrest; done.
Qed.

(** X19: when the account list has an enabled account, every enabled
    descriptor has an [account_name] and every enabled account fails to
    log in, the set-up still returns: [self.sessions] is empty and the
    orchestrator is built with [min(5, 0) = 0] workers.  The failure
    shows only later: every [execute_on_all_accounts] and
    [execute_basket_on_all_accounts] on that orchestrator raises the
    pool's [ValueError]. *)
Theorem failed_logins_leave_no_workers (host : Host) (env : Authenticator.Env)
  (completion : list nat) (accounts : list AccountManager.AccountConfig)
  (master_file : option (outcome (list AccountManager.AccountConfig)))
  (self : TradingTestSuite.t) :
  List.filter AccountManager.is_enabled accounts <> [] ->
  (forall acc, acc ∈ List.filter AccountManager.is_enabled accounts ->
               is_Some (AccountManager.acc_name acc)) ->
  (forall acc, acc ∈ List.filter AccountManager.is_enabled accounts ->
               exists e, AccountManager._initialize_single env acc = Raised e) ->
  exists self' workers,
    TradingTestSuite._initialize_multi_account env completion accounts master_file self =
      (Returned tt, self') /\
    TradingTestSuite.sessions self' = ∅ /\
    TradingTestSuite.orchestrator self' = Some workers /\
    forall order_config baskets_config sched w,
      (ThreadedOrchestrator.execute_on_all_accounts host workers order_config sched w).1 =
        Raised (ValueError "max_workers must be greater than 0") /\
      (ThreadedOrchestrator.execute_basket_on_all_accounts host workers baskets_config sched w).1 =
        Raised (ValueError "max_workers must be greater than 0").
Proof.
  intros Hne Hnamed Hfail. unfold TradingTestSuite._initialize_multi_account.
  destruct accounts as [|acc0 accounts0] eqn:Haccounts; [done|]. rewrite <- Haccounts in *.
  unfold bind at 1, ret. cbv beta iota.
  destruct (initialize_with_accounts env completion accounts self Hne Hnamed)
    as (m & Hrun & Hall).
  cbv zeta in Hrun. rewrite Hrun.
  destruct (initialize_all_every_login_fails env
              (List.filter AccountManager.is_enabled accounts) completion)
    as (o & m' & Hrun' & _ & Ho).
  - by rewrite filter_enabled_twice.
  - by rewrite filter_enabled_twice.
  - rewrite Hrun' in Hall. cbn [fst] in Hall. subst o.
    assert (Hempty : AccountManager.sessions m = ∅).
    { symmetry. rewrite <- Ho. done. }
    eexists _, _. split; [reflexivity|]. cbn [TradingTestSuite.sessions
      TradingTestSuite.orchestrator]. split; [exact Hempty|]. split; [reflexivity|].
    intros order_config baskets_config sched w. rewrite Hempty, map_size_empty.
    split; reflexivity.
Qed.

Lemma failed_logins_leave_no_workers_witness :
  let fresh := {| TradingTestSuite.account_manager := None;
                  TradingTestSuite.orchestrator := None;
                  TradingTestSuite.sessions := ∅;
                  TradingTestSuite.logged := [] |} in
  exists self' workers,
    TradingTestSuite._initialize_multi_account example_env [0] [account "B" "BAD"] None fresh =
      (Returned tt, self') /\
    TradingTestSuite.orchestrator self' = Some workers /\
    (ThreadedOrchestrator.execute_on_all_accounts example_host workers [tcs_order]
       {| ThreadedOrchestrator.run_order := []; ThreadedOrchestrator.completion := [] |}
       two_accounts).1 = Raised (ValueError "max_workers must be greater than 0").
Proof.
  intros fresh.
  destruct (failed_logins_leave_no_workers example_host example_env [0] [account "B" "BAD"]
              None fresh) as (self' & workers & Hrun & _ & Horch & Hraise).
  - vm_compute. discriminate.
  - intros acc Hacc. change (List.filter _ _) with [account "B" "BAD"] in Hacc.
    apply list_elem_of_singleton in Hacc as ->. by eexists.
  - intros acc Hacc. change (List.filter _ _) with [account "B" "BAD"] in Hacc.
    apply list_elem_of_singleton in Hacc as ->. eexists. vm_compute. reflexivity.
  - exists self', workers. split; [exact Hrun|]. split; [exact Horch|].
    apply Hraise. exact [].
Defined.

(** *** basket_order_executor.py: a witness for the builder's optional fields *)
Lemma build_order_dict_optional_fields_witness :
  let d : gmap string PyVal :=
    list_to_map [ ("instrument", VStr "TCS"); ("transaction_type", VStr "Buy");
                  ("quantity", VInt 1); ("order_type", VStr "Market");
                  ("product_type", VStr "Intraday"); ("price", VInt 0);
                  ("stop_loss", VInt 95) ] in
  let tcs := {| exchange := VStr "NSE"; token := VStr "2885"; symbol := VStr "TCS";
                name := VStr ""; expiry := VStr ""; lot_size := VInt 1 |} in
  let s := with_instruments (Some {["TCS" := Some tcs]}) (fresh_session broker) in
  exists order_dict s',
    BasketOrderExecutor._build_order_dict example_host (VDict d) s = (Returned order_dict, s') /\
    order_dict !! "price" = None /\
    order_dict !! "is_amo" = None /\
    order_dict !! "stop_loss" = Some (AVal (VInt 95)) /\
    order_dict !! "trigger_price" = None.
Proof.
  intros d tcs s.
  pose (run := BasketOrderExecutor._build_order_dict example_host (VDict d) s).
  pose (order_dict := match run.1 with Returned x => x | Raised _ => ∅ end).
  assert (Hrun : BasketOrderExecutor._build_order_dict example_host (VDict d) s =
                 (Returned order_dict, run.2)) by (vm_compute; reflexivity).
  destruct (build_order_dict_optional_fields example_host d order_dict s run.2 Hrun)
    as (Hprice & Hamo & Hrest).
  exists order_dict, run.2. split; [exact Hrun|].
  split; [exact Hprice|]. split; [exact Hamo|]. split.
  - apply (Hrest "stop_loss"). apply list_elem_of_further, list_elem_of_here.
  - apply (Hrest "trigger_price"). apply list_elem_of_here.
Defined.
